(** * SeeYou CUP writer ([aerofiles/seeyou/writer.py])

    A shallow embedding of the [Writer] class and the proofs of its
    specification.

    The writer is a small Python class: a handful of field formatters
    (escaping, coordinates, distances, times, durations) and three
    record-emitting methods that share two pieces of mutable state, the set
    of waypoint names written so far and the flag that says whether the task
    section has been opened.

    Layout of the development:
    - the part of the Python runtime the writer relies on: [str] values and
      the methods used on them, the [%] conversions [%d], [%0Nd], [%.Pf],
      [%0W.Pf] and [%s], binary64 floats with the arithmetic the formatters
      perform, exceptions;
    - the writer itself, method by method, in a state-and-exception monad;
    - lemmas on the runtime (digits, padding, binary64 rounding);
    - the properties of the writer. *)

From Stdlib Require Import ZArith QArith Qround Qabs Lia Bool List Ascii String.
From Stdlib Require Import Floats.SpecFloat.
From stdpp Require Import base strings gmap list.

Open Scope string_scope.
Open Scope Z_scope.

(** ** Python strings *)

Module PyStr.

(** [sep.join(parts)] *)
Fixpoint join (sep : string) (parts : list string) : string :=
  match parts with
  | [] => ""
  | [p] => p
  | p :: rest => p +:+ sep +:+ join sep rest
  end.

(** [s.replace(old, new)] for a one-character [old]: every occurrence,
    left to right. *)
Fixpoint replace (old : ascii) (new : string) (s : string) : string :=
  match s with
  | EmptyString => EmptyString
  | String c rest =>
      if Ascii.eqb c old then new +:+ replace old new rest
      else String c (replace old new rest)
  end.

(** [c * n] *)
Fixpoint repeat (c : ascii) (n : nat) : string :=
  match n with
  | O => EmptyString
  | S n' => String c (repeat c n')
  end.

(** Left padding with zeros up to [width] characters, as the [0] flag of a
    [%] conversion does with the digits that follow the sign. *)
Definition zfill (width : nat) (s : string) : string :=
  repeat "0"%char (width - String.length s) +:+ s.

(** Truth value of a string: [not s] holds for the empty string only. *)
Definition is_empty (s : string) : bool :=
  match s with EmptyString => true | _ => false end.

Definition is_digit (c : ascii) : bool :=
  let n := nat_of_ascii c in (48 <=? n)%nat && (n <=? 57)%nat.

(** A string matches a sequence of character classes when it has one
    character per class, each in its class: the fixed-width patterns
    [^\d{2}\d{2}\.\d{3}[NS]$] and the like. *)
Fixpoint matches (classes : list (ascii -> bool)) (s : string) : bool :=
  match classes, s with
  | [], EmptyString => true
  | cl :: classes', String c s' => cl c && matches classes' s'
  | _, _ => false
  end.

Definition one_of (chars : string) (c : ascii) : bool :=
  existsb (Ascii.eqb c) (list_ascii_of_string chars).

(** Strings made of digits only. *)
Fixpoint all_digits (s : string) : bool :=
  match s with
  | EmptyString => true
  | String c rest => is_digit c && all_digits rest
  end.

End PyStr.

(** ** Python integers: decimal rendering *)

Module PyInt.

Definition digit_char (d : Z) : ascii := ascii_of_nat (48 + Z.to_nat d).

(** Digits of a non-negative integer, least significant first; [fuel]
    bounds the number of digits. *)
Fixpoint digits_go (fuel : nat) (n : Z) (acc : string) : string :=
  match fuel with
  | O => acc
  | S fuel' =>
      let acc' := String (digit_char (n mod 10)) acc in
      if n / 10 =? 0 then acc' else digits_go fuel' (n / 10) acc'
  end.

(** Decimal digits of [n >= 0]; a number has no more decimal digits than
    binary ones. *)
Definition digits (n : Z) : string :=
  digits_go (S (Z.to_nat (Z.log2 n))) n "".

Definition sign_str (negative : bool) : string :=
  if negative then "-" else "".

(** ['%d' % n] *)
Definition format_d (n : Z) : string :=
  sign_str (n <? 0) +:+ digits (Z.abs n).

(** ['%0Wd' % n]: the zeros go between the sign and the digits *)
Definition format_0d (width : nat) (n : Z) : string :=
  let sign := sign_str (n <? 0) in
  sign +:+ PyStr.zfill (width - String.length sign) (digits (Z.abs n)).

End PyInt.

(** ** Python floats

    A Python [float] is an IEEE 754 binary64 number.  It is modelled by
    [spec_float] with precision 53 and maximal exponent 1024; the
    operations are the correctly rounded ones of [SpecFloat] (round to
    nearest, ties to even), which is what the interpreter computes. *)

Module PyFloat.

Definition float : Type := spec_float.

Definition prec : Z := 53.
Definition emax : Z := 1024.

(** The floats the interpreter can hold: canonical mantissa and exponent. *)
Definition valid (x : float) : bool := valid_binary prec emax x.

Definition add : float -> float -> float := SFadd prec emax.
Definition sub : float -> float -> float := SFsub prec emax.
Definition mul : float -> float -> float := SFmul prec emax.
Definition div : float -> float -> float := SFdiv prec emax.
Definition abs : float -> float := SFabs.
Definition ltb : float -> float -> bool := SFltb.
Definition leb : float -> float -> bool := SFleb.

(** [float(n)] of an integer, correctly rounded. *)
Definition of_Z (n : Z) : float := binary_normalize prec emax n 0 false.

(** [n / d] of two integers ([/] is true division): the quotient,
    correctly rounded.  A decimal literal [7.345] denotes the float
    nearest to 7345/1000, which is [of_ratio 7345 1000]. *)
Definition of_ratio (n d : Z) : float :=
  let raw (z : Z) : float :=
    match z with
    | Z0 => S754_zero false
    | Zpos p => S754_finite false p 0
    | Zneg p => S754_finite true p 0
    end in
  div (raw n) (raw d).

Definition is_nan (x : float) : bool :=
  match x with S754_nan => true | _ => false end.

Definition is_finite (x : float) : bool :=
  match x with S754_zero _ | S754_finite _ _ _ => true | _ => false end.

Definition sign_bit (x : float) : bool :=
  match x with
  | S754_zero s | S754_infinity s | S754_finite s _ _ => s
  | S754_nan => false
  end.

(** The rational number a finite float stands for (0 for the others). *)
Definition to_Q (x : float) : Q :=
  match x with
  | S754_finite s m e =>
      let n := if s then Zneg m else Zpos m in
      if 0 <=? e then inject_Z (n * 2 ^ e)
      else Qmake n (Z.to_pos (2 ^ (- e)))
  | _ => 0%Q
  end.

(** [num / den] rounded to the nearest integer, ties to the even one
    ([num >= 0], [den > 0]). *)
Definition round_half_even (num den : Z) : Z :=
  let q := num / den in
  let r := num mod den in
  match 2 * r ?= den with
  | Lt => q
  | Gt => q + 1
  | Eq => if Z.even q then q else q + 1
  end.

(** [|x| * 10^digits] rounded to an integer, for a finite [x]: the
    digits a fixed-point conversion prints. *)
Definition scaled (digits : nat) (x : float) : Z :=
  match x with
  | S754_finite _ m e =>
      let num := Zpos m * 10 ^ Z.of_nat digits in
      if 0 <=? e then num * 2 ^ e
      else round_half_even num (2 ^ (- e))
  | _ => 0
  end.

(** The text of ['%.Pf' % x] after the sign. *)
Definition fixed_body (digits : nat) (x : float) : string :=
  match x with
  | S754_nan => "nan"
  | S754_infinity _ => "inf"
  | _ =>
      let n := scaled digits x in
      let p := 10 ^ Z.of_nat digits in
      PyInt.digits (n / p) +:+
      match digits with
      | O => ""
      | _ => "." +:+ PyStr.zfill digits (PyInt.digits (n mod p))
      end
  end.

(** ['%.Pf' % x] *)
Definition format_f (digits : nat) (x : float) : string :=
  PyInt.sign_str (sign_bit x) +:+ fixed_body digits x.

(** ['%0W.Pf' % x] *)
Definition format_0f (width digits : nat) (x : float) : string :=
  let sign := PyInt.sign_str (sign_bit x) in
  sign +:+ PyStr.zfill (width - String.length sign) (fixed_body digits x).

(** [int(x)] of a finite float: truncation towards zero. *)
Definition trunc (x : float) : Z :=
  match x with
  | S754_finite s m e =>
      let n := if 0 <=? e then Zpos m * 2 ^ e else Zpos m / 2 ^ (- e) in
      if s then - n else n
  | _ => 0
  end.

End PyFloat.

(** ** Exceptions and results *)

(** The exceptions the writer raises itself ([ValueError] and
    [RuntimeError], with their messages) and the ones the interpreter raises
    under it when an argument has a type an operation does not accept. *)
Inductive exn : Type :=
| ValueError (msg : string)
| RuntimeError (msg : string)
| TypeError
| OverflowError.

Inductive result (A : Type) : Type :=
| Ok (a : A)
| Raise (e : exn).

Arguments Ok {A} a.
Arguments Raise {A} e.

#[global] Instance result_ret : MRet result := fun A a => Ok a.

#[global] Instance result_bind : MBind result := fun A B k r =>
  match r with
  | Ok a => k a
  | Raise e => Raise e
  end.

(** ** [datetime] values *)

Module PyDatetime.

Import PyFloat.

(** [datetime.time(hour, minute, second, microsecond)] (no time zone) *)
Record time : Type := Time
  { hour : Z; minute : Z; second : Z; microsecond : Z }.

(** [datetime.date(year, month, day)] *)
Record date : Type := Date { year : Z; month : Z; day : Z }.

(** [datetime.timedelta]: the normalised triple the class stores, with
    [0 <= seconds < 86400] and [0 <= microseconds < 1000000]. *)
Record timedelta : Type := Timedelta
  { days : Z; seconds : Z; microseconds : Z }.

(** [t.strftime('%H:%M:%S')] *)
Definition strftime_HMS (t : time) : string :=
  PyInt.format_0d 2 (hour t) +:+ ":" +:+
  PyInt.format_0d 2 (minute t) +:+ ":" +:+
  PyInt.format_0d 2 (second t).

Definition fraction (us : Z) : string :=
  if us =? 0 then "" else "." +:+ PyInt.format_0d 6 us.

(** [str(t)]: ISO format, the microseconds only when not zero *)
Definition str_time (t : time) : string :=
  strftime_HMS t +:+ fraction (microsecond t).

(** [str(dt)] of a [datetime.datetime] *)
Definition str_datetime (d : date) (t : time) : string :=
  PyInt.format_0d 4 (year d) +:+ "-" +:+
  PyInt.format_0d 2 (month d) +:+ "-" +:+
  PyInt.format_0d 2 (day d) +:+ " " +:+ str_time t.

(** [str(td)] *)
Definition str_timedelta (td : timedelta) : string :=
  let mm := seconds td / 60 in
  let ss := seconds td mod 60 in
  let hh := mm / 60 in
  let mm := mm mod 60 in
  let s := PyInt.format_d hh +:+ ":" +:+ PyInt.format_0d 2 mm +:+ ":" +:+
           PyInt.format_0d 2 ss in
  let s :=
    if days td =? 0 then s
    else PyInt.format_d (days td) +:+ " day" +:+
         (if Z.abs (days td) =? 1 then "" else "s") +:+ ", " +:+ s in
  s +:+ fraction (microseconds td).

(** [td.total_seconds()]: the microseconds divided by [10**6], a true
    division of two integers. *)
Definition total_seconds (td : timedelta) : float :=
  of_ratio ((days td * 86400 + seconds td) * 10 ^ 6 + microseconds td)
           (10 ^ 6).

End PyDatetime.

(** ** Float operations behind [divmod] and [%d] *)

Module PyFloatOps.

Import PyFloat.

Definition is_zero (x : float) : bool :=
  match x with S754_zero _ => true | _ => false end.

(** C's [fmod(x, y)]: the exact remainder, with the sign of [x]. *)
Definition fmod (x y : float) : float :=
  match x, y with
  | S754_nan, _ | _, S754_nan => S754_nan
  | S754_infinity _, _ | _, S754_zero _ => S754_nan
  | _, S754_infinity _ => x
  | S754_zero _, S754_finite _ _ _ => x
  | S754_finite sx mx ex, S754_finite _ my ey =>
      let ez := Z.min ex ey in
      let nx := Zpos mx * 2 ^ (ex - ez) in
      let ny := Zpos my * 2 ^ (ey - ez) in
      binary_normalize prec emax (cond_Zopp sx (nx mod ny)) ez sx
  end.

(** C's [floor(x)] *)
Definition floor (x : float) : float :=
  match x with
  | S754_finite s m e =>
      if 0 <=? e then x
      else binary_normalize prec emax (cond_Zopp s (Zpos m) / 2 ^ (- e)) 0 s
  | _ => x
  end.

Definition copysign (x y : float) : float :=
  let s := sign_bit y in
  match x with
  | S754_zero _ => S754_zero s
  | S754_infinity _ => S754_infinity s
  | S754_finite _ m e => S754_finite s m e
  | S754_nan => S754_nan
  end.

(** [divmod(vx, wx)] of two floats, [wx] not zero, as the interpreter
    computes it: the remainder from [fmod], given the sign of the divisor,
    the quotient snapped to an integral value. *)
Definition divmod (vx wx : float) : float * float :=
  let zero := S754_zero false in
  let one := of_Z 1 in
  let mod_ := fmod vx wx in
  let div_ := div (sub vx mod_) wx in
  let '(mod_, div_) :=
    if negb (is_zero mod_) then
      if negb (Bool.eqb (ltb wx zero) (ltb mod_ zero))
      then (add mod_ wx, sub div_ one)
      else (mod_, div_)
    else (copysign zero wx, div_) in
  let floordiv :=
    if negb (is_zero div_) then
      let floordiv := floor div_ in
      if ltb (of_ratio 1 2) (sub div_ floordiv)
      then add floordiv one else floordiv
    else copysign zero (div vx wx) in
  (floordiv, mod_).

(** [int(x)]: truncation, an error for a NaN or an infinity. *)
Definition to_int (x : float) : result Z :=
  match x with
  | S754_nan => Raise (ValueError "cannot convert float NaN to integer")
  | S754_infinity _ => Raise OverflowError
  | _ => Ok (trunc x)
  end.

End PyFloatOps.

(** ** The values a caller passes to the writer *)

(** Python is untyped; the writer's arguments range over the values its
    docstrings name: [None], booleans, integers, floats, strings, the three
    [datetime] classes, and pairs [(magnitude, unit)]. *)
Inductive atom : Type :=
| VNone
| VBool (b : bool)
| VInt (n : Z)
| VFloat (x : PyFloat.float)
| VStr (s : string)
| VTime (t : PyDatetime.time)
| VDatetime (d : PyDatetime.date) (t : PyDatetime.time)
| VTimedelta (td : PyDatetime.timedelta).

Inductive pyval : Type :=
| Atom (a : atom)
| Tuple2 (first second : atom).

Coercion Atom : atom >-> pyval.

(** What the interpreter provides and the repository does not define: the
    text [str] gives for a float (the shortest decimal that reads back as
    the same float).  The writer reaches it only when a float is handed to a
    [%s] conversion or to [str]; every statement below holds whatever this
    text is. *)
Class PyRuntime : Type := { float_repr : PyFloat.float -> string }.

Section Values.

Context `{PyRuntime}.

(** [str(v)], also what [%s] prints *)
Definition py_str (v : atom) : string :=
  match v with
  | VNone => "None"
  | VBool true => "True"
  | VBool false => "False"
  | VInt n => PyInt.format_d n
  | VFloat x => float_repr x
  | VStr s => s
  | VTime t => PyDatetime.str_time t
  | VDatetime d t => PyDatetime.str_datetime d t
  | VTimedelta td => PyDatetime.str_timedelta td
  end.

(** ['...%s' % v] with a single conversion: a pair is taken for the
    argument tuple and has one argument too many. *)
Definition format_s (v : pyval) : result string :=
  match v with
  | Atom a => Ok (py_str a)
  | Tuple2 _ _ => Raise TypeError
  end.

(** ['...%d' % v] with a single conversion: a number is required; a
    float is truncated. *)
Definition format_d (v : pyval) : result string :=
  match v with
  | Atom (VInt n) => Ok (PyInt.format_d n)
  | Atom (VBool b) => Ok (PyInt.format_d (if b then 1 else 0))
  | Atom (VFloat x) =>
      n ← PyFloatOps.to_int x; Ok (PyInt.format_d n)
  | _ => Raise TypeError
  end.

(** [prefix + v]: only a [str] can be concatenated to a [str]. *)
Definition str_add (prefix : string) (v : pyval) : result string :=
  match v with
  | Atom (VStr s) => Ok (prefix +:+ s)
  | _ => Raise TypeError
  end.

End Values.

(** ** The writer *)

(** The double quote and the backslash, the two characters [escape]
    treats. *)
Definition dquote : ascii := ascii_of_nat 34.
Definition backslash : ascii := ascii_of_nat 92.
Definition CRLF : string := String (ascii_of_nat 13) (String (ascii_of_nat 10) "").

(** [Modelled from the spec:] [WaypointStyles.NORMAL], the default of the
    [style] parameter.  The class [WaypointStyles] lives in [converter.py],
    which is not among the sources; the specification gives the default
    style, "Normal", the code 1. *)
Definition WaypointStyles_NORMAL : atom := VInt 1.

(** The instance state.  [fp] is the sink, modelled by what has been handed
    to [fp.write], one entry per call; [wps] is the set of names of the
    waypoints written so far; [in_task_section] says whether the divider of
    the task section has been written. *)
Record Writer : Type := mkWriter
  { fp : list string;
    wps : gset string;
    in_task_section : bool }.

(** A method runs on the instance and either returns or raises; what it did
    to the instance before raising stays done. *)
Definition M (A : Type) : Type := Writer -> result A * Writer.

#[global] Instance M_ret : MRet M := fun A a w => (Ok a, w).

#[global] Instance M_bind : MBind M := fun A B k m w =>
  match m w with
  | (Ok a, w') => k a w'
  | (Raise e, w') => (Raise e, w')
  end.

Definition raise {A} (e : exn) : M A := fun w => (Raise e, w).

(** A computation that does not touch the instance. *)
Definition lift {A} (r : result A) : M A := fun w => (r, w).

Definition get_in_task_section : M bool := fun w => (Ok (in_task_section w), w).
Definition get_wps : M (gset string) := fun w => (Ok (wps w), w).

Definition set_in_task_section (b : bool) : M unit := fun w =>
  (Ok tt, {| fp := fp w; wps := wps w; in_task_section := b |}).

(** [self.wps.add(name)] *)
Definition wps_add (name : string) : M unit := fun w =>
  (Ok tt, {| fp := fp w; wps := {[ name ]} ∪ wps w;
             in_task_section := in_task_section w |}).

(** [self.fp.write(text)] *)
Definition fp_write (text : string) : M unit := fun w =>
  (Ok tt, {| fp := fp w ++ [text]; wps := wps w;
             in_task_section := in_task_section w |}).

Definition HEADER : string :=
  "name,code,country,lat,lon,elev,style,rwdir,rwlen,freq,desc".
Definition DIVIDER : string := "-----Related Tasks-----".

Section Writer.

Context `{PyRuntime}.

Import PyFloat.

(** ['%.1f%s' % (distance, unit)] *)
Definition DISTANCE_FORMAT_FLOAT (distance : float) (unit : atom) : string :=
  format_f 1 distance +:+ py_str unit.
(** ['%d%s' % (distance, unit)] *)
Definition DISTANCE_FORMAT_INT (distance : Z) (unit : atom) : string :=
  PyInt.format_d distance +:+ py_str unit.
(** ['%s%s' % (distance, unit)] *)
Definition DISTANCE_FORMAT_OTHER (distance unit : atom) : string :=
  py_str distance +:+ py_str unit.

Definition write_line (line : string) : M unit :=
  fp_write (line +:+ CRLF).

Definition write_fields (fields : list string) : M unit :=
  write_line (PyStr.join "," fields).

(** [Writer(fp)]: the instance over a sink that holds [sink] already. *)
Definition init (sink : list string) : result unit * Writer :=
  write_line HEADER {| fp := sink; wps := ∅; in_task_section := false |}.

(** [field] is [None] or a string. *)
Definition escape (field : option string) : string :=
  match field with
  | None => ""
  | Some field =>
      if PyStr.is_empty field then ""
      else
        String dquote
          (PyStr.replace dquote (String backslash (String dquote ""))
             (PyStr.replace backslash (String backslash (String backslash ""))
                field)
           +:+ String dquote "")
  end.

Definition format_coordinate (value : float) (is_latitude : bool)
  : result string :=
  '(hemisphere, format) ←
    (if is_latitude then
       if negb (leb (of_Z (-90)) value && leb value (of_Z 90)) then
         Raise (ValueError ("Invalid latitude: " +:+ float_repr value))
       else
         Ok (if ltb value (of_Z 0) then "S" else "N",
             fun (degrees : Z) (minutes : float) (hemisphere : string) =>
               PyInt.format_0d 2 degrees +:+ format_0f 6 3 minutes
               +:+ hemisphere)
     else
       if negb (leb (of_Z (-180)) value && leb value (of_Z 180)) then
         Raise (ValueError ("Invalid longitude: " +:+ float_repr value))
       else
         Ok (if ltb value (of_Z 0) then "W" else "E",
             fun (degrees : Z) (minutes : float) (hemisphere : string) =>
               PyInt.format_0d 3 degrees +:+ format_0f 6 3 minutes
               +:+ hemisphere));
  let value := abs value in
  degrees ← PyFloatOps.to_int value;
  let minutes := mul (sub value (of_Z degrees)) (of_Z 60) in
  Ok (format degrees minutes hemisphere).

Definition format_latitude (value : float) : result string :=
  format_coordinate value true.

Definition format_longitude (value : float) : result string :=
  format_coordinate value false.

Definition format_distance (distance : pyval) : string :=
  match distance with
  | Atom VNone | Atom (VStr "") => ""
  | _ =>
      let '(distance, unit) :=
        match distance with
        | Tuple2 first second => (first, second)
        | Atom a => (a, VStr "m")
        end in
      match distance with
      | VFloat x => DISTANCE_FORMAT_FLOAT x unit
      | VInt n => DISTANCE_FORMAT_INT n unit
      | VBool b => DISTANCE_FORMAT_INT (if b then 1 else 0) unit
      | _ => DISTANCE_FORMAT_OTHER distance unit
      end
  end.

Definition format_time (time : pyval) : pyval :=
  let time :=
    match time with
    | Atom (VDatetime _ t) => Atom (VTime t)
    | _ => time
    end in
  match time with
  | Atom (VTime t) => Atom (VStr (PyDatetime.strftime_HMS t))
  | _ => time
  end.

Definition format_timedelta (timedelta : pyval) : result pyval :=
  match timedelta with
  | Atom (VTimedelta td) =>
      let '(hours, remainder) :=
        PyFloatOps.divmod (PyDatetime.total_seconds td) (of_Z 3600) in
      let '(minutes, seconds) := PyFloatOps.divmod remainder (of_Z 60) in
      h ← PyFloatOps.to_int hours;
      m ← PyFloatOps.to_int minutes;
      s ← PyFloatOps.to_int seconds;
      Ok (Atom (VStr (PyInt.format_0d 2 h +:+ ":" +:+ PyInt.format_0d 2 m
                      +:+ ":" +:+ PyInt.format_0d 2 s)))
  | _ => Ok timedelta
  end.

(** The positional and keyword parameters of [write_waypoint]. *)
Record waypoint : Type := Waypoint
  { name : option string;
    shortname : option string;
    country : string;
    latitude : float;
    longitude : float;
    elevation : pyval;
    style : atom;
    runway_direction : atom;
    runway_length : pyval;
    frequency : option string;
    description : option string }.

(** A call that gives the five required parameters only. *)
Definition waypoint_defaults (name shortname : option string)
    (country : string) (latitude longitude : float) : waypoint :=
  {| name := name; shortname := shortname; country := country;
     latitude := latitude; longitude := longitude;
     elevation := VStr ""; style := WaypointStyles_NORMAL;
     runway_direction := VStr ""; runway_length := VStr "";
     frequency := Some ""; description := Some "" |}.

Definition write_waypoint (p : waypoint) : M unit :=
  in_task ← get_in_task_section;
  if in_task : bool then
    raise (RuntimeError "Waypoints must be written before any tasks")
  else
    match name p with
    | None | Some "" => raise (ValueError "Waypoint name must not be empty")
    | Some name_ =>
        fields ← lift (
          lat ← format_latitude (latitude p);
          lon ← format_longitude (longitude p);
          Ok [ escape (name p);
               escape (shortname p);
               country p;
               lat;
               lon;
               format_distance (elevation p);
               py_str (style p);
               py_str (runway_direction p);
               format_distance (runway_length p);
               escape (frequency p);
               escape (description p) ]);
        write_fields fields;;
        wps_add name_
    end.

(** The loop of [write_task] over the waypoint names: it stops at the
    first name that has not been written as a waypoint. *)
Fixpoint task_fields (written : gset string) (waypoints : list string)
    (fields : list string) : result (list string) :=
  match waypoints with
  | [] => Ok fields
  | waypoint :: rest =>
      if decide (waypoint ∈ written) then
        task_fields written rest (fields ++ [escape (Some waypoint)])%list
      else
        Raise (ValueError ("Waypoint " +:+ String dquote waypoint +:+
                           String dquote " was not found"))
  end.

Definition write_task (description : option string)
    (waypoints : list string) : M unit :=
  in_task ← get_in_task_section;
  (if in_task : bool then mret tt
   else
     write_line "";;
     write_line DIVIDER;;
     set_in_task_section true);;
  written ← get_wps;
  fields ← lift (task_fields written waypoints [escape description]);
  write_fields fields.

(** [if key in kw: fields.append(render(kw[key]))] *)
Definition append_option (kw : gmap string pyval) (key : string)
    (render : pyval -> result string) (fields : list string)
  : result (list string) :=
  match kw !! key with
  | Some v => field ← render v; Ok (fields ++ [field])%list
  | None => Ok fields
  end.

Definition write_task_options (kw : gmap string pyval) : M unit :=
  in_task ← get_in_task_section;
  if negb in_task then
    raise (RuntimeError "Task options have to be written in task section")
  else
    fields ← lift (
      fields ← Ok ["Options"];
      fields ← append_option kw "start_time"
        (fun v => str_add "NoStart=" (format_time v)) fields;
      fields ← append_option kw "task_time"
        (fun v => t ← format_timedelta v; str_add "TaskTime=" t) fields;
      fields ← append_option kw "waypoint_distance"
        (fun v => s ← format_s v; Ok ("WpDis=" +:+ s)) fields;
      fields ← append_option kw "distance_tolerance"
        (fun v => Ok ("NearDis=" +:+ format_distance v)) fields;
      fields ← append_option kw "altitude_tolerance"
        (fun v => Ok ("NearAlt=" +:+ format_distance v)) fields;
      fields ← append_option kw "min_distance"
        (fun v => s ← format_s v; Ok ("MinDis=" +:+ s)) fields;
      fields ← append_option kw "random_order"
        (fun v => s ← format_s v; Ok ("RandomOrder=" +:+ s)) fields;
      fields ← append_option kw "max_points"
        (fun v => s ← format_d v; Ok ("MaxPts=" +:+ s)) fields;
      fields ← append_option kw "before_points"
        (fun v => s ← format_d v; Ok ("BeforePts=" +:+ s)) fields;
      fields ← append_option kw "after_points"
        (fun v => s ← format_d v; Ok ("AfterPts=" +:+ s)) fields;
      fields ← append_option kw "bonus"
        (fun v => s ← format_d v; Ok ("Bonus=" +:+ s)) fields;
      Ok fields);
    write_fields fields.

(** *** Sequences of calls *)

(** One call on a writer. *)
Inductive call : Type :=
| CallWaypoint (p : waypoint)
| CallTask (description : option string) (waypoints : list string)
| CallTaskOptions (kw : gmap string pyval).

Definition exec (c : call) : M unit :=
  match c with
  | CallWaypoint p => write_waypoint p
  | CallTask description waypoints => write_task description waypoints
  | CallTaskOptions kw => write_task_options kw
  end.

(** The instance after a sequence of calls; a caller that catches an
    exception goes on with the instance as the failed call left it. *)
Definition run (calls : list call) (w : Writer) : Writer :=
  foldl (fun w c => snd (exec c w)) w calls.

Definition is_task_call (c : call) : bool :=
  match c with CallTask _ _ => true | _ => false end.

End Writer.

(** ** Specification-side definitions *)

(** A fresh writer over a sink. *)
Definition new_writer (sink : list string) : Writer := snd (init sink).

(** What [escape] does to one character. *)
Definition escape_char (c : ascii) : string :=
  if Ascii.eqb c backslash then String backslash (String backslash "")
  else if Ascii.eqb c dquote then String backslash (String dquote "")
  else String c "".

Fixpoint escape_chars (s : string) : string :=
  match s with
  | EmptyString => EmptyString
  | String c rest => escape_char c +:+ escape_chars rest
  end.

Definition quoted (s : string) : string :=
  String dquote (s +:+ String dquote "").

(** The line of a task: the escaped description, then the escaped names. *)
Definition task_line (description : option string) (waypoints : list string)
  : string :=
  PyStr.join "," (escape description :: map (fun n => escape (Some n)) waypoints).

Definition not_found (waypoint : string) : exn :=
  ValueError ("Waypoint " +:+ String dquote waypoint +:+
              String dquote " was not found").

(** The two lines that open the task section. *)
Definition task_section_opening : list string := [CRLF; DIVIDER +:+ CRLF].

Definition append_lines (w : Writer) (lines : list string) : Writer :=
  {| fp := fp w ++ lines; wps := wps w; in_task_section := in_task_section w |}.

Definition opened (w : Writer) : Writer :=
  if in_task_section w then w
  else {| fp := fp w ++ task_section_opening; wps := wps w;
          in_task_section := true |}.

(** The patterns [^\d{2}\d{2}\.\d{3}[NS]$] and [^\d{3}\d{2}\.\d{3}[EW]$]. *)
Definition latitude_pattern : list (ascii -> bool) :=
  [PyStr.is_digit; PyStr.is_digit; PyStr.is_digit; PyStr.is_digit;
   PyStr.one_of "."; PyStr.is_digit; PyStr.is_digit; PyStr.is_digit;
   PyStr.one_of "NS"].

Definition longitude_pattern : list (ascii -> bool) :=
  [PyStr.is_digit; PyStr.is_digit; PyStr.is_digit; PyStr.is_digit;
   PyStr.is_digit; PyStr.one_of "."; PyStr.is_digit; PyStr.is_digit;
   PyStr.is_digit; PyStr.one_of "EW"].

Section OptionTable.

Context `{PyRuntime}.

(** The table of the task options: key, emitted token, formatting of the
    value. *)
Definition time_formatted (v : pyval) : result string :=
  str_add "" (format_time v).
Definition duration_formatted (v : pyval) : result string :=
  t ← format_timedelta v; str_add "" t.
Definition boolean_literal (v : pyval) : result string := format_s v.
Definition distance_formatted (v : pyval) : result string :=
  Ok (format_distance v).
Definition integer (v : pyval) : result string := format_d v.

Definition option_table : list (string * string * (pyval -> result string)) :=
  [ ("start_time", "NoStart=", time_formatted);
    ("task_time", "TaskTime=", duration_formatted);
    ("waypoint_distance", "WpDis=", boolean_literal);
    ("distance_tolerance", "NearDis=", distance_formatted);
    ("altitude_tolerance", "NearAlt=", distance_formatted);
    ("min_distance", "MinDis=", boolean_literal);
    ("random_order", "RandomOrder=", boolean_literal);
    ("max_points", "MaxPts=", integer);
    ("before_points", "BeforePts=", integer);
    ("after_points", "AfterPts=", integer);
    ("bonus", "Bonus=", integer) ].

Definition recognized_keys : list string := (fun e => e.1.1) <$> option_table.

(** A row of the table whose key is supplied, with the value. *)
Definition select (kw : gmap string pyval)
    (row : string * string * (pyval -> result string))
  : option (string * (pyval -> result string) * pyval) :=
  let '(key, token, fmt) := row in (fun v => (token, fmt, v)) <$> kw !! key.

(** The field of a supplied row: the token followed by the formatted
    value. *)
Definition render (r : string * (pyval -> result string) * pyval)
  : result string :=
  let '(token, fmt, v) := r in s ← fmt v; Ok (token +:+ s).

(** The rows of the table whose key is supplied, in the order of the
    table. *)
Definition supplied (kw : gmap string pyval)
  : list (string * (pyval -> result string) * pyval) :=
  omap (select kw) option_table.

(** One field per supplied row. *)
Definition option_fields (kw : gmap string pyval) : result (list string) :=
  mapM render (supplied kw).

Definition options_line (fields : list string) : string :=
  PyStr.join "," ("Options" :: fields) +:+ CRLF.

End OptionTable.

(** ** Sample values for the concrete runs *)

(** The statements below hold for every runtime; the concrete runs take
    one in which the text of a float is left empty. *)
Definition sample_runtime : PyRuntime := {| float_repr := fun _ => "" |}.

(** The coordinates of the docstring of [write_waypoint]: [51 + 7.345 / 60.]
    and [6 + 24.765 / 60.]. *)
Definition meiersberg_latitude : PyFloat.float :=
  PyFloat.add (PyFloat.of_Z 51)
    (PyFloat.div (PyFloat.of_ratio 7345 1000) (PyFloat.of_Z 60)).
Definition meiersberg_longitude : PyFloat.float :=
  PyFloat.add (PyFloat.of_Z 6)
    (PyFloat.div (PyFloat.of_ratio 24765 1000) (PyFloat.of_Z 60)).

Definition meiersberg : waypoint :=
  waypoint_defaults (Some "Meiersberg") (Some "MEIER") "DE"
    meiersberg_latitude meiersberg_longitude.

(** The writer after the waypoint of the docstring has been written. *)
Definition meiersberg_written : Writer :=
  snd (@write_waypoint sample_runtime meiersberg (new_writer [])).

(** A waypoint north of the pole, and one without a name (north of the
    pole as well). *)
Definition north_of_pole : waypoint :=
  waypoint_defaults (Some "Nowhere") (Some "NOWH") "XX"
    (PyFloat.of_Z 91) (PyFloat.of_Z 0).
Definition nameless : waypoint :=
  waypoint_defaults (Some "") (Some "NOWH") "XX"
    (PyFloat.of_Z 91) (PyFloat.of_Z 0).

(** A writer whose task section is open. *)
Definition task_section_writer : Writer :=
  {| fp := []; wps := {[ "MEIER" ]}; in_task_section := true |}.

(** The input of the escaping example (a, double quote, b, backslash, c)
    and the nine characters of its escaped form. *)
Definition escape_sample_input : string :=
  String "a" (String dquote (String "b" (String backslash (String "c" "")))).
Definition escape_sample_output : string :=
  String dquote (String "a" (String backslash (String dquote (String "b"
    (String backslash (String backslash (String "c" (String dquote "")))))))).

(** The text is a number with exactly one decimal place, followed by
    [suffix]: an optional minus sign, one digit or more, a point, one
    digit. *)
Definition one_decimal_place (text suffix : string) : Prop :=
  exists (negative : bool) (whole : string) (d : ascii),
    whole <> "" /\ PyStr.all_digits whole = true /\ PyStr.is_digit d = true /\
    text = PyInt.sign_str negative +:+ whole +:+ "." +:+ String d suffix.

(** The text is an integer in decimal, followed by [suffix]: an optional
    minus sign and digits, no decimal point. *)
Definition no_decimal_point (text suffix : string) : Prop :=
  exists (negative : bool) (whole : string),
    whole <> "" /\ PyStr.all_digits whole = true /\
    text = PyInt.sign_str negative +:+ whole +:+ suffix.


(** The keyword arguments of the docstring of [write_task_options]. *)
Definition docstring_options : gmap string pyval :=
  <[ "start_time" := Atom (VTime (PyDatetime.Time 12 34 56 0)) ]>
  (<[ "task_time" := Atom (VTimedelta (PyDatetime.Timedelta 0 6312 0)) ]>
  (<[ "waypoint_distance" := Atom (VBool false) ]>
  (<[ "distance_tolerance" :=
        Tuple2 (VFloat (PyFloat.of_ratio 7 10)) (VStr "km") ]>
  (<[ "altitude_tolerance" := Atom (VFloat (PyFloat.of_Z 300)) ]> ∅)))).

Section OptionRows.

Context `{PyRuntime}.

(** The rows of a table appended one after the other, as the body of
    [write_task_options] does with its eleven [if]s. *)
Fixpoint append_rows (kw : gmap string pyval)
    (rows : list (string * string * (pyval -> result string)))
    (fields : list string) : result (list string) :=
  match rows with
  | [] => Ok fields
  | (key, token, fmt) :: rest =>
      fields ← append_option kw key
                 (fun v => s ← fmt v; Ok (token +:+ s)) fields;
      append_rows kw rest fields
  end.

End OptionRows.

(** A float that is zero, or finite with magnitude at most [2^k], with
    sign [s]. *)
Definition below_pow2 (k : Z) (s : bool) (x : PyFloat.float) : Prop :=
  match x with
  | S754_zero s' => s' = s
  | S754_finite s' m e => s' = s /\ e <= k /\ Zpos m <= 2 ^ (k - e)
  | _ => False
  end.

(** The value of a float lies between [- bound] and [bound]: the float is
    neither a NaN nor an infinity and the number it stands for is in the
    interval. *)
Definition in_range (bound : Z) (v : PyFloat.float) : Prop :=
  PyFloat.is_finite v = true /\
  (inject_Z (- bound) <= PyFloat.to_Q v)%Q /\
  (PyFloat.to_Q v <= inject_Z bound)%Q.

(** The whole degrees of a coordinate: the integer part of its absolute
    value. *)
Definition whole_degrees (v : PyFloat.float) : Z :=
  Qfloor (Qabs (PyFloat.to_Q v)).

(** The minutes of a coordinate as the writer computes them: the float
    nearest to 60 times the fractional part. *)
Definition decimal_minutes (v : PyFloat.float) : PyFloat.float :=
  PyFloat.mul
    (PyFloat.sub (PyFloat.abs v) (PyFloat.of_Z (whole_degrees v)))
    (PyFloat.of_Z 60).

(** ** Definitions for the layout of the sink *)

(** The columns the header names. *)
Definition header_columns : list string :=
  ["name"; "code"; "country"; "lat"; "lon"; "elev"; "style"; "rwdir";
   "rwlen"; "freq"; "desc"].

(** An entry of the sink that is a line: some text, then CR LF. *)
Definition crlf_terminated (text : string) : Prop :=
  exists line, text = line +:+ CRLF.


Section WaypointLine.

Context `{PyRuntime}.

(** The fields of the line of a waypoint, the two coordinates formatted. *)
Definition waypoint_fields (p : waypoint) (lat lon : string) : list string :=
  [ escape (name p); escape (shortname p); country p; lat; lon;
    format_distance (elevation p); py_str (style p);
    py_str (runway_direction p); format_distance (runway_length p);
    escape (frequency p); escape (description p) ].

Definition waypoint_line (p : waypoint) (lat lon : string) : string :=
  PyStr.join "," (waypoint_fields p lat lon) +:+ CRLF.

End WaypointLine.

(** ** Reading an escaped field back *)

(** The text up to the first double quote that no backslash precedes, a
    backslash giving the character after it. *)
Fixpoint unescape (s : string) : string :=
  match s with
  | EmptyString => EmptyString
  | String c rest =>
      if Ascii.eqb c backslash then
        match rest with
        | EmptyString => EmptyString
        | String c' rest' => String c' (unescape rest')
        end
      else if Ascii.eqb c dquote then EmptyString
      else String c (unescape rest)
  end.

(** The text of a field: what its quotes hold, nothing for an empty
    field. *)
Definition read_field (field : string) : string :=
  match field with
  | EmptyString => EmptyString
  | String _ rest => unescape rest
  end.

(** ** Times of day *)

(** The fields [datetime.time] accepts. *)
Definition valid_time (t : PyDatetime.time) : Prop :=
  0 <= PyDatetime.hour t < 24 /\ 0 <= PyDatetime.minute t < 60 /\
  0 <= PyDatetime.second t < 60.

(** The pattern [^\d{2}:\d{2}:\d{2}$]. *)
Definition hms_pattern : list (ascii -> bool) :=
  [PyStr.is_digit; PyStr.is_digit; PyStr.one_of ":";
   PyStr.is_digit; PyStr.is_digit; PyStr.one_of ":";
   PyStr.is_digit; PyStr.is_digit].

(** ** Coordinates *)

(** The float of the integer [d] stands for [d] exactly, with a negative
    exponent: so it is for the whole degrees of a coordinate. *)
Definition of_Z_exact (d : Z) : bool :=
  match PyFloat.of_Z d with
  | S754_finite false m e =>
      (e <? 0) && (-52 <=? e) && (Zpos m =? d * 2 ^ (- e))
  | _ => false
  end.

(** The number a float stands for is below zero. *)
Definition negative (v : PyFloat.float) : bool :=
  if Qlt_le_dec (PyFloat.to_Q v) 0 then true else false.

(** The two kinds of coordinate: the bound of the range, the number of
    digits of the degrees, the letter of the hemisphere, the pattern of
    the text. *)
Definition coordinate_bound (is_latitude : bool) : Z :=
  if is_latitude then 90 else 180.

Definition degree_digits (is_latitude : bool) : nat :=
  if is_latitude then 2%nat else 3%nat.

Definition hemisphere (is_latitude below_zero : bool) : string :=
  match is_latitude, below_zero with
  | true, true => "S"
  | true, false => "N"
  | false, true => "W"
  | false, false => "E"
  end.

Definition coordinate_pattern (is_latitude : bool) : list (ascii -> bool) :=
  if is_latitude then latitude_pattern else longitude_pattern.

Section RangeError.

Context `{PyRuntime}.

(** The error of a coordinate out of range. *)
Definition range_error (is_latitude : bool) (value : PyFloat.float) : exn :=
  ValueError ((if is_latitude then "Invalid latitude: "
               else "Invalid longitude: ") +:+ float_repr value).

End RangeError.

(** ** Whole numbers as floats *)

(** The float that stands for the whole number [k], below [2^53] in
    magnitude: the mantissa is [k] brought to 53 bits. *)
Definition whole_float (s : bool) (k : Z) : PyFloat.float :=
  match k with
  | Zpos p =>
      let d := Zpos (digits2_pos p) in
      S754_finite s (Z.to_pos (k * 2 ^ (53 - d))) (d - 53)
  | _ => S754_zero s
  end.

(** ** Durations *)

(** The seconds of a duration, the microseconds left out. *)
Definition whole_seconds (td : PyDatetime.timedelta) : Z :=
  PyDatetime.days td * 86400 + PyDatetime.seconds td.

(** Hours, minutes and seconds of a number of seconds, two digits each at
    least, with colons between. *)
Definition hms (total : Z) : string :=
  PyInt.format_0d 2 (total / 3600) +:+ ":" +:+
  PyInt.format_0d 2 (total mod 3600 / 60) +:+ ":" +:+
  PyInt.format_0d 2 (total mod 60).

(** ** Scripts *)

(** A waypoint the writer accepts: a name that is not empty, and
    coordinates the interpreter can hold, in their ranges. *)
Definition well_formed (p : waypoint) : Prop :=
  (exists n, name p = Some n /\ n <> "") /\
  PyFloat.valid (latitude p) = true /\
  in_range (coordinate_bound true) (latitude p) /\
  PyFloat.valid (longitude p) = true /\
  in_range (coordinate_bound false) (longitude p).

(** A task: its description and the names it lists. *)
Definition task : Type := option string * list string.

(** The names of a task are names of the waypoints. *)
Definition lists_names_of (waypoints : list waypoint) (t : task) : Prop :=
  Forall (fun n => exists p, In p waypoints /\ name p = Some n) t.2.

Section Scripts.

Context `{PyRuntime}.

(** The waypoints, then the tasks. *)
Definition script (waypoints : list waypoint) (tasks : list task)
  : list call :=
  (map CallWaypoint waypoints ++ map (fun t => CallTask t.1 t.2) tasks)%list.

(** What the calls of a sequence return or raise, in order. *)
Fixpoint results (calls : list call) (w : Writer) : list (result unit) :=
  match calls with
  | [] => []
  | c :: rest => fst (exec c w) :: results rest (snd (exec c w))
  end.

End Scripts.

(** The waypoints of a small file and a task over them. *)
Definition sample_waypoints : list waypoint := [meiersberg].
Definition sample_tasks : list task := [(Some "500 km FAI", ["Meiersberg"])].

(** ** Values of the documented types *)

(** A time of the start line: a [datetime.time], a [datetime.datetime] or a
    text. *)
Definition time_or_text (v : pyval) : Prop :=
  match v with
  | Atom (VStr _) | Atom (VTime _) | Atom (VDatetime _ _) => True
  | _ => False
  end.

(** A time for the task: a text, or a [datetime.timedelta] of whole
    seconds, from zero up. *)
Definition duration_or_text (v : pyval) : Prop :=
  match v with
  | Atom (VStr _) => True
  | Atom (VTimedelta td) =>
      PyDatetime.microseconds td = 0 /\ 0 <= whole_seconds td < 2 ^ 53
  | _ => False
  end.

(** A value that is not a pair. *)
Definition single (v : pyval) : Prop :=
  match v with Atom _ => True | Tuple2 _ _ => False end.

(** An [int] (a [bool] is one). *)
Definition whole_number (v : pyval) : Prop :=
  match v with Atom (VInt _) | Atom (VBool _) => True | _ => False end.

(** The types the docstring of [write_task_options] gives to the keys. *)
Definition documented_type (key : string) : pyval -> Prop :=
  if String.eqb key "start_time" then time_or_text
  else if String.eqb key "task_time" then duration_or_text
  else if String.eqb key "waypoint_distance" then single
  else if String.eqb key "min_distance" then single
  else if String.eqb key "random_order" then single
  else if String.eqb key "max_points" then whole_number
  else if String.eqb key "before_points" then whole_number
  else if String.eqb key "after_points" then whole_number
  else if String.eqb key "bonus" then whole_number
  else fun _ => True.

(** Every value supplied has the type documented for its key. *)
Definition documented (kw : gmap string pyval) : Prop :=
  forall key v, kw !! key = Some v -> documented_type key v.

(** ** Lemmas on strings and decimal digits *)

Module PyStrFacts.

Import PyStr.

Lemma app_nil_l (s : string) : "" +:+ s = s.
Proof. reflexivity. Qed.

Lemma app_cons (c : ascii) (s t : string) :
  String c s +:+ t = String c (s +:+ t).
Proof. reflexivity. Qed.

Lemma app_empty_r (s : string) : s +:+ "" = s.
Proof.
  induction s as [|c s IH]; [done|]. by rewrite app_cons, IH.
Qed.

Lemma app_assoc (a b c : string) : (a +:+ b) +:+ c = a +:+ (b +:+ c).
Proof.
  induction a as [|x a IH]; [done|]. by rewrite !app_cons, IH.
Qed.

Lemma length_app (a b : string) :
  String.length (a +:+ b) = (String.length a + String.length b)%nat.
Proof.
  induction a as [|x a IH]; [done|]. rewrite app_cons. simpl. by rewrite IH.
Qed.

Lemma length_repeat (c : ascii) (n : nat) : String.length (repeat c n) = n.
Proof. induction n as [|n IH]; simpl; [done|]. by rewrite IH. Qed.

Lemma replace_app (old : ascii) (new a b : string) :
  replace old new (a +:+ b) = replace old new a +:+ replace old new b.
Proof.
  induction a as [|x a IH]; [done|]. rewrite app_cons. simpl.
  destruct (Ascii.eqb x old); rewrite IH; [|done].
  by rewrite app_assoc.
Qed.

Lemma all_digits_app (a b : string) :
  all_digits (a +:+ b) = all_digits a && all_digits b.
Proof.
  induction a as [|x a IH]; [done|]. rewrite app_cons. simpl.
  by rewrite IH, andb_assoc.
Qed.

Lemma all_digits_repeat_zero (n : nat) : all_digits (repeat "0"%char n) = true.
Proof. induction n as [|n IH]; simpl; [done|]. exact IH. Qed.

(** A string of [n] digits matches [n] times the class of digits. *)
Lemma matches_digits (s : string) (classes : list (ascii -> bool)) (rest : string) :
  all_digits s = true ->
  matches (List.repeat is_digit (String.length s) ++ classes) (s +:+ rest) =
  matches classes rest.
Proof.
  induction s as [|c s IH]; [done|]. rewrite app_cons. simpl.
  intros [Hc Hs]%andb_prop. rewrite Hc. simpl. by apply IH.
Qed.

Lemma zfill_short (width : nat) (s : string) :
  (String.length s <= width)%nat ->
  String.length (zfill width s) = width.
Proof.
  intros Hle. unfold zfill. rewrite length_app, length_repeat. lia.
Qed.

Lemma all_digits_zfill (width : nat) (s : string) :
  all_digits s = true -> all_digits (zfill width s) = true.
Proof.
  intros Hs. unfold zfill.
  by rewrite all_digits_app, all_digits_repeat_zero, Hs.
Qed.

End PyStrFacts.

Module PyIntFacts.

Import PyStr PyStrFacts PyInt.

Lemma is_digit_digit_char (d : Z) :
  0 <= d < 10 -> is_digit (digit_char d) = true.
Proof.
  intros Hd.
  assert (d = 0 \/ d = 1 \/ d = 2 \/ d = 3 \/ d = 4 \/ d = 5 \/ d = 6 \/
          d = 7 \/ d = 8 \/ d = 9) as Hcases by lia.
  repeat (destruct Hcases as [->|Hcases]; [reflexivity|]). by subst.
Qed.

#[local] Arguments digit_char : simpl never.
#[local] Arguments is_digit : simpl never.

(** The digits written by [digits_go]: at most [k] of them for a number
    below [10^k], at least one when there is fuel. *)
Lemma digits_go_spec (fuel k : nat) (n : Z) (acc : string) :
  (1 <= k)%nat -> 0 <= n < 10 ^ Z.of_nat k ->
  exists ds, digits_go fuel n acc = ds +:+ acc /\
             (String.length ds <= k)%nat /\
             ((1 <= fuel)%nat -> (1 <= String.length ds)%nat) /\
             all_digits ds = true.
Proof.
  revert k n acc. induction fuel as [|fuel IH]; intros k n acc Hk Hn.
  - exists "". cbn [digits_go String.length all_digits].
    repeat split; try done; lia.
  - cbn [digits_go].
    assert (Hd : is_digit (digit_char (n mod 10)) = true).
    { apply is_digit_digit_char. apply Z.mod_pos_bound. lia. }
    destruct (n / 10 =? 0) eqn:Hq.
    + exists (String (digit_char (n mod 10)) "").
      cbn [String.length all_digits]. rewrite Hd.
      repeat split; try done; lia.
    + apply Z.eqb_neq in Hq.
      destruct k as [|[|k]]; [lia| |].
      * exfalso. apply Hq. apply Z.div_small.
        change (10 ^ Z.of_nat 1) with 10 in Hn. lia.
      * destruct (IH (S k) (n / 10) (String (digit_char (n mod 10)) acc))
          as (ds & Heq & Hlen & _ & Hall); [lia| |].
        { split; [apply Z.div_pos; lia|].
          apply Z.div_lt_upper_bound; [lia|].
          replace (Z.of_nat (S (S k))) with (Z.of_nat (S k) + 1) in Hn by lia.
          rewrite Z.pow_add_r in Hn by lia. lia. }
        exists (ds +:+ String (digit_char (n mod 10)) "").
        rewrite Heq, app_assoc, app_cons, app_nil_l.
        rewrite length_app, all_digits_app, Hall.
        cbn [String.length all_digits]. rewrite Hd.
        repeat split; try done; lia.
Qed.

Lemma digits_spec (k : nat) (n : Z) :
  (1 <= k)%nat -> 0 <= n < 10 ^ Z.of_nat k ->
  (1 <= String.length (digits n) <= k)%nat /\ all_digits (digits n) = true.
Proof.
  intros Hk Hn. unfold digits.
  destruct (digits_go_spec (S (Z.to_nat (Z.log2 n))) k n "" Hk Hn)
    as (ds & -> & Hlen & Hpos & Hall).
  rewrite app_empty_r. repeat split; try done; lia.
Qed.

(** Any non-negative number: digits only, at least one. *)
Lemma digits_all_digits (n : Z) :
  0 <= n ->
  (1 <= String.length (digits n))%nat /\ all_digits (digits n) = true.
Proof.
  intros Hn.
  destruct (digits_spec (S (Z.to_nat n)) n) as [[Hlen _] Hall]; [lia| |done].
  split; [done|].
  apply Z.lt_le_trans with (2 ^ Z.of_nat (S (Z.to_nat n))).
  - rewrite Nat2Z.inj_succ, Z2Nat.id, Z.pow_succ_r by done.
    pose proof (Z.pow_gt_lin_r 2 n). lia.
  - apply Z.pow_le_mono_l. lia.
Qed.

(** ['%0kd' % n] of a number of at most [k] digits: exactly [k] digits. *)
Lemma format_0d_spec (k : nat) (n : Z) :
  (1 <= k)%nat -> 0 <= n < 10 ^ Z.of_nat k ->
  String.length (format_0d k n) = k /\ all_digits (format_0d k n) = true.
Proof.
  intros Hk Hn. unfold format_0d.
  destruct (Z.ltb_spec n 0) as [|_]; [lia|].
  cbn [sign_str String.length]. rewrite app_nil_l, Z.abs_eq, Nat.sub_0_r by lia.
  destruct (digits_spec k n Hk Hn) as [[_ Hlen] Hall].
  split; [by apply zfill_short|by apply all_digits_zfill].
Qed.

End PyIntFacts.

(** ** Lemmas on binary64 arithmetic *)

Module PyFloatFacts.

Import PyFloat.

(** *** Number of binary digits *)

Lemma digits2_pos_bounds (p : positive) :
  2 ^ (Zpos (digits2_pos p) - 1) <= Zpos p < 2 ^ Zpos (digits2_pos p).
Proof.
  induction p as [p IH|p IH|]; cbn [digits2_pos].
  - rewrite Pos2Z.inj_succ, (Pos2Z.inj_xI p).
    replace (Z.succ (Zpos (digits2_pos p)) - 1)
      with (Z.succ (Zpos (digits2_pos p) - 1)) by lia.
    rewrite !Z.pow_succ_r by lia. lia.
  - rewrite Pos2Z.inj_succ, (Pos2Z.inj_xO p).
    replace (Z.succ (Zpos (digits2_pos p)) - 1)
      with (Z.succ (Zpos (digits2_pos p) - 1)) by lia.
    rewrite !Z.pow_succ_r by lia. lia.
  - change (2 ^ (1 - 1)) with 1. change (2 ^ 1) with 2. lia.
Qed.

Lemma digits2_pos_le (p : positive) (k : Z) :
  Zpos p < 2 ^ k -> Zpos (digits2_pos p) <= k.
Proof.
  intros Hlt. destruct (digits2_pos_bounds p) as [Hlow _].
  destruct (Z.le_gt_cases (Zpos (digits2_pos p)) k) as [|Hgt]; [done|].
  assert (2 ^ k <= 2 ^ (Zpos (digits2_pos p) - 1))
    by (apply Z.pow_le_mono_r; lia).
  lia.
Qed.

Lemma digits2_pos_gt (p : positive) (k : Z) :
  0 <= k -> 2 ^ k <= Zpos p -> k < Zpos (digits2_pos p).
Proof.
  intros Hk Hle. destruct (digits2_pos_bounds p) as [_ Hup].
  destruct (Z.lt_ge_cases k (Zpos (digits2_pos p))) as [|Hge]; [done|].
  assert (2 ^ Zpos (digits2_pos p) <= 2 ^ k) by (apply Z.pow_le_mono_r; lia).
  lia.
Qed.

(** *** Shifts *)

Lemma iter_xO (p : positive) (n : positive) :
  Zpos (Pos.iter xO p n) = Zpos p * 2 ^ Zpos n.
Proof.
  induction n as [|n IH] using Pos.peano_ind.
  - cbn [Pos.iter]. rewrite (Pos2Z.inj_xO p). change (2 ^ 1) with 2. lia.
  - rewrite Pos.iter_succ, (Pos2Z.inj_xO (Pos.iter xO p n)), IH.
    rewrite Pos2Z.inj_succ, Z.pow_succ_r by lia. lia.
Qed.

Lemma digits2_pos_iter_xO (p : positive) (n : positive) :
  Zpos (digits2_pos (Pos.iter xO p n)) = Zpos (digits2_pos p) + Zpos n.
Proof.
  induction n as [|n IH] using Pos.peano_ind.
  - cbn [Pos.iter digits2_pos]. lia.
  - rewrite Pos.iter_succ. cbn [digits2_pos]. lia.
Qed.

Lemma shr_1_m (mrs : shr_record) :
  0 <= shr_m mrs -> shr_m (shr_1 mrs) = shr_m mrs / 2.
Proof.
  destruct mrs as [m r s]. cbn [shr_m]. intros Hm.
  destruct m as [|[p|p|]|p]; cbn [shr_1 shr_m]; try lia; try reflexivity.
  - apply Z.div_unique with 1; lia.
  - apply Z.div_unique with 0; lia.
Qed.

Lemma pow2_xI (n : positive) : 2 ^ Zpos n~1 = 2 * (2 ^ Zpos n * 2 ^ Zpos n).
Proof.
  rewrite (Pos2Z.inj_xI n).
  replace (2 * Zpos n + 1) with (1 + Zpos n + Zpos n) by lia.
  rewrite !Z.pow_add_r by lia. change (2 ^ 1) with 2. lia.
Qed.

Lemma pow2_xO (n : positive) : 2 ^ Zpos n~0 = 2 ^ Zpos n * 2 ^ Zpos n.
Proof.
  rewrite (Pos2Z.inj_xO n).
  replace (2 * Zpos n) with (Zpos n + Zpos n) by lia.
  by rewrite Z.pow_add_r by lia.
Qed.

Lemma iter_shr_1_m (n : positive) (mrs : shr_record) :
  0 <= shr_m mrs ->
  shr_m (SpecFloat.iter_pos shr_1 n mrs) = shr_m mrs / 2 ^ Zpos n.
Proof.
  assert (Hhalf : forall mrs, 0 <= shr_m mrs -> 0 <= shr_m (shr_1 mrs)).
  { intros x Hx. rewrite shr_1_m by done. apply Z.div_pos; lia. }
  assert (Hpow : forall k, 0 < 2 ^ Zpos k) by (intros; apply Z.pow_pos_nonneg; lia).
  revert mrs.
  induction n as [n IH|n IH|]; intros mrs Hm; cbn [SpecFloat.iter_pos].
  - assert (0 <= shr_m (SpecFloat.iter_pos shr_1 n (shr_1 mrs))).
    { rewrite IH by auto. apply Z.div_pos; auto. }
    rewrite !IH, shr_1_m by auto.
    pose proof (Hpow n).
    rewrite !Z.div_div by lia.
    by rewrite pow2_xI.
  - assert (0 <= shr_m (SpecFloat.iter_pos shr_1 n mrs)).
    { rewrite IH by auto. apply Z.div_pos; auto. }
    rewrite !IH by auto.
    pose proof (Hpow n).
    rewrite Z.div_div by lia.
    by rewrite pow2_xO.
  - rewrite shr_1_m by done. by change (2 ^ 1) with 2.
Qed.

(** A right shift by [n] places: the mantissa divided by [2^n], the
    exponent raised by [n]; nothing for [n <= 0]. *)
Lemma shr_spec (mrs : shr_record) (e n : Z) :
  0 <= shr_m mrs ->
  shr_m (fst (shr mrs e n)) = shr_m mrs / 2 ^ Z.max n 0 /\
  snd (shr mrs e n) = e + Z.max n 0.
Proof.
  intros Hm. destruct n as [|n|n]; cbn [shr fst snd].
  - change (2 ^ Z.max 0 0) with 1. rewrite Z.div_1_r. lia.
  - rewrite iter_shr_1_m by done. by rewrite Z.max_l by lia.
  - change (Z.max (Zneg n) 0) with 0. change (2 ^ 0) with 1.
    rewrite Z.div_1_r. lia.
Qed.

Lemma shr_record_of_loc_m (m : Z) (l : location) :
  shr_m (shr_record_of_loc m l) = m.
Proof. by destruct l as [|[]]. Qed.

Lemma round_nearest_even_bounds (m : Z) (l : location) :
  m <= round_nearest_even m l <= m + 1.
Proof.
  destruct l as [|[]]; cbn [round_nearest_even]; try lia.
  destruct (Z.even m); lia.
Qed.

(** *** Rounding *)

Lemma fexp_eq (x : Z) : fexp prec emax x = Z.max (x - 53) (-1074).
Proof. reflexivity. Qed.

(** Rounding to 53 bits does not cross a power of two: a number below
    [2^k] rounds to at most [2^k]. *)
Lemma binary_round_aux_below (s : bool) (P : positive) (E : Z) (l : location)
    (k : Z) :
  Zpos (digits2_pos P) + E <= k -> -1021 <= k <= 971 ->
  below_pow2 k s (binary_round_aux prec emax s (Zpos P) E l).
Proof.
  intros Hk Hrange.
  pose proof (digits2_pos_bounds P) as [_ HP].
  unfold binary_round_aux, shr_fexp. rewrite fexp_eq.
  cbn [Zdigits2].
  set (n := Z.max (Zpos (digits2_pos P) + E - 53) (-1074) - E).
  destruct (shr_spec (shr_record_of_loc (Zpos P) l) E n) as [Hm1 He1].
  { rewrite shr_record_of_loc_m. lia. }
  destruct (shr (shr_record_of_loc (Zpos P) l) E n) as [mrs1 e1].
  cbn [fst snd] in Hm1, He1. rewrite shr_record_of_loc_m in Hm1.
  assert (He1k : e1 <= k) by lia.
  assert (HE : E <= e1) by lia.
  assert (Hpow1 : 0 < 2 ^ Z.max n 0) by (apply Z.pow_pos_nonneg; lia).
  assert (Hm1lo : 0 <= shr_m mrs1).
  { rewrite Hm1. apply Z.div_pos; lia. }
  assert (Hm1lt : shr_m mrs1 < 2 ^ (k - e1)).
  { rewrite Hm1. apply Z.div_lt_upper_bound; [done|].
    rewrite <- Z.pow_add_r by lia.
    apply Z.lt_le_trans with (2 ^ Zpos (digits2_pos P)); [done|].
    apply Z.pow_le_mono_r; lia. }
  pose proof (round_nearest_even_bounds (shr_m mrs1) (loc_of_shr_record mrs1))
    as Hm2.
  set (m2 := round_nearest_even (shr_m mrs1) (loc_of_shr_record mrs1)) in *.
  rewrite fexp_eq.
  set (n2 := Z.max (Zdigits2 m2 + e1 - 53) (-1074) - e1).
  destruct (shr_spec (shr_record_of_loc m2 loc_Exact) e1 n2) as [Hm3 He3].
  { cbn [shr_record_of_loc shr_m]. lia. }
  destruct (shr (shr_record_of_loc m2 loc_Exact) e1 n2) as [mrs3 e3].
  cbn [fst snd shr_record_of_loc shr_m] in Hm3, He3.
  assert (Hpow2 : 0 < 2 ^ Z.max n2 0) by (apply Z.pow_pos_nonneg; lia).
  destruct (shr_m mrs3) as [|m|m] eqn:Hm; cbn [below_pow2].
  - reflexivity.
  - assert (Hj : Z.max n2 0 <= k - e1).
    { destruct (Z.le_gt_cases (Z.max n2 0) (k - e1)) as [|Hgt]; [done|].
      assert (2 ^ (k - e1) < 2 ^ Z.max n2 0)
        by (apply Z.pow_lt_mono_r; lia).
      assert (m2 / 2 ^ Z.max n2 0 = 0) by (apply Z.div_small; lia).
      lia. }
    assert (Hmle : Zpos m <= 2 ^ (k - e3)).
    { rewrite Hm3. subst e3.
      replace (k - (e1 + Z.max n2 0)) with (k - e1 - Z.max n2 0) by lia.
      rewrite Z.pow_sub_r by lia.
      apply Z.div_le_mono; lia. }
    destruct (Z.leb_spec e3 (emax - prec)) as [_|Hover].
    + cbn [below_pow2]. repeat split; [lia|done].
    + unfold emax, prec in Hover. lia.
  - assert (0 <= m2 / 2 ^ Z.max n2 0) by (apply Z.div_pos; lia). lia.
Qed.

(** Aligning a mantissa to a smaller exponent keeps the number and its
    order of magnitude. *)
Lemma shl_align_spec (m : positive) (e e' : Z) :
  let '(m', e'') := shl_align m e e' in
  e'' = Z.min e e' /\ Zpos m' = Zpos m * 2 ^ (e - e'') /\
  Zpos (digits2_pos m') + e'' = Zpos (digits2_pos m) + e.
Proof.
  unfold shl_align. destruct (e' - e) as [|d|d] eqn:Hd.
  - split; [lia|]. replace (e - e) with 0 by lia.
    change (2 ^ 0) with 1. split; lia.
  - split; [lia|]. replace (e - e) with 0 by lia.
    change (2 ^ 0) with 1. split; lia.
  - split; [lia|]. replace (e - e') with (Zpos d) by lia.
    split; [apply iter_xO|].
    rewrite digits2_pos_iter_xO. lia.
Qed.

Lemma binary_round_below (s : bool) (P : positive) (E k : Z) :
  Zpos (digits2_pos P) + E <= k -> -1021 <= k <= 971 ->
  below_pow2 k s (binary_round prec emax s P E).
Proof.
  intros Hk Hrange. unfold binary_round.
  pose proof (shl_align_spec P E (fexp prec emax (Zpos (digits2_pos P) + E)))
    as Halign.
  destruct (shl_align P E _) as [mz ez].
  destruct Halign as (_ & _ & Hdig).
  apply binary_round_aux_below; lia.
Qed.

(** *** Valid floats and their order *)

Lemma valid_finite (s : bool) (m : positive) (e : Z) :
  valid (S754_finite s m e) = true ->
  -1074 <= e <= 971 /\ Zpos m < 2 ^ 53 /\ (e <> -1074 -> 2 ^ 52 <= Zpos m).
Proof.
  unfold valid, valid_binary, bounded, canonical_mantissa.
  intros [Hcanon Hmax]%andb_prop.
  apply Z.eqb_eq in Hcanon. apply Z.leb_le in Hmax.
  rewrite fexp_eq in Hcanon. unfold emax, prec in Hmax.
  pose proof (digits2_pos_bounds m) as [Hlow Hup].
  split; [lia|]. split.
  - apply Z.lt_le_trans with (2 ^ Zpos (digits2_pos m)); [done|].
    apply Z.pow_le_mono_r; lia.
  - intros Hnormal.
    replace 52 with (Zpos (digits2_pos m) - 1) by lia. done.
Qed.

(** The range check against a bound [mB * 2^eB]. *)
Lemma leb_bound (s : bool) (m mB : positive) (e eB : Z) :
  leb (S754_finite true mB eB) (S754_finite s m e) &&
  leb (S754_finite s m e) (S754_finite false mB eB) = true <->
  e < eB \/ (e = eB /\ Zpos m <= Zpos mB).
Proof.
  unfold leb, SFleb, SFcompare.
  rewrite !Pos.compare_cont_spec. cbn [Pos.switch_Eq].
  destruct s.
  - rewrite andb_true_r.
    destruct (Z.compare_spec eB e) as [Heq|Hlt|Hgt].
    + subst e. destruct (Pos.compare_spec mB m) as [Hm|Hm|Hm]; cbn [CompOpp].
      * subst. split; [intros _; right; split; [done|lia]|done].
      * split; [done|]. intros [?|[_ ?]]; lia.
      * split; [intros _; right; split; [done|lia]|done].
    + split; [done|lia].
    + split; [intros _; lia|done].
  - cbn [andb].
    destruct (Z.compare_spec e eB) as [Heq|Hlt|Hgt].
    + subst e. destruct (Pos.compare_spec m mB) as [Hm|Hm|Hm].
      * subst. split; [intros _; right; split; [done|lia]|done].
      * split; [intros _; right; split; [done|lia]|done].
      * split; [done|]. intros [?|[_ ?]]; lia.
    + split; [intros _; lia|done].
    + split; [done|lia].
Qed.

Lemma pow2_ge_2 (n : Z) : 0 < n -> 2 <= 2 ^ n.
Proof.
  intros Hn. change 2 with (2 ^ 1) at 1. apply Z.pow_le_mono_r; lia.
Qed.

Lemma pow2_pos (n : Z) : 0 <= n -> 0 < 2 ^ n.
Proof. intros Hn. apply Z.pow_pos_nonneg; lia. Qed.

(** For a valid float, the order on mantissa and exponent is the order
    of the numbers. *)
Lemma to_Q_le_bound (m mB : positive) (e eB B : Z) :
  valid (S754_finite false m e) = true ->
  2 ^ 52 <= Zpos mB < 2 ^ 53 -> -1074 < eB < 0 ->
  Zpos mB = B * 2 ^ (- eB) ->
  (e < eB \/ (e = eB /\ Zpos m <= Zpos mB)) <->
  (to_Q (S754_finite false m e) <= inject_Z B)%Q.
Proof.
  intros Hvalid HmB HeB HB.
  destruct (valid_finite _ _ _ Hvalid) as (He & Hm & Hnormal).
  pose proof (pow2_pos (- eB)) as HpB.
  pose proof (pow2_ge_2 (- eB)) as HpB2.
  assert (HBpos : 0 < B) by nia.
  change (2 ^ 53) with (2 * 2 ^ 52) in *.
  set (T := 2 ^ 52) in *.
  cbn [to_Q]. destruct (Z.leb_spec 0 e) as [Hpos|Hneg].
  - rewrite <- Zle_Qle.
    pose proof (pow2_pos e Hpos).
    assert (B < T) by nia.
    assert (T <= Zpos m) by (apply Hnormal; lia).
    split; [lia|]. intros Hle. exfalso. nia.
  - unfold Qle. cbn [Qnum Qden inject_Z].
    pose proof (pow2_pos (- e)) as Hpow.
    rewrite Z2Pos.id by lia. rewrite Z.mul_1_r.
    destruct (Z.lt_trichotomy e eB) as [Hlt|[->|Hgt]].
    + split; [intros _|by left].
      replace (- e) with (- eB + (eB - e)) by lia.
      rewrite Z.pow_add_r, Z.mul_assoc, <- HB by lia.
      pose proof (pow2_ge_2 (eB - e)). nia.
    + rewrite <- HB. split; [intros [|[_ ?]]; [lia|done]|by right].
    + assert (T <= Zpos m) by (apply Hnormal; lia).
      split; [lia|]. intros Hle. exfalso.
      replace (- eB) with (- e + (e - eB)) in HB by lia.
      rewrite Z.pow_add_r, Z.mul_assoc in HB by lia.
      pose proof (pow2_ge_2 (e - eB)). nia.
Qed.

(** The range check, for a valid float, in terms of the number. *)
Lemma in_range_finite (s : bool) (m mB : positive) (e eB B : Z) :
  valid (S754_finite s m e) = true ->
  2 ^ 52 <= Zpos mB < 2 ^ 53 -> -1074 < eB < 0 ->
  Zpos mB = B * 2 ^ (- eB) ->
  in_range B (S754_finite s m e) <->
  (e < eB \/ (e = eB /\ Zpos m <= Zpos mB)).
Proof.
  intros Hvalid HmB HeB HB.
  assert (Hvalid' : valid (S754_finite false m e) = true) by exact Hvalid.
  rewrite (to_Q_le_bound m mB e eB B Hvalid' HmB HeB HB).
  pose proof (pow2_pos (- eB)) as HpB.
  assert (HBpos : 0 < B) by nia.
  unfold in_range. cbn [is_finite to_Q].
  destruct (Z.leb_spec 0 e) as [Hpos|Hneg].
  - pose proof (pow2_pos e Hpos) as Hp.
    rewrite <- !Zle_Qle. destruct s.
    + rewrite <- (Pos2Z.opp_pos m). split; [intros (_ & ? & _)|intros ?]; nia.
    + split; [by intros (_ & _ & ?)|]. intros ?. repeat split; [nia|done].
  - pose proof (pow2_pos (- e)) as Hp.
    unfold Qle. cbn [Qnum Qden inject_Z].
    rewrite !Z2Pos.id, !Z.mul_1_r by lia. destruct s.
    + rewrite <- (Pos2Z.opp_pos m). split; [intros (_ & ? & _)|intros ?]; nia.
    + split; [by intros (_ & _ & ?)|]. intros ?. repeat split; [nia|done].
Qed.

(** What passing the range check says of mantissa and exponent. *)
Lemma range_check_magnitude (m mB : positive) (e eB B : Z) :
  Zpos m < 2 ^ 53 ->
  2 ^ 52 <= Zpos mB -> eB < 0 -> Zpos mB = B * 2 ^ (- eB) ->
  e < eB \/ (e = eB /\ Zpos m <= Zpos mB) ->
  e < 0 /\ Zpos m <= B * 2 ^ (- e).
Proof.
  intros Hm HmB HeB HB [Hlt|[-> Hle]]; split; try lia.
  replace (- e) with (- eB + (eB - e)) by lia.
  rewrite Z.pow_add_r, Z.mul_assoc, <- HB by lia.
  pose proof (pow2_ge_2 (eB - e)).
  change (2 ^ 53) with (2 * 2 ^ 52) in Hm. nia.
Qed.

(** *** Truncation *)

Lemma trunc_bound (m : positive) (e B : Z) :
  e < 0 -> Zpos m <= B * 2 ^ (- e) ->
  trunc (S754_finite false m e) = Zpos m / 2 ^ (- e) /\
  0 <= Zpos m / 2 ^ (- e) <= B.
Proof.
  intros He Hm. pose proof (pow2_pos (- e)) as Hp.
  unfold trunc. destruct (Z.leb_spec 0 e) as [|_]; [lia|].
  split; [done|]. split.
  - apply Z.div_pos; lia.
  - apply Z.div_le_upper_bound; lia.
Qed.

(** The integer part of a valid float of magnitude below [2^52]. *)
Lemma trunc_floor (s : bool) (m : positive) (e : Z) :
  e < 0 ->
  Qfloor (Qabs (to_Q (S754_finite s m e))) = Zpos m / 2 ^ (- e).
Proof.
  intros He. pose proof (pow2_pos (- e)) as Hp.
  cbn [to_Q]. destruct (Z.leb_spec 0 e) as [|_]; [lia|].
  unfold Qabs, Qfloor. rewrite Z2Pos.id by lia. by destruct s.
Qed.

(** *** The integers up to 180 as floats *)

Lemma of_Z_exact_180 :
  forallb of_Z_exact (map Z.of_nat (seq 1 180)) = true.
Proof. by vm_compute. Qed.

Lemma of_Z_small (d : Z) :
  1 <= d <= 180 ->
  exists m e, of_Z d = S754_finite false m e /\ -52 <= e < 0 /\
              Zpos m = d * 2 ^ (- e).
Proof.
  intros Hd.
  pose proof (proj1 (forallb_forall _ _) of_Z_exact_180 d) as Hexact.
  unfold of_Z_exact in Hexact.
  destruct (of_Z d) as [| | |[|] m e].
  5: { exists m, e. split; [done|].
       assert (Hin : In d (map Z.of_nat (seq 1 180))).
       { apply in_map_iff. exists (Z.to_nat d). split; [lia|].
         apply in_seq. lia. }
       apply Hexact in Hin.
       apply andb_prop in Hin as [Hin Hm]. apply andb_prop in Hin as [He1 He2].
       apply Z.ltb_lt in He1. apply Z.leb_le in He2. apply Z.eqb_eq in Hm.
       done. }
  all: exfalso; assert (Hin : In d (map Z.of_nat (seq 1 180)))
         by (apply in_map_iff; exists (Z.to_nat d); split; [lia|];
             apply in_seq; lia);
       apply Hexact in Hin; discriminate Hin.
Qed.

(** *** The minutes of a coordinate *)

(** A float less its integer part: at most one. *)
Lemma sub_whole_below (m : positive) (e : Z) :
  e < 0 -> 0 <= Zpos m / 2 ^ (- e) <= 180 ->
  below_pow2 0 false
    (sub (S754_finite false m e) (of_Z (Zpos m / 2 ^ (- e)))).
Proof.
  intros He Hd. pose proof (pow2_pos (- e)) as Hp.
  set (d := Zpos m / 2 ^ (- e)) in *.
  assert (Hfloor : d * 2 ^ (- e) <= Zpos m < (d + 1) * 2 ^ (- e)).
  { unfold d. split.
    - rewrite Z.mul_comm. apply Z.mul_div_le. lia.
    - rewrite Z.mul_comm. replace (Zpos m / 2 ^ (- e) + 1)
        with (Z.succ (Zpos m / 2 ^ (- e))) by lia.
      apply Z.mul_succ_div_gt. lia. }
  destruct (Z.eq_dec d 0) as [Hzero|Hnonzero].
  - rewrite Hzero in *. change (of_Z 0) with (S754_zero false).
    cbn [sub SFsub below_pow2]. replace (0 - e) with (- e) by lia.
    repeat split; lia.
  - destruct (of_Z_small d) as (md & ed & -> & Hed & Hmd); [lia|].
    unfold sub, SFsub. cbn [cond_Zopp].
    set (ez := Z.min e ed).
    pose proof (shl_align_spec m e ez) as Hx.
    pose proof (shl_align_spec md ed ez) as Hy.
    destruct (shl_align m e ez) as [mx ex].
    destruct (shl_align md ed ez) as [my ey].
    destruct Hx as (Hex & Hmx & _). destruct Hy as (Hey & Hmy & _).
    cbn [fst].
    assert (Hex' : ex = ez) by lia. assert (Hey' : ey = ez) by lia.
    rewrite Hex' in Hmx. rewrite Hey' in Hmy. clear Hex Hey Hex' Hey'.
    pose proof (pow2_pos (- ed)) as Hq.
    pose proof (pow2_pos (- ez)) as Hr.
    pose proof (pow2_pos (e - ez)) as Ha.
    pose proof (pow2_pos (ed - ez)) as Hb.
    assert (Hpa : 2 ^ (- e) * 2 ^ (e - ez) = 2 ^ (- ez)).
    { rewrite <- Z.pow_add_r by lia. f_equal. lia. }
    assert (Hqb : 2 ^ (- ed) * 2 ^ (ed - ez) = 2 ^ (- ez)).
    { rewrite <- Z.pow_add_r by lia. f_equal. lia. }
    assert (Hy : Zpos my = d * 2 ^ (- ez)).
    { rewrite Hmy, Hmd, <- Hqb. ring. }
    assert (Hlow : d * 2 ^ (- ez) <= Zpos mx).
    { rewrite Hmx, <- Hpa, Z.mul_assoc.
      apply Z.mul_le_mono_nonneg_r; lia. }
    assert (Hup : Zpos mx < (d + 1) * 2 ^ (- ez)).
    { rewrite Hmx, <- Hpa, Z.mul_assoc.
      apply Z.mul_lt_mono_pos_r; lia. }
    destruct (Zpos mx - Zpos my) as [|P|P] eqn:Hdiff;
      cbn [binary_normalize below_pow2]; [done| |lia].
    apply binary_round_below; [|lia].
    assert (Zpos (digits2_pos P) <= - ez); [|lia].
    apply digits2_pos_le. lia.
Qed.

(** Sixty times a float that is at most one: at most sixty-four. *)
Lemma mul_60_below (x : float) :
  below_pow2 0 false x -> below_pow2 6 false (mul x (of_Z 60)).
Proof.
  change (of_Z 60) with (S754_finite false 8444249301319680 (-47)).
  destruct x as [s|s| |s m e]; cbn [below_pow2]; try done.
  - by intros ->.
  - intros (-> & He & Hm). unfold mul, SFmul. cbn [xorb].
    apply binary_round_aux_below; [|lia].
    pose proof (pow2_pos (- e)) as Hp.
    assert (Zpos (digits2_pos (m * 8444249301319680)) <= 53 - e); [|lia].
    apply digits2_pos_le.
    replace (53 - e) with (- e + 53) by lia.
    rewrite Z.pow_add_r, Pos2Z.inj_mul by lia.
    replace (0 - e) with (- e) in Hm by lia.
    assert (8444249301319680 < 2 ^ 53) by done.
    nia.
Qed.

Lemma round_half_even_le (num den bound : Z) :
  0 < den -> num <= bound * den -> round_half_even num den <= bound.
Proof.
  intros Hden Hnum. unfold round_half_even.
  pose proof (Z.div_mod num den) as Hdm.
  pose proof (Z.mod_pos_bound num den Hden) as Hmod.
  assert (Hq : num / den <= bound).
  { apply Z.div_le_upper_bound; lia. }
  assert (Hstrict : num / den = bound -> num mod den = 0) by nia.
  destruct (Z.compare_spec (2 * (num mod den)) den) as [Heq|Hlt|Hgt].
  - destruct (Z.even (num / den)); [done|].
    destruct (Z.eq_dec (num / den) bound) as [Hb|Hb]; [|lia].
    specialize (Hstrict Hb). lia.
  - done.
  - destruct (Z.eq_dec (num / den) bound) as [Hb|Hb]; [|lia].
    specialize (Hstrict Hb). lia.
Qed.

(** The thousandths of a float that is at most sixty-four. *)
Lemma scaled_below (x : float) :
  below_pow2 6 false x -> scaled 3 x <= 64000.
Proof.
  destruct x as [s|s| |s m e]; cbn [below_pow2 scaled]; try done.
  intros (_ & He & Hm). change (10 ^ Z.of_nat 3) with 1000.
  destruct (Z.leb_spec 0 e) as [Hpos|Hneg].
  - pose proof (pow2_pos e Hpos) as Hp.
    assert (Zpos m * 2 ^ e <= 64); [|lia].
    replace 64 with (2 ^ (6 - e) * 2 ^ e).
    + apply Z.mul_le_mono_nonneg_r; lia.
    + rewrite <- Z.pow_add_r by lia. by replace (6 - e + e) with 6 by lia.
  - pose proof (pow2_pos (- e)) as Hp.
    apply round_half_even_le; [lia|].
    replace (6 - e) with (6 + - e) in Hm by lia.
    rewrite Z.pow_add_r in Hm by lia. change (2 ^ 6) with 64 in Hm. lia.
Qed.

End PyFloatFacts.

(** ** Whole numbers in binary64 arithmetic *)

Module PyFloatExact.

Import PyFloat PyFloatFacts.

(** *** Digits of a shifted number *)

Lemma digits2_pos_unique (p : positive) (d : Z) :
  2 ^ (d - 1) <= Zpos p < 2 ^ d -> Zpos (digits2_pos p) = d.
Proof.
  intros [Hlow Hup].
  assert (0 < d).
  { destruct (Z.lt_ge_cases 0 d) as [|Hd]; [done|].
    assert (2 ^ d <= 2 ^ 0) by (apply Z.pow_le_mono_r; lia).
    change (2 ^ 0) with 1 in *. lia. }
  pose proof (digits2_pos_le p d Hup).
  pose proof (digits2_pos_gt p (d - 1)). lia.
Qed.

Lemma digits2_pos_shift (p k : positive) (j : Z) :
  0 <= j -> Zpos p = Zpos k * 2 ^ j ->
  Zpos (digits2_pos p) = Zpos (digits2_pos k) + j.
Proof.
  intros Hj Hp. pose proof (digits2_pos_bounds k) as [Hlow Hup].
  pose proof (pow2_pos j Hj) as Hpow.
  apply digits2_pos_unique. rewrite Hp. split.
  - replace (Zpos (digits2_pos k) + j - 1)
      with (Zpos (digits2_pos k) - 1 + j) by lia.
    rewrite Z.pow_add_r by lia. apply Z.mul_le_mono_nonneg_r; lia.
  - rewrite Z.pow_add_r by lia. apply Z.mul_lt_mono_pos_r; lia.
Qed.

(** *** Shifting out zeros *)

Lemma shr_1_even (q : Z) :
  0 <= q ->
  shr_1 {| shr_m := 2 * q; shr_r := false; shr_s := false |} =
  {| shr_m := q; shr_r := false; shr_s := false |}.
Proof. by destruct q. Qed.

Lemma iter_shr_1_exact (n : positive) (q : Z) :
  0 <= q ->
  SpecFloat.iter_pos shr_1 n
    {| shr_m := q * 2 ^ Zpos n; shr_r := false; shr_s := false |} =
  {| shr_m := q; shr_r := false; shr_s := false |}.
Proof.
  revert q. induction n as [n IH|n IH|]; intros q Hq;
    cbn [SpecFloat.iter_pos].
  - pose proof (pow2_pos (Zpos n)) as Hpow.
    rewrite pow2_xI.
    replace (q * (2 * (2 ^ Zpos n * 2 ^ Zpos n)))
      with (2 * (q * 2 ^ Zpos n * 2 ^ Zpos n)) by ring.
    rewrite shr_1_even by nia. rewrite IH by nia. by apply IH.
  - pose proof (pow2_pos (Zpos n)) as Hpow.
    rewrite pow2_xO, Z.mul_assoc. rewrite IH by nia. by apply IH.
  - change (2 ^ 1) with 2. rewrite Z.mul_comm. by apply shr_1_even.
Qed.

Lemma shr_exact (q e n : Z) :
  0 <= q -> 0 <= n ->
  shr {| shr_m := q * 2 ^ n; shr_r := false; shr_s := false |} e n =
  ({| shr_m := q; shr_r := false; shr_s := false |}, e + n).
Proof.
  intros Hq Hn. destruct n as [|n|n]; [| |lia]; cbn [shr].
  - change (2 ^ 0) with 1. by rewrite Z.mul_1_r, Z.add_0_r.
  - by rewrite iter_shr_1_exact.
Qed.

(** *** Rounding a whole number *)

(** A whole number below [2^53], given with an exponent at least as fine
    as the one of its float, rounds to its float. *)
Lemma binary_round_aux_exact (s : bool) (P K : positive) (E : Z) :
  Zpos (digits2_pos K) <= 53 ->
  E <= Zpos (digits2_pos K) - 53 ->
  Zpos P = Zpos K * 2 ^ (- E) ->
  binary_round_aux prec emax s (Zpos P) E loc_Exact = whole_float s (Zpos K).
Proof.
  intros HdK HE HP.
  set (dK := Zpos (digits2_pos K)) in *.
  assert (HdK1 : 1 <= dK) by (unfold dK; lia).
  pose proof (digits2_pos_shift P K (- E)) as HdP.
  rewrite <- HP in HdP. specialize (HdP ltac:(lia) eq_refl).
  fold dK in HdP.
  set (q := Zpos K * 2 ^ (53 - dK)).
  assert (Hq : 0 < q).
  { unfold q. pose proof (pow2_pos (53 - dK)). nia. }
  assert (HPq : Zpos P = q * 2 ^ (dK - 53 - E)).
  { rewrite HP. unfold q. rewrite <- Z.mul_assoc, <- Z.pow_add_r by lia.
    f_equal. f_equal. lia. }
  unfold binary_round_aux, shr_fexp. cbn [Zdigits2 shr_record_of_loc].
  rewrite fexp_eq, HdP.
  replace (Z.max (dK + - E + E - 53) (-1074) - E) with (dK - 53 - E) by lia.
  rewrite HPq, shr_exact by lia.
  cbn [shr_m loc_of_shr_record round_nearest_even shr_record_of_loc].
  replace (E + (dK - 53 - E)) with (dK - 53) by lia.
  destruct q as [|q'|q'] eqn:Hq'; [lia| |lia].
  assert (Hdq : Zpos (digits2_pos q') = 53).
  { rewrite (digits2_pos_shift q' K (53 - dK)); [fold dK; lia|lia|].
    by rewrite <- Hq'. }
  cbn [Zdigits2]. rewrite fexp_eq, Hdq.
  replace (Z.max (53 + (dK - 53) - 53) (-1074) - (dK - 53)) with 0 by lia.
  cbn [shr shr_m].
  destruct (Z.leb_spec (dK - 53) (emax - prec)) as [_|Hover];
    [|unfold emax, prec in Hover; lia].
  unfold whole_float. fold dK. fold q. by rewrite Hq'.
Qed.

Lemma binary_round_exact (s : bool) (P K : positive) (E : Z) :
  Zpos (digits2_pos K) <= 53 -> E <= 0 ->
  Zpos P = Zpos K * 2 ^ (- E) ->
  binary_round prec emax s P E = whole_float s (Zpos K).
Proof.
  intros HdK HE HP.
  pose proof (digits2_pos_shift P K (- E) ltac:(lia) HP) as HdP.
  unfold binary_round. rewrite fexp_eq, HdP.
  replace (Z.max (Zpos (digits2_pos K) + - E + E - 53) (-1074))
    with (Zpos (digits2_pos K) - 53) by lia.
  pose proof (shl_align_spec P E (Zpos (digits2_pos K) - 53)) as Halign.
  destruct (shl_align P E _) as [mz ez].
  destruct Halign as (Hez & Hmz & _).
  apply binary_round_aux_exact; [done|lia|].
  rewrite Hmz, HP, <- Z.mul_assoc, <- Z.pow_add_r by lia.
  f_equal. f_equal. lia.
Qed.

Lemma binary_normalize_exact (k e : Z) :
  0 <= k < 2 ^ 53 -> e <= 0 ->
  binary_normalize prec emax (k * 2 ^ (- e)) e false = whole_float false k.
Proof.
  intros Hk He.
  destruct k as [|K|K]; [done| |lia].
  pose proof (pow2_pos (- e)) as Hpow.
  destruct (Zpos K * 2 ^ (- e)) as [|P'|P'] eqn:HP; [lia| |lia].
  cbn [binary_normalize]. apply binary_round_exact; [|done|done].
  apply digits2_pos_le. lia.
Qed.

(** *** The floats of whole numbers *)

Lemma of_Z_whole (k : Z) : 0 <= k < 2 ^ 53 -> of_Z k = whole_float false k.
Proof.
  intros Hk. unfold of_Z. rewrite <- (binary_normalize_exact k 0) by lia.
  change (2 ^ (- 0)) with 1. by rewrite Z.mul_1_r.
Qed.

(** The float of a whole number above zero: 53 bits of mantissa. *)
Lemma whole_float_finite (s : bool) (k : Z) :
  0 < k < 2 ^ 53 ->
  exists m e,
    whole_float s k = S754_finite s m e /\ -52 <= e <= 0 /\
    Zpos m = k * 2 ^ (- e) /\ Zpos (digits2_pos m) = 53.
Proof.
  intros Hk. destruct k as [|K|K]; [lia| |lia].
  assert (HdK : Zpos (digits2_pos K) <= 53) by (apply digits2_pos_le; lia).
  set (d := Zpos (digits2_pos K)) in *.
  assert (1 <= d) by (unfold d; lia).
  pose proof (pow2_pos (53 - d)) as Hpow.
  destruct (Zpos K * 2 ^ (53 - d)) as [|m|m] eqn:Hm; [lia| |lia].
  exists m, (d - 53). unfold whole_float. fold d. rewrite Hm.
  replace (- (d - 53)) with (53 - d) by lia.
  repeat split; try done; try lia.
  rewrite (digits2_pos_shift m K (53 - d)); [fold d; lia|lia|done].
Qed.

Lemma whole_float_zero (s : bool) : whole_float s 0 = S754_zero s.
Proof. reflexivity. Qed.

Lemma is_zero_whole (k : Z) :
  0 <= k < 2 ^ 53 ->
  PyFloatOps.is_zero (whole_float false k) = (k =? 0).
Proof.
  intros Hk. destruct (Z.eq_dec k 0) as [->|Hne]; [done|].
  destruct (whole_float_finite false k) as (m & e & -> & _); [lia|].
  cbn. symmetry. by apply Z.eqb_neq.
Qed.

Lemma sign_bit_whole (k : Z) :
  0 <= k < 2 ^ 53 -> sign_bit (whole_float false k) = false.
Proof.
  intros Hk. destruct (Z.eq_dec k 0) as [->|Hne]; [done|].
  by destruct (whole_float_finite false k) as (m & e & -> & _); [lia|].
Qed.

Lemma ltb_whole_zero (k : Z) :
  0 <= k < 2 ^ 53 -> ltb (whole_float false k) (S754_zero false) = false.
Proof.
  intros Hk. destruct (Z.eq_dec k 0) as [->|Hne]; [done|].
  by destruct (whole_float_finite false k) as (m & e & -> & _); [lia|].
Qed.

(** [int(x)] of a whole number: the number. *)
Lemma to_int_whole (k : Z) :
  0 <= k < 2 ^ 53 -> PyFloatOps.to_int (whole_float false k) = Ok k.
Proof.
  intros Hk. destruct (Z.eq_dec k 0) as [->|Hne]; [done|].
  destruct (whole_float_finite false k) as (m & e & -> & He & Hm & _); [lia|].
  cbn [PyFloatOps.to_int trunc]. f_equal.
  pose proof (pow2_pos (- e)) as Hpow.
  destruct (Z.leb_spec 0 e) as [Hpos|Hneg].
  - replace e with 0 in * by lia. change (2 ^ (- 0)) with 1 in Hm.
    change (2 ^ 0) with 1. lia.
  - rewrite Hm. apply Z.div_mul. lia.
Qed.

(** *** Arithmetic on whole numbers *)

Lemma sub_whole (a c : Z) :
  0 <= c <= a -> a < 2 ^ 53 ->
  sub (whole_float false a) (whole_float false c) = whole_float false (a - c).
Proof.
  intros Hc Ha.
  destruct (Z.eq_dec c 0) as [->|Hcne].
  { rewrite Z.sub_0_r. destruct (Z.eq_dec a 0) as [->|Hane]; [done|].
    by destruct (whole_float_finite false a) as (m & e & -> & _); [lia|]. }
  destruct (whole_float_finite false a)
    as (mx & ex & -> & Hex & Hmx & _); [lia|].
  destruct (whole_float_finite false c)
    as (my & ey & -> & Hey & Hmy & _); [lia|].
  unfold sub, SFsub. cbn [cond_Zopp].
  set (ez := Z.min ex ey).
  pose proof (shl_align_spec mx ex ez) as Hx.
  pose proof (shl_align_spec my ey ez) as Hy.
  destruct (shl_align mx ex ez) as [mx' ex'].
  destruct (shl_align my ey ez) as [my' ey'].
  destruct Hx as (Hex' & Hmx' & _). destruct Hy as (Hey' & Hmy' & _).
  cbn [fst].
  replace ex' with ez in Hmx' by lia. replace ey' with ez in Hmy' by lia.
  assert (Hdiff : Zpos mx' - Zpos my' = (a - c) * 2 ^ (- ez)).
  { rewrite Hmx', Hmy', Hmx, Hmy, <- !Z.mul_assoc, <- !Z.pow_add_r by lia.
    replace (- ex + (ex - ez)) with (- ez) by lia.
    replace (- ey + (ey - ez)) with (- ez) by lia. ring. }
  rewrite Hdiff. apply binary_normalize_exact; lia.
Qed.

Lemma fmod_whole (a b : Z) :
  0 <= a < 2 ^ 53 -> 0 < b < 2 ^ 53 ->
  PyFloatOps.fmod (whole_float false a) (whole_float false b) =
  whole_float false (a mod b).
Proof.
  intros Ha Hb.
  destruct (whole_float_finite false b)
    as (my & ey & -> & Hey & Hmy & _); [lia|].
  destruct (Z.eq_dec a 0) as [->|Hane]; [done|].
  destruct (whole_float_finite false a)
    as (mx & ex & -> & Hex & Hmx & _); [lia|].
  unfold PyFloatOps.fmod. cbn [cond_Zopp].
  set (ez := Z.min ex ey).
  pose proof (pow2_pos (- ez)) as Hpow.
  assert (Hnx : Zpos mx * 2 ^ (ex - ez) = a * 2 ^ (- ez)).
  { rewrite Hmx, <- Z.mul_assoc, <- Z.pow_add_r by lia.
    f_equal. f_equal. lia. }
  assert (Hny : Zpos my * 2 ^ (ey - ez) = b * 2 ^ (- ez)).
  { rewrite Hmy, <- Z.mul_assoc, <- Z.pow_add_r by lia.
    f_equal. f_equal. lia. }
  rewrite Hnx, Hny, Z.mul_mod_distr_r by lia.
  pose proof (Z.mod_pos_bound a b). apply binary_normalize_exact; lia.
Qed.

Lemma div_eucl_exact (q b : Z) : 0 < b -> Z.div_eucl (q * b) b = (q, 0).
Proof.
  intros Hb.
  assert (Hdm : Z.div_eucl (q * b) b = ((q * b) / b, (q * b) mod b)).
  { unfold Z.div, Z.modulo. by destruct (Z.div_eucl (q * b) b). }
  rewrite Hdm, Z.div_mul, Z.mod_mul by lia. done.
Qed.

Lemma new_location_exact (steps : Z) : new_location steps 0 = loc_Exact.
Proof. unfold new_location. by destruct (Z.even steps). Qed.

(** A quotient that is a whole number below [2^53] is computed exactly. *)
Lemma div_exact (mx my Q : positive) (ex ey : Z) :
  let e' := Z.min (fexp prec emax (Zpos (digits2_pos mx) + ex -
                                   (Zpos (digits2_pos my) + ey))) (ex - ey) in
  Zpos (digits2_pos Q) <= 53 ->
  e' <= Zpos (digits2_pos Q) - 53 ->
  Zpos mx * 2 ^ (ex - ey - e') = Zpos Q * 2 ^ (- e') * Zpos my ->
  div (S754_finite false mx ex) (S754_finite false my ey) =
  whole_float false (Zpos Q).
Proof.
  intros e' HdQ He' Hexact.
  assert (Hs : 0 <= ex - ey - e') by (unfold e'; lia).
  assert (He'0 : e' <= 0) by lia.
  pose proof (pow2_pos (- e')) as Hpow.
  unfold div, SFdiv, SFdiv_core_binary. cbn [Zdigits2 xorb]. fold e'.
  assert (Hm' : match ex - ey - e' with
                | 0 => Zpos mx
                | Zpos _ => Z.shiftl (Zpos mx) (ex - ey - e')
                | Zneg _ => 0
                end = Zpos Q * 2 ^ (- e') * Zpos my).
  { rewrite <- Hexact. destruct (ex - ey - e') as [|p|p] eqn:Hp; [|  |lia].
    - change (2 ^ 0) with 1. lia.
    - apply Z.shiftl_mul_pow2. lia. }
  rewrite Hm', div_eucl_exact, new_location_exact by lia.
  destruct (Zpos Q * 2 ^ (- e')) as [|P|P] eqn:HP; [lia| |lia].
  by apply binary_round_aux_exact.
Qed.

Lemma div_whole (a b : Z) :
  0 <= a < 2 ^ 53 -> 0 < b < 2 ^ 53 -> a mod b = 0 ->
  div (whole_float false a) (whole_float false b) = whole_float false (a / b).
Proof.
  intros Ha Hb Hmod.
  destruct (whole_float_finite false b)
    as (my & ey & -> & Hey & Hmy & Hdy); [lia|].
  destruct (Z.eq_dec a 0) as [->|Hane]; [done|].
  destruct (whole_float_finite false a)
    as (mx & ex & -> & Hex & Hmx & Hdx); [lia|].
  assert (Hab : a = a / b * b).
  { rewrite Z.mul_comm. apply Z.div_exact; lia. }
  assert (Hq : 0 < a / b <= a).
  { split; [|apply Z.div_le_upper_bound; nia].
    destruct (Z.lt_ge_cases 0 (a / b)) as [|Hle]; [done|].
    pose proof (Z.div_pos a b). nia. }
  destruct (a / b) as [|Q|Q] eqn:HQ; [lia| |lia].
  assert (HdQ : Zpos (digits2_pos Q) <= 53) by (apply digits2_pos_le; lia).
  pose proof (digits2_pos_bounds Q) as [HQlow HQup].
  assert (Hlow52 : 2 ^ 52 <= Zpos mx).
  { pose proof (digits2_pos_bounds mx) as [Hl _]. by rewrite Hdx in Hl. }
  assert (Hup53 : Zpos my < 2 ^ 53).
  { pose proof (digits2_pos_bounds my) as [_ Hu]. by rewrite Hdy in Hu. }
  pose proof (pow2_pos (- ex)) as Hpx. pose proof (pow2_pos (- ey)) as Hpy.
  set (dQ := Zpos (digits2_pos Q)) in *.
  pose proof (pow2_pos dQ) as HpQ.
  assert (Hfine : ex - ey <= dQ).
  { destruct (Z.le_gt_cases (ex - ey) dQ) as [|Hbad]; [done|]. exfalso.
    assert (Hcross : Zpos mx * 2 ^ (- ey) = Zpos Q * Zpos my * 2 ^ (- ex)).
    { rewrite Hmx, Hmy, Hab. ring. }
    assert (Hpow : 2 * (2 ^ (- ex) * 2 ^ dQ) <= 2 ^ (- ey)).
    { replace (2 * (2 ^ (- ex) * 2 ^ dQ)) with (2 ^ (- ex + dQ + 1)).
      - apply Z.pow_le_mono_r; lia.
      - rewrite !Z.pow_add_r by lia. change (2 ^ 1) with 2. ring. }
    assert (Hleft : 2 ^ 52 * (2 * (2 ^ (- ex) * 2 ^ dQ)) <=
                    Zpos mx * 2 ^ (- ey)).
    { apply Z.mul_le_mono_nonneg; lia. }
    assert (Hright : Zpos Q * Zpos my < 2 ^ dQ * 2 ^ 53).
    { apply Z.mul_lt_mono_nonneg; lia. }
    assert (Hright' : Zpos Q * Zpos my * 2 ^ (- ex) <
                      2 ^ dQ * 2 ^ 53 * 2 ^ (- ex)).
    { apply Z.mul_lt_mono_pos_r; lia. }
    change (2 ^ 53) with (2 * 2 ^ 52) in Hright'. lia. }
  apply div_exact; [done| |]; rewrite Hdx, Hdy, fexp_eq.
  - fold dQ. lia.
  - set (e' := Z.min (Z.max (53 + ex - (53 + ey) - 53) (-1074)) (ex - ey)).
    assert (e' = ex - ey - 53) as -> by (unfold e'; lia).
    replace (ex - ey - (ex - ey - 53)) with 53 by lia.
    replace (- (ex - ey - 53)) with (53 - ex + ey) by lia.
    rewrite Hmx, Hmy, Hab.
    transitivity (Zpos Q * b * (2 ^ (53 - ex + ey) * 2 ^ (- ey))); [|ring].
    rewrite <- Z.pow_add_r by lia.
    replace (53 - ex + ey + - ey) with (- ex + 53) by lia.
    rewrite Z.pow_add_r by lia. ring.
Qed.

Lemma floor_whole (k : Z) :
  0 <= k < 2 ^ 53 ->
  PyFloatOps.floor (whole_float false k) = whole_float false k.
Proof.
  intros Hk. destruct (Z.eq_dec k 0) as [->|Hne]; [done|].
  pose proof (of_Z_whole k Hk) as Hof.
  destruct (whole_float_finite false k) as (m & e & Heq & He & Hm & _); [lia|].
  rewrite Heq in *. cbn [PyFloatOps.floor cond_Zopp].
  destruct (Z.leb_spec 0 e) as [|Hneg]; [done|].
  pose proof (pow2_pos (- e)).
  rewrite Hm, Z.div_mul by lia. exact Hof.
Qed.

(** The sign of a quotient of two floats above zero. *)
Lemma sign_bit_binary_round_aux (m e : Z) (l : location) :
  sign_bit (binary_round_aux prec emax false m e l) = false.
Proof.
  unfold binary_round_aux.
  destruct (shr_fexp prec emax m e l) as [mrs1 e1].
  destruct (shr_fexp prec emax _ e1 loc_Exact) as [mrs2 e2].
  destruct (shr_m mrs2); [done| |done].
  by destruct (e2 <=? emax - prec).
Qed.

Lemma sign_bit_div_whole (a b : Z) :
  0 <= a < 2 ^ 53 -> 0 < b < 2 ^ 53 ->
  sign_bit (div (whole_float false a) (whole_float false b)) = false.
Proof.
  intros Ha Hb.
  destruct (whole_float_finite false b) as (my & ey & -> & _); [lia|].
  destruct (Z.eq_dec a 0) as [->|Hane]; [done|].
  destruct (whole_float_finite false a) as (mx & ex & -> & _); [lia|].
  unfold div, SFdiv. cbn [xorb].
  destruct (SFdiv_core_binary prec emax (Zpos mx) ex (Zpos my) ey)
    as [[mz ez] lz].
  apply sign_bit_binary_round_aux.
Qed.

(** [divmod] of two whole numbers, the divisor above zero: the quotient
    and the remainder of the integers. *)
Lemma divmod_whole (a b : Z) :
  0 <= a < 2 ^ 53 -> 0 < b < 2 ^ 53 ->
  PyFloatOps.divmod (whole_float false a) (whole_float false b) =
  (whole_float false (a / b), whole_float false (a mod b)).
Proof.
  intros Ha Hb.
  pose proof (Z.mod_pos_bound a b ltac:(lia)) as Hr.
  pose proof (Z.div_mod a b ltac:(lia)) as Hdm.
  assert (Hq : 0 <= a / b <= a).
  { split; [apply Z.div_pos; lia|apply Z.div_le_upper_bound; nia]. }
  assert (Hle : a mod b <= a) by nia.
  unfold PyFloatOps.divmod.
  rewrite fmod_whole, sub_whole by lia.
  assert (Hexact : (a - a mod b) mod b = 0).
  { replace (a - a mod b) with (a / b * b) by lia. apply Z.mod_mul. lia. }
  assert (Hquot : (a - a mod b) / b = a / b).
  { replace (a - a mod b) with (a / b * b) by lia. apply Z.div_mul. lia. }
  rewrite div_whole, Hquot by lia.
  rewrite !is_zero_whole by lia.
  rewrite (of_Z_whole 1) by done.
  assert (Hltb_b : ltb (whole_float false b) (S754_zero false) = false)
    by (apply ltb_whole_zero; lia).
  rewrite Hltb_b, (ltb_whole_zero (a mod b)) by lia. cbn [Bool.eqb negb].
  assert (Hfloordiv :
            (if negb (a / b =? 0)
             then
               if ltb (of_ratio 1 2)
                    (sub (whole_float false (a / b))
                       (PyFloatOps.floor (whole_float false (a / b))))
               then add (PyFloatOps.floor (whole_float false (a / b)))
                      (whole_float false 1)
               else PyFloatOps.floor (whole_float false (a / b))
             else
               PyFloatOps.copysign (S754_zero false)
                 (div (whole_float false a) (whole_float false b))) =
            whole_float false (a / b)).
  { destruct (Z.eqb_spec (a / b) 0) as [Hzero|Hnonzero]; cbn [negb].
    - rewrite Hzero. unfold PyFloatOps.copysign.
      by rewrite sign_bit_div_whole.
    - rewrite floor_whole, sub_whole by lia.
      by replace (a / b - a / b) with 0 by lia. }
  destruct (Z.eqb_spec (a mod b) 0) as [Hzero|Hnonzero]; cbn [negb];
    rewrite is_zero_whole by lia; rewrite Hfloordiv.
  - unfold PyFloatOps.copysign. rewrite sign_bit_whole by lia.
    by rewrite Hzero.
  - done.
Qed.

(** The seconds of a duration of whole seconds. *)
Lemma total_seconds_whole (days seconds : Z) :
  0 <= days * 86400 + seconds < 2 ^ 53 ->
  PyDatetime.total_seconds (PyDatetime.Timedelta days seconds 0) =
  whole_float false (days * 86400 + seconds).
Proof.
  intros Hs. unfold PyDatetime.total_seconds.
  cbn [PyDatetime.days PyDatetime.seconds PyDatetime.microseconds].
  set (k := days * 86400 + seconds) in *.
  rewrite Z.add_0_r. change (10 ^ 6) with 1000000. unfold of_ratio.
  destruct (Z.eq_dec k 0) as [->|Hne]; [done|].
  destruct k as [|K|K] eqn:HK; [lia| |lia].
  assert (HdK : Zpos (digits2_pos K) <= 53) by (apply digits2_pos_le; lia).
  change (Zpos K * 1000000) with (Zpos (K * 1000000)).
  pose proof (digits2_pos_bounds K) as [_ HKup].
  assert (HdP : Zpos (digits2_pos (K * 1000000)) <=
                Zpos (digits2_pos K) + 20).
  { apply digits2_pos_le. rewrite Pos2Z.inj_mul, Z.pow_add_r by lia.
    assert (1000000 < 2 ^ 20) by done.
    pose proof (pow2_pos (Zpos (digits2_pos K))). nia. }
  apply div_exact; [done| |];
    change (Zpos (digits2_pos 1000000)) with 20; rewrite fexp_eq.
  - lia.
  - rewrite Pos2Z.inj_mul. set (e' := Z.min _ _).
    replace (0 - 0 - e') with (- e') by lia. ring.
Qed.

End PyFloatExact.

(** ** Properties of the record-emitting methods *)

Section WriterProperties.

Context `{PyRuntime}.

(** *** The loop over the names of a task *)

Lemma task_fields_declared (written : gset string) (waypoints fields : list string) :
  Forall (fun n => n ∈ written) waypoints ->
  task_fields written waypoints fields =
  Ok (fields ++ map (fun n => escape (Some n)) waypoints)%list.
Proof.
  intros Hall. revert fields.
  induction Hall as [|n rest Hn _ IH]; intros fields; simpl.
  - by rewrite app_nil_r.
  - destruct (decide (n ∈ written)) as [_|Hnot]; [|done].
    rewrite IH. by rewrite <- app_assoc.
Qed.

Lemma task_fields_undeclared (written : gset string)
    (before after fields : list string) (missing : string) :
  Forall (fun n => n ∈ written) before ->
  missing ∉ written ->
  task_fields written (before ++ missing :: after) fields =
  Raise (not_found missing).
Proof.
  intros Hall Hmiss. revert fields.
  induction Hall as [|n rest Hn _ IH]; intros fields; simpl.
  - destruct (decide (missing ∈ written)); [done|reflexivity].
  - destruct (decide (n ∈ written)); [apply IH|done].
Qed.

(** A list with an undeclared name splits at the first one. *)
Lemma first_undeclared (written : gset string) (waypoints : list string) :
  Exists (fun n => n ∉ written) waypoints ->
  exists before missing after,
    waypoints = (before ++ missing :: after)%list /\
    Forall (fun n => n ∈ written) before /\
    missing ∉ written.
Proof.
  induction 1 as [n rest Hn|n rest _ IH].
  - exists [], n, rest. by repeat split.
  - destruct (decide (n ∈ written)) as [Hin|Hnot].
    + destruct IH as (before & missing & after & -> & Hall & Hmiss).
      exists (n :: before), missing, after. repeat split; auto.
    + exists [], n, rest. by repeat split.
Qed.

(** *** What each method does to the instance *)

Lemma write_task_unfold (description : option string)
    (waypoints : list string) (w : Writer) :
  write_task description waypoints w =
  match task_fields (wps w) waypoints [escape description] with
  | Ok fields =>
      (Ok tt, append_lines (opened w) [PyStr.join "," fields +:+ CRLF])
  | Raise e => (Raise e, opened w)
  end.
Proof.
  unfold write_task, opened, append_lines, mbind, M_bind, mret, M_ret,
    get_in_task_section, get_wps, lift, write_fields, write_line, fp_write,
    set_in_task_section.
  destruct w as [sink names [|]]; simpl.
  - destruct (task_fields names waypoints [escape description]); reflexivity.
  - destruct (task_fields names waypoints [escape description]); simpl;
      unfold task_section_opening; by rewrite <- !app_assoc.
Qed.

Lemma write_task_options_unfold (kw : gmap string pyval) (w : Writer) :
  wps (snd (write_task_options kw w)) = wps w /\
  in_task_section (snd (write_task_options kw w)) = in_task_section w.
Proof.
  unfold write_task_options, mbind, M_bind, get_in_task_section, raise, lift,
    write_fields, write_line, fp_write.
  destruct w as [sink names [|]]; simpl; [|done].
  match goal with |- context [match ?r with Ok _ => _ | Raise _ => _ end] =>
    destruct r end; done.
Qed.

Lemma write_waypoint_state (p : waypoint) (w : Writer) :
  (exists n, fst (write_waypoint p w) = Ok tt /\ name p = Some n /\
             wps (snd (write_waypoint p w)) = {[ n ]} ∪ wps w /\
             in_task_section (snd (write_waypoint p w)) = in_task_section w) \/
  (fst (write_waypoint p w) <> Ok tt /\ snd (write_waypoint p w) = w).
Proof.
  unfold write_waypoint, mbind, M_bind, get_in_task_section, raise, lift,
    write_fields, write_line, fp_write, wps_add.
  destruct w as [sink names [|]]; simpl; [by right|].
  destruct (name p) as [[|c n]|] eqn:Hname; simpl; [by right| |by right].
  match goal with |- context [match ?r with Ok _ => _ | Raise _ => _ end] =>
    destruct r end; simpl; [|by right].
  left. by exists (String c n).
Qed.

Lemma exec_wps_subseteq (c : call) (w : Writer) :
  wps w ⊆ wps (snd (exec c w)).
Proof.
  destruct c as [p|d l|kw]; simpl.
  - destruct (write_waypoint_state p w) as [(n & _ & _ & -> & _)|[_ ->]];
      set_solver.
  - rewrite write_task_unfold.
    destruct (task_fields _ _ _); unfold opened, append_lines;
      destruct (in_task_section w); simpl; set_solver.
  - by destruct (write_task_options_unfold kw w) as [-> _].
Qed.

Lemma exec_in_task_section (c : call) (w : Writer) :
  in_task_section (snd (exec c w)) = in_task_section w || is_task_call c.
Proof.
  destruct c as [p|d l|kw]; simpl.
  - rewrite orb_false_r.
    by destruct (write_waypoint_state p w) as [(n & _ & _ & _ & ->)|[_ ->]].
  - rewrite write_task_unfold, orb_true_r.
    destruct (task_fields _ _ _); unfold opened, append_lines;
      by destruct w as [? ? []].
  - rewrite orb_false_r. by destruct (write_task_options_unfold kw w) as [_ ->].
Qed.

Lemma run_snoc (calls : list call) (c : call) (w : Writer) :
  run (calls ++ [c]) w = snd (exec c (run calls w)).
Proof. unfold run. by rewrite foldl_app. Qed.

Lemma run_in_task_section (calls : list call) (w : Writer) :
  in_task_section (run calls w) =
  in_task_section w || existsb is_task_call calls.
Proof.
  revert w. induction calls as [|c calls IH]; intros w; simpl.
  - by rewrite orb_false_r.
  - unfold run in *. simpl. rewrite IH, exec_in_task_section.
    by rewrite orb_assoc.
Qed.

Lemma run_wps_subseteq (calls : list call) (w : Writer) :
  wps w ⊆ wps (run calls w).
Proof.
  revert w. induction calls as [|c calls IH]; intros w; [done|].
  unfold run in *. simpl. etrans; [apply (exec_wps_subseteq c)|apply IH].
Qed.

Lemma new_writer_state (sink : list string) :
  new_writer sink =
  {| fp := sink ++ [HEADER +:+ CRLF]; wps := ∅; in_task_section := false |}.
Proof. reflexivity. Qed.

Lemma run_app (calls1 calls2 : list call) (w : Writer) :
  run (calls1 ++ calls2) w = run calls2 (run calls1 w).
Proof. unfold run. by rewrite foldl_app. Qed.

(** *** Task writes *)

(** C1 (as amended).  A call to [write_task] whose list holds a name that
    has not been written as a waypoint raises the not-found error for the
    first such name; the line of the task is not written and the set of
    declared names is as before.  When the task section is open already
    nothing is written and the instance is unchanged; on the first call the
    two opening lines have been written and the flag set before the names
    are looked at. *)
Theorem write_task_undeclared (description : option string)
    (waypoints : list string) (w : Writer) :
  Exists (fun n => n ∉ wps w) waypoints ->
  exists before missing after,
    waypoints = (before ++ missing :: after)%list /\
    Forall (fun n => n ∈ wps w) before /\
    (missing ∉ wps w) /\
    write_task description waypoints w =
    (Raise (not_found missing),
     if in_task_section w then w
     else {| fp := fp w ++ [CRLF; DIVIDER +:+ CRLF]; wps := wps w;
             in_task_section := true |}).
Proof.
  intros Hex.
  destruct (first_undeclared _ _ Hex) as (before & missing & after & -> & Hall & Hmiss).
  exists before, missing, after. repeat split; try done.
  rewrite write_task_unfold.
  by rewrite (task_fields_undeclared _ _ _ _ _ Hall Hmiss).
Qed.

(** C4.  On a writer that has seen no [write_task] call yet, a call with
    declared names writes a blank line, the divider and the line of the
    task, and sets the flag; on a writer that has seen one, it writes the
    line of the task only. *)
Theorem write_task_first_and_subsequent (sink : list string)
    (calls : list call) (description : option string)
    (waypoints : list string) :
  let w := run calls (new_writer sink) in
  Forall (fun n => n ∈ wps w) waypoints ->
  write_task description waypoints w =
  (Ok tt,
   {| fp := (fp w
            ++ (if existsb is_task_call calls then []
                else [CRLF; DIVIDER +:+ CRLF])
            ++ [task_line description waypoints +:+ CRLF])%list;
      wps := wps w;
      in_task_section := true |}).
Proof.
  intros w Hall.
  rewrite write_task_unfold, (task_fields_declared _ _ _ Hall).
  pose proof (run_in_task_section calls (new_writer sink)) as Hphase.
  fold w in Hphase. simpl in Hphase.
  unfold opened, append_lines, task_line. rewrite Hphase.
  destruct (existsb is_task_call calls).
  - by rewrite Hphase.
  - cbn [fp wps in_task_section]. unfold task_section_opening.
    by rewrite <- app_assoc.
Qed.

(** *** Calls in the wrong section *)

(** C7.  With the task section open [write_waypoint] raises the
    invalid-state error whatever its arguments, and with the task section
    not open [write_task_options] does; neither writes anything nor changes
    the instance.  The task section is open exactly when a [write_task]
    call has been made. *)
Theorem invalid_state_errors :
  (forall (w : Writer) (p : waypoint),
     in_task_section w = true ->
     write_waypoint p w =
     (Raise (RuntimeError "Waypoints must be written before any tasks"), w)) /\
  (forall (w : Writer) (kw : gmap string pyval),
     in_task_section w = false ->
     write_task_options kw w =
     (Raise (RuntimeError "Task options have to be written in task section"),
      w)) /\
  (forall (sink : list string) (calls : list call),
     in_task_section (run calls (new_writer sink)) =
     existsb is_task_call calls).
Proof.
  split; [|split].
  - intros [sink names phase] p Hphase. simpl in Hphase. subst. reflexivity.
  - intros [sink names phase] kw Hphase. simpl in Hphase. subst. reflexivity.
  - intros sink calls. by rewrite run_in_task_section.
Qed.

(** *** The state over sequences of calls *)

(** C9.  Over any sequence of calls, failed ones included, the set of
    declared names only grows and the flag, once set, stays set. *)
Theorem state_monotone (calls1 calls2 : list call) (w : Writer) :
  wps (run calls1 w) ⊆ wps (run (calls1 ++ calls2) w) /\
  (in_task_section (run calls1 w) = true ->
   in_task_section (run (calls1 ++ calls2) w) = true).
Proof.
  rewrite run_app. split.
  - apply run_wps_subseteq.
  - intros Hphase. by rewrite run_in_task_section, Hphase.
Qed.

(** C10.  [write_task] leaves the set of declared names alone, whether it
    succeeds or not; [write_task_options] leaves the set and the flag
    alone; a call that changes the set is a successful [write_waypoint],
    which adds its name; a call that changes the flag is a [write_task],
    which sets it. *)
Theorem frame_effects :
  (forall description waypoints (w : Writer),
     wps (snd (write_task description waypoints w)) = wps w) /\
  (forall kw (w : Writer),
     wps (snd (write_task_options kw w)) = wps w /\
     in_task_section (snd (write_task_options kw w)) = in_task_section w) /\
  (forall (c : call) (w : Writer),
     wps (snd (exec c w)) <> wps w ->
     exists p n, c = CallWaypoint p /\ fst (exec c w) = Ok tt /\
                 name p = Some n /\
                 wps (snd (exec c w)) = {[ n ]} ∪ wps w) /\
  (forall (c : call) (w : Writer),
     in_task_section (snd (exec c w)) <> in_task_section w ->
     is_task_call c = true /\ in_task_section (snd (exec c w)) = true).
Proof.
  assert (Htask : forall description waypoints (w : Writer),
             wps (snd (write_task description waypoints w)) = wps w).
  { intros d l w. rewrite write_task_unfold.
    destruct (task_fields _ _ _); unfold opened, append_lines;
      by destruct w as [? ? []]. }
  split; [exact Htask|]. split; [apply write_task_options_unfold|]. split.
  - intros [p|d l|kw] w Hne; simpl in *.
    + destruct (write_waypoint_state p w) as [(n & Hok & Hn & Hw & _)|[_ Hw]].
      * by exists p, n.
      * by rewrite Hw in Hne.
    + by rewrite Htask in Hne.
    + by destruct (write_task_options_unfold kw w) as [Hw _].
  - intros c w Hne. rewrite exec_in_task_section in *.
    destruct (in_task_section w), (is_task_call c); done.
Qed.

End WriterProperties.

(** C1, the claim as first stated: a failed first call does write, and
    does set the flag. *)
Lemma write_task_undeclared_first_call :
  ~ (forall (description : option string) (waypoints : list string)
            (w : Writer),
       Exists (fun n => n ∉ wps w) waypoints ->
       exists e, write_task description waypoints w = (Raise e, w)).
Proof.
  intros Hclaim.
  destruct (Hclaim (Some "500 km FAI") ["UNKNOWN"] (new_writer [])) as [e He].
  - constructor. set_solver.
  - vm_compute in He. discriminate He.
Qed.

Lemma undeclared_in_sample :
  Exists (fun n => n ∉ wps task_section_writer) ["MEIER"; "UNKNOWN"].
Proof.
  apply Exists_cons_tl, Exists_cons_hd. simpl.
  intros Hin. apply elem_of_singleton in Hin. discriminate Hin.
Qed.

Lemma write_task_undeclared_witness :
  Exists (fun n => n ∉ wps task_section_writer) ["MEIER"; "UNKNOWN"] /\
  exists before missing after,
    ["MEIER"; "UNKNOWN"] = (before ++ missing :: after)%list /\
    Forall (fun n => n ∈ wps task_section_writer) before /\
    (missing ∉ wps task_section_writer) /\
    write_task (Some "500 km FAI") ["MEIER"; "UNKNOWN"] task_section_writer =
    (Raise (not_found missing),
     if in_task_section task_section_writer then task_section_writer
     else {| fp := fp task_section_writer ++ [CRLF; DIVIDER +:+ CRLF];
             wps := wps task_section_writer; in_task_section := true |}).
Proof.
  split; [exact undeclared_in_sample|].
  exact (write_task_undeclared (Some "500 km FAI") ["MEIER"; "UNKNOWN"]
           task_section_writer undeclared_in_sample).
Defined.

(** ** Properties of the field formatters *)

Section FormatterProperties.

Context `{PyRuntime}.

Import PyStr PyStrFacts.

(** *** [escape] *)

(** The two passes of [escape], backslashes first and quotes second, do
    to each character what [escape_char] says. *)
Lemma replace_twice (s : string) :
  replace dquote (String backslash (String dquote ""))
    (replace backslash (String backslash (String backslash "")) s) =
  escape_chars s.
Proof.
  induction s as [|c s IH]; [done|]. simpl. unfold escape_char.
  destruct (Ascii.eqb_spec c backslash) as [->|Hb].
  - rewrite !app_cons, app_nil_l. simpl. by rewrite IH.
  - simpl. rewrite IH. by destruct (Ascii.eqb c dquote).
Qed.

(** C5 (as amended).  [escape] gives the empty string for [None] and for
    the empty string; any other text comes back between double quotes,
    every backslash doubled and every double quote preceded by a
    backslash, the backslashes being treated first (the other order would
    double the backslashes that escape the quotes).  For the input made
    of a, double quote, b, backslash, c the result is the nine characters
    double quote, a, backslash, double quote, b, backslash, backslash, c,
    double quote. *)
Theorem escape_spec :
  escape None = "" /\
  escape (Some "") = "" /\
  (forall s : string, s <> "" -> escape (Some s) = quoted (escape_chars s)) /\
  (forall s : string,
     escape_chars s =
     replace dquote (String backslash (String dquote ""))
       (replace backslash (String backslash (String backslash "")) s)) /\
  replace backslash (String backslash (String backslash ""))
    (replace dquote (String backslash (String dquote ""))
       escape_sample_input) <> escape_chars escape_sample_input /\
  escape (Some escape_sample_input) = escape_sample_output /\
  String.length escape_sample_output = 9%nat.
Proof.
  repeat split; try reflexivity.
  - intros [|c s] Hne; [done|]. unfold escape, quoted.
    cbn [is_empty]. by rewrite replace_twice.
  - intros s. by rewrite replace_twice.
  - vm_compute. discriminate.
Qed.

(** *** [format_distance] *)

Lemma scaled_nonneg (digits : nat) (x : PyFloat.float) :
  0 <= PyFloat.scaled digits x.
Proof.
  destruct x as [s|s| |s m e]; simpl; try lia.
  assert (0 < 10 ^ Z.of_nat digits) by (apply Z.pow_pos_nonneg; lia).
  destruct (0 <=? e) eqn:He.
  - apply Z.leb_le in He.
    assert (0 < 2 ^ e) by (apply Z.pow_pos_nonneg; lia). nia.
  - apply Z.leb_gt in He. unfold PyFloat.round_half_even.
    assert (0 < 2 ^ (- e)) by (apply Z.pow_pos_nonneg; lia).
    assert (0 <= Z.pos m * 10 ^ Z.of_nat digits / 2 ^ (- e))
      by (apply Z.div_pos; lia).
    destruct (_ ?= _); [destruct (Z.even _)| |]; lia.
Qed.

Lemma format_f_1_finite (x : PyFloat.float) (suffix : string) :
  PyFloat.is_finite x = true ->
  one_decimal_place (PyFloat.format_f 1 x +:+ suffix) suffix.
Proof.
  intros Hfin.
  pose proof (scaled_nonneg 1 x) as Hn.
  set (n := PyFloat.scaled 1 x) in *.
  assert (Hbody : PyFloat.fixed_body 1 x =
                  PyInt.digits (n / 10) +:+ "." +:+
                  zfill 1 (PyInt.digits (n mod 10))).
  { by destruct x. }
  destruct (PyIntFacts.digits_all_digits (n / 10)) as [Hlen Hall];
    [apply Z.div_pos; lia|].
  destruct (PyIntFacts.digits_spec 1 (n mod 10)) as [[Hlen1 Hlen1'] Hall1];
    [lia|apply Z.mod_pos_bound; lia|].
  destruct (PyInt.digits (n mod 10)) as [|d [|? ?]] eqn:Hd;
    simpl in Hlen1, Hlen1'; try lia.
  exists (PyFloat.sign_bit x), (PyInt.digits (n / 10)), d.
  repeat split.
  - intros Hempty. rewrite Hempty in Hlen. simpl in Hlen. lia.
  - exact Hall.
  - simpl in Hall1. by destruct (is_digit d).
  - unfold PyFloat.format_f. rewrite Hbody. unfold zfill. simpl.
    by rewrite !app_assoc.
Qed.

Lemma format_d_no_point (n : Z) (suffix : string) :
  no_decimal_point (PyInt.format_d n +:+ suffix) suffix.
Proof.
  destruct (PyIntFacts.digits_all_digits (Z.abs n)) as [Hlen Hall]; [lia|].
  exists (n <? 0), (PyInt.digits (Z.abs n)). repeat split.
  - intros Hempty. rewrite Hempty in Hlen. simpl in Hlen. lia.
  - exact Hall.
  - unfold PyInt.format_d. by rewrite app_assoc.
Qed.

(** C6 (as amended).  [format_distance] gives the empty string for [None]
    and for the empty string; a bare magnitude takes the unit [m], a pair
    brings its unit; a float is rendered by [%.1f], which for a finite
    float is a number with exactly one decimal place; an integer is
    rendered in decimal without a point; anything else is rendered as it
    is; the unit follows.  The three examples of the specification. *)
Theorem format_distance_spec :
  format_distance VNone = "" /\
  format_distance (VStr "") = "" /\
  (forall (x : PyFloat.float) (unit : atom),
     format_distance (VFloat x) = PyFloat.format_f 1 x +:+ "m" /\
     format_distance (Tuple2 (VFloat x) unit) =
     PyFloat.format_f 1 x +:+ py_str unit /\
     (PyFloat.is_finite x = true ->
      one_decimal_place (format_distance (VFloat x)) "m" /\
      one_decimal_place (format_distance (Tuple2 (VFloat x) unit))
        (py_str unit))) /\
  (forall (n : Z) (unit : atom),
     format_distance (VInt n) = PyInt.format_d n +:+ "m" /\
     format_distance (Tuple2 (VInt n) unit) =
     PyInt.format_d n +:+ py_str unit /\
     no_decimal_point (format_distance (VInt n)) "m" /\
     no_decimal_point (format_distance (Tuple2 (VInt n) unit)) (py_str unit)) /\
  (forall (s : string) (unit : atom),
     (s <> "" -> format_distance (VStr s) = s +:+ "m") /\
     format_distance (Tuple2 (VStr s) unit) = s +:+ py_str unit) /\
  format_distance (Tuple2 (VFloat (PyFloat.of_ratio 7 10)) (VStr "km")) =
  "0.7km" /\
  format_distance (VFloat (PyFloat.of_Z 300)) = "300.0m" /\
  format_distance (VInt 300) = "300m".
Proof.
  split; [reflexivity|]. split; [reflexivity|].
  split; [|split; [|split]].
  - intros x unit. split; [reflexivity|]. split; [reflexivity|].
    intros Hfin. split; by apply format_f_1_finite.
  - intros n unit. split; [reflexivity|]. split; [reflexivity|].
    split; apply format_d_no_point.
  - intros s unit. split; [|reflexivity].
    intros Hne. by destruct s.
  - repeat split; by vm_compute.
Qed.

(** *** The header and a first waypoint *)

(** C3.  A writer writes the header line, ended by CR LF, as soon as it
    is made; the waypoint of the docstring, written next with the optional
    parameters left to their defaults, adds its line, so that the sink
    holds these two lines. *)
Theorem header_then_waypoint :
  (forall sink : list string,
     new_writer sink =
     {| fp := sink ++ ["name,code,country,lat,lon,elev,style,rwdir,rwlen,freq,desc"
                       +:+ CRLF];
        wps := ∅; in_task_section := false |}) /\
  write_waypoint
    (waypoint_defaults (Some "Meiersberg") (Some "MEIER") "DE"
       meiersberg_latitude meiersberg_longitude)
    (new_writer []) =
  (Ok tt,
   {| fp := [ "name,code,country,lat,lon,elev,style,rwdir,rwlen,freq,desc"
              +:+ CRLF;
              quoted "Meiersberg" +:+ "," +:+ quoted "MEIER" +:+
              ",DE,5107.345N,00624.765E,,1,,,," +:+ CRLF ];
      wps := {[ "Meiersberg" ]};
      in_task_section := false |}).
Proof.
  split; [reflexivity|]. by vm_compute.
Qed.

End FormatterProperties.

(** C5, the claim as first stated: the escaped form of the example has
    nine characters, not eight. *)
Lemma escape_sample_not_eight :
  escape (Some escape_sample_input) = escape_sample_output /\
  String.length (escape (Some escape_sample_input)) <> 8%nat.
Proof. split; [reflexivity|]. vm_compute. discriminate. Qed.

Lemma escape_spec_witness :
  "MEIER" <> "" /\ escape (Some "MEIER") = quoted (escape_chars "MEIER").
Proof.
  split; [discriminate|].
  apply (proj1 (proj2 (proj2 escape_spec)) "MEIER"). discriminate.
Defined.

(** C6, the claim as first stated: an infinite magnitude is a float and is
    not rendered with a decimal place. *)
Lemma format_distance_infinity :
  @format_distance sample_runtime (VFloat (S754_infinity false)) = "infm" /\
  ~ one_decimal_place
      (@format_distance sample_runtime (VFloat (S754_infinity false))) "m".
Proof.
  split; [reflexivity|].
  intros (negative & whole & d & Hne & Hall & _ & Heq).
  change (@format_distance sample_runtime (VFloat (S754_infinity false)))
    with "infm" in Heq.
  destruct negative, whole as [|c whole]; try done;
    unfold PyInt.sign_str in Heq;
    rewrite ?PyStrFacts.app_cons, ?PyStrFacts.app_nil_l in Heq.
  injection Heq as Hc _. subst c. discriminate Hall.
Qed.

Lemma format_distance_spec_witness :
  PyFloat.is_finite (PyFloat.of_Z 300) = true /\
  one_decimal_place
    (@format_distance sample_runtime (VFloat (PyFloat.of_Z 300))) "m".
Proof.
  split; [reflexivity|].
  apply (proj1 (proj2 (proj2 (@format_distance_spec sample_runtime)))
           (PyFloat.of_Z 300) (VStr "m")).
  reflexivity.
Defined.

(** ** Task options *)

Section OptionProperties.

Context `{PyRuntime}.

Lemma result_bind_ext {A B} (k1 k2 : A -> result B) (r1 r2 : result A) :
  r1 = r2 -> (forall a, k1 a = k2 a) -> r1 ≫= k1 = r2 ≫= k2.
Proof. intros -> Hk. destruct r2; simpl; [apply Hk|done]. Qed.

Lemma append_option_ext (kw : gmap string pyval) (key : string)
    (render1 render2 : pyval -> result string) (fields : list string) :
  (forall v, render1 v = render2 v) ->
  append_option kw key render1 fields = append_option kw key render2 fields.
Proof.
  intros Hext. unfold append_option. destruct (kw !! key); [|done].
  by rewrite Hext.
Qed.

Lemma str_add_token (token : string) (v : pyval) :
  str_add token v = s ← str_add "" v; Ok (token +:+ s).
Proof. by destruct v as [[]|]. Qed.

(** The body of [write_task_options] goes through the rows of the table
    in order. *)
Lemma write_task_options_rows (kw : gmap string pyval) (w : Writer) :
  write_task_options kw w =
  if in_task_section w then
    match append_rows kw option_table ["Options"] with
    | Ok fields => (Ok tt, append_lines w [PyStr.join "," fields +:+ CRLF])
    | Raise e => (Raise e, w)
    end
  else
    (Raise (RuntimeError "Task options have to be written in task section"),
     w).
Proof.
  assert (Hrows :
    (fields ← Ok ["Options"];
     fields ← append_option kw "start_time"
       (fun v => str_add "NoStart=" (format_time v)) fields;
     fields ← append_option kw "task_time"
       (fun v => t ← format_timedelta v; str_add "TaskTime=" t) fields;
     fields ← append_option kw "waypoint_distance"
       (fun v => s ← format_s v; Ok ("WpDis=" +:+ s)) fields;
     fields ← append_option kw "distance_tolerance"
       (fun v => Ok ("NearDis=" +:+ format_distance v)) fields;
     fields ← append_option kw "altitude_tolerance"
       (fun v => Ok ("NearAlt=" +:+ format_distance v)) fields;
     fields ← append_option kw "min_distance"
       (fun v => s ← format_s v; Ok ("MinDis=" +:+ s)) fields;
     fields ← append_option kw "random_order"
       (fun v => s ← format_s v; Ok ("RandomOrder=" +:+ s)) fields;
     fields ← append_option kw "max_points"
       (fun v => s ← format_d v; Ok ("MaxPts=" +:+ s)) fields;
     fields ← append_option kw "before_points"
       (fun v => s ← format_d v; Ok ("BeforePts=" +:+ s)) fields;
     fields ← append_option kw "after_points"
       (fun v => s ← format_d v; Ok ("AfterPts=" +:+ s)) fields;
     fields ← append_option kw "bonus"
       (fun v => s ← format_d v; Ok ("Bonus=" +:+ s)) fields;
     Ok fields) = append_rows kw option_table ["Options"]).
  { unfold option_table. cbn [append_rows].
    change (Ok ["Options"] ≫= ?k) with (k ["Options"]). cbv beta.
    repeat (apply result_bind_ext; [|intros ?]); try done;
      try (apply append_option_ext; intros v).
    - unfold time_formatted. apply str_add_token.
    - unfold duration_formatted.
      destruct (format_timedelta v); simpl; [apply str_add_token|done]. }
  unfold write_task_options. rewrite Hrows.
  unfold mbind, M_bind, get_in_task_section, raise, lift.
  destruct (in_task_section w); simpl; [|done].
  by destruct (append_rows _ _ _).
Qed.

Lemma mapM_result_length {A B} (f : A -> result B) (l : list A) (k : list B) :
  mapM f l = Ok k -> length k = length l.
Proof.
  revert k. induction l as [|a l IH]; intros k; simpl.
  - by intros [= <-].
  - destruct (f a) as [b|e]; simpl; [|done].
    destruct (mapM f l) as [k'|e]; simpl; [|done].
    intros [= <-]. simpl. by rewrite (IH k').
Qed.

(** Appending the rows one by one gives the fields of the supplied rows,
    after the fields there were. *)
Lemma omap_select_cons (kw : gmap string pyval) (key token : string)
    (fmt : pyval -> result string)
    (rows : list (string * string * (pyval -> result string))) :
  omap (select kw) ((key, token, fmt) :: rows) =
  match kw !! key with
  | Some v => (token, fmt, v) :: omap (select kw) rows
  | None => omap (select kw) rows
  end.
Proof. unfold select at 1. cbn. by destruct (kw !! key). Qed.

Lemma append_rows_supplied (kw : gmap string pyval)
    (rows : list (string * string * (pyval -> result string)))
    (fields : list string) :
  append_rows kw rows fields =
  fs ← mapM render (omap (select kw) rows); Ok (fields ++ fs)%list.
Proof.
  revert fields. induction rows as [|[[key token] fmt] rows IH];
    intros fields.
  - cbn. by rewrite app_nil_r.
  - rewrite omap_select_cons. cbn [append_rows]. unfold append_option.
    destruct (kw !! key) as [v|]; cbn.
    + destruct (fmt v) as [s|e]; cbn; [|done].
      rewrite IH. destruct (mapM render _); cbn; [|done].
      by rewrite <- app_assoc.
    + apply IH.
Qed.

Lemma supplied_length (kw : gmap string pyval)
    (rows : list (string * string * (pyval -> result string))) :
  length (omap (select kw) rows) =
  length (filter (fun key => is_Some (kw !! key)) ((fun e => e.1.1) <$> rows)).
Proof.
  induction rows as [|[[key token] fmt] rows IH]; [done|].
  rewrite omap_select_cons, fmap_cons, filter_cons. cbn [fst].
  destruct (kw !! key) as [v|] eqn:Hv.
  - destruct (decide (is_Some (Some v))) as [_|Hno]; [|by destruct Hno].
    cbn [length]. by rewrite IH.
  - destruct (decide (is_Some None)) as [[? [=]]|_]. exact IH.
Qed.

Lemma supplied_insert_other (kw : gmap string pyval) (key : string) (v : pyval)
    (rows : list (string * string * (pyval -> result string))) :
  key ∉ (fun e => e.1.1) <$> rows ->
  omap (select (<[ key := v ]> kw)) rows = omap (select kw) rows.
Proof.
  induction rows as [|[[key' token] fmt] rows IH]; [done|].
  rewrite fmap_cons, not_elem_of_cons. cbn [fst]. intros [Hne Hnot].
  rewrite !omap_select_cons, lookup_insert_ne by done. by rewrite IH.
Qed.

(** C8.  In the task section [write_task_options] writes one line, the
    fields joined by commas and ended by CR LF: the literal [Options],
    then, in the order of the table, one field for each key of the table
    that is supplied, the token followed by the formatted value; a key
    that is not supplied gives no field and a key that is not in the
    table changes nothing.  (When a value cannot be formatted the error
    is raised and nothing is written.) *)
Theorem write_task_options_table :
  (forall (kw : gmap string pyval) (w : Writer),
     in_task_section w = true ->
     write_task_options kw w =
     match option_fields kw with
     | Ok fields => (Ok tt, append_lines w [options_line fields])
     | Raise e => (Raise e, w)
     end) /\
  (forall (kw : gmap string pyval) (fields : list string),
     option_fields kw = Ok fields ->
     length fields =
     length (filter (fun key => is_Some (kw !! key)) recognized_keys)) /\
  (forall (kw : gmap string pyval) (key : string) (v : pyval),
     key ∉ recognized_keys ->
     option_fields (<[ key := v ]> kw) = option_fields kw) /\
  option_fields ∅ = Ok [] /\
  option_fields docstring_options =
  Ok ["NoStart=12:34:56"; "TaskTime=01:45:12"; "WpDis=False";
      "NearDis=0.7km"; "NearAlt=300.0m"].
Proof.
  assert (Hsupplied : forall kw, supplied kw = omap (select kw) option_table)
    by done.
  assert (Hfields : forall kw,
             option_fields kw = mapM render (supplied kw)) by done.
  split; [|split; [|split; [|split]]].
  - intros kw w Hphase.
    rewrite write_task_options_rows, Hphase, append_rows_supplied.
    rewrite Hfields, Hsupplied. by destruct (mapM render _).
  - intros kw fields Hok. rewrite Hfields in Hok.
    rewrite (mapM_result_length _ _ _ Hok), Hsupplied.
    apply supplied_length.
  - intros kw key v Hnot.
    by rewrite !Hfields, !Hsupplied, supplied_insert_other.
  - reflexivity.
  - by vm_compute.
Qed.

End OptionProperties.

(** ** Concrete runs *)

Lemma meiersberg_declared :
  Forall (fun n => n ∈ wps (@run sample_runtime [CallWaypoint meiersberg]
                              (new_writer [])))
         ["Meiersberg"].
Proof.
  apply Forall_cons. split; [|constructor].
  refine (bool_decide_unpack _ _). by vm_compute.
Qed.

Lemma write_task_first_and_subsequent_witness :
  let w := @run sample_runtime [CallWaypoint meiersberg] (new_writer []) in
  Forall (fun n => n ∈ wps w) ["Meiersberg"] /\
  write_task (Some "500 km FAI") ["Meiersberg"] w =
  (Ok tt,
   {| fp := (fp w
             ++ (if existsb is_task_call [CallWaypoint meiersberg] then []
                 else [CRLF; DIVIDER +:+ CRLF])
             ++ [task_line (Some "500 km FAI") ["Meiersberg"] +:+ CRLF])%list;
      wps := wps w;
      in_task_section := true |}).
Proof.
  split; [exact meiersberg_declared|].
  exact (@write_task_first_and_subsequent sample_runtime []
           [CallWaypoint meiersberg] (Some "500 km FAI") ["Meiersberg"]
           meiersberg_declared).
Defined.

Lemma invalid_state_errors_witness :
  (in_task_section task_section_writer = true /\
   @write_waypoint sample_runtime meiersberg task_section_writer =
   (Raise (RuntimeError "Waypoints must be written before any tasks"),
    task_section_writer)) /\
  (in_task_section (new_writer []) = false /\
   @write_task_options sample_runtime docstring_options (new_writer []) =
   (Raise (RuntimeError "Task options have to be written in task section"),
    new_writer [])).
Proof.
  split; (split; [reflexivity|]).
  - apply (proj1 (@invalid_state_errors sample_runtime)). reflexivity.
  - apply (proj1 (proj2 (@invalid_state_errors sample_runtime))). reflexivity.
Defined.

Lemma write_task_options_table_witness :
  in_task_section task_section_writer = true /\
  @write_task_options sample_runtime docstring_options task_section_writer =
  match @option_fields sample_runtime docstring_options with
  | Ok fields => (Ok tt, append_lines task_section_writer [options_line fields])
  | Raise e => (Raise e, task_section_writer)
  end.
Proof.
  split; [reflexivity|].
  apply (proj1 (@write_task_options_table sample_runtime)). reflexivity.
Defined.

Lemma state_monotone_witness :
  let w := @run sample_runtime [CallTask None []] (new_writer []) in
  in_task_section w = true /\
  in_task_section
    (@run sample_runtime ([CallTask None []] ++ [CallWaypoint meiersberg])
       (new_writer [])) = true.
Proof.
  split; [reflexivity|].
  apply (proj2 (@state_monotone sample_runtime [CallTask None []]
                  [CallWaypoint meiersberg] (new_writer []))).
  reflexivity.
Defined.

Lemma frame_effects_witness :
  wps (snd (@exec sample_runtime (CallWaypoint meiersberg) (new_writer []))) <>
  wps (new_writer []) /\
  exists p n,
    CallWaypoint meiersberg = CallWaypoint p /\
    fst (@exec sample_runtime (CallWaypoint meiersberg) (new_writer [])) = Ok tt /\
    name p = Some n /\
    wps (snd (@exec sample_runtime (CallWaypoint meiersberg) (new_writer []))) =
    {[ n ]} ∪ wps (new_writer []).
Proof.
  assert (Hne : wps (snd (@exec sample_runtime (CallWaypoint meiersberg)
                            (new_writer []))) <> wps (new_writer [])).
  { vm_compute. discriminate. }
  split; [exact Hne|].
  exact (proj1 (proj2 (proj2 (@frame_effects sample_runtime))) _ _ Hne).
Defined.

(** ** The writer as a whole: what a waypoint write does, what the sink
    looks like *)

Section WaypointProperties.

Context `{PyRuntime}.

(** The four ways out of [write_waypoint], in the order the method tries
    them, and its one way through. *)
Lemma write_waypoint_cases (p : waypoint) (w : Writer) :
  (exists n lat lon,
     in_task_section w = false /\ name p = Some n /\ n <> "" /\
     format_latitude (latitude p) = Ok lat /\
     format_longitude (longitude p) = Ok lon /\
     write_waypoint p w =
     (Ok tt, {| fp := (fp w ++ [waypoint_line p lat lon])%list;
                wps := {[ n ]} ∪ wps w; in_task_section := false |})) \/
  (exists e,
     write_waypoint p w = (Raise e, w) /\
     (in_task_section w = true \/
      e = ValueError "Waypoint name must not be empty" \/
      format_latitude (latitude p) = Raise e \/
      format_longitude (longitude p) = Raise e)).
Proof.
  unfold write_waypoint, mbind, M_bind, get_in_task_section, raise, lift,
    write_fields, write_line, fp_write, wps_add.
  destruct w as [sink names [|]]; cbn [in_task_section fp wps].
  { right. eexists. split; [reflexivity|by left]. }
  destruct (name p) as [[|c n]|] eqn:Hname.
  - right. eexists. split; [reflexivity|]. right. by left.
  - destruct (format_latitude (latitude p)) as [lat|e] eqn:Hlat.
    + destruct (format_longitude (longitude p)) as [lon|e] eqn:Hlon.
      * left. exists (String c n), lat, lon.
        repeat split; try done.
        unfold waypoint_line, waypoint_fields. cbn. by rewrite Hname.
      * right. exists e. split; [reflexivity|]. by do 3 right.
    + right. exists e. split; [reflexivity|]. right. right. by left.
  - right. eexists. split; [reflexivity|]. right. by left.
Qed.

Lemma header_columns_joined : HEADER = PyStr.join "," header_columns.
Proof. reflexivity. Qed.

(** X1.  A [write_waypoint] that raises has done nothing: the sink, the
    set of declared names and the flag are as they were.  What it raises
    is the invalid-state error, the empty-name error, or what formatting
    the latitude or the longitude raised. *)
Theorem write_waypoint_raises_unchanged (p : waypoint) (w w' : Writer)
    (e : exn) :
  write_waypoint p w = (Raise e, w') ->
  w' = w /\
  (e = RuntimeError "Waypoints must be written before any tasks" \/
   e = ValueError "Waypoint name must not be empty" \/
   format_latitude (latitude p) = Raise e \/
   format_longitude (longitude p) = Raise e).
Proof.
  intros Hrun.
  destruct (write_waypoint_cases p w)
    as [(n & lat & lon & _ & _ & _ & _ & _ & Hok)|(e' & Hfail & Hwhy)].
  - rewrite Hok in Hrun. discriminate Hrun.
  - rewrite Hfail in Hrun. injection Hrun as He Hw. subst e' w'.
    split; [done|].
    destruct Hwhy as [Hphase|Hwhy]; [|by right].
    left. destruct w as [sink names phase]. cbn in Hphase. subst phase.
    cbn in Hfail. by injection Hfail as <-.
Qed.

(** X2.  Before the task section, a missing or empty name is refused with
    the empty-name error whatever the other arguments are, the
    coordinates included: the name is looked at before the coordinates
    are.  Nothing is written. *)
Theorem write_waypoint_empty_name (p : waypoint) (w : Writer) :
  in_task_section w = false ->
  name p = None \/ name p = Some "" ->
  write_waypoint p w =
  (Raise (ValueError "Waypoint name must not be empty"), w).
Proof.
  intros Hphase Hname.
  unfold write_waypoint, mbind, M_bind, get_in_task_section, raise.
  rewrite Hphase. by destruct Hname as [->| ->].
Qed.

(** X3.  A [write_waypoint] that returns has written one entry, a line of
    as many fields as the header has columns, joined by commas and ended by
    CR LF, and has added the name, which is not empty, to the declared
    names; the flag is as it was, unset.  A name declared already is
    accepted again: the line is written and the set stays the same. *)
Theorem write_waypoint_returns (p : waypoint) (w w' : Writer) :
  write_waypoint p w = (Ok tt, w') ->
  exists n lat lon,
    name p = Some n /\ n <> "" /\
    format_latitude (latitude p) = Ok lat /\
    format_longitude (longitude p) = Ok lon /\
    length (waypoint_fields p lat lon) = length header_columns /\
    HEADER = PyStr.join "," header_columns /\
    fp w' = (fp w ++ [PyStr.join "," (waypoint_fields p lat lon) +:+ CRLF])%list /\
    wps w' = {[ n ]} ∪ wps w /\
    in_task_section w = false /\ in_task_section w' = false /\
    (n ∈ wps w -> wps w' = wps w).
Proof.
  intros Hrun.
  destruct (write_waypoint_cases p w)
    as [(n & lat & lon & Hphase & Hn & Hne & Hlat & Hlon & Hok)
       |(e' & Hfail & _)].
  - rewrite Hok in Hrun. injection Hrun as <-.
    exists n, lat, lon. cbn [fp wps in_task_section].
    repeat split; try done.
    intros Hin.
    apply subseteq_union_1_L. by apply singleton_subseteq_l.
  - rewrite Hfail in Hrun. discriminate Hrun.
Qed.

(** X7.  What [write_waypoint] declares is the name, and only the name: a
    task that lists it can be written next, while a task that lists
    another text that was not declared before, the short name of the
    waypoint for one, is refused with the not-found error. *)
Theorem task_after_waypoint (p : waypoint) (w w' : Writer) (n other : string)
    (description : option string) :
  write_waypoint p w = (Ok tt, w') ->
  name p = Some n ->
  fst (write_task description [n] w') = Ok tt /\
  (other <> n -> other ∉ wps w ->
   write_task description [other] w' = (Raise (not_found other), opened w')).
Proof.
  intros Hrun Hname.
  assert (Hwps : wps w' = {[ n ]} ∪ wps w).
  { destruct (write_waypoint_cases p w)
      as [(n' & lat & lon & _ & Hn' & _ & _ & _ & Hok)|(e & Hfail & _)].
    - rewrite Hok in Hrun. injection Hrun as <-. cbn [wps]. congruence.
    - rewrite Hfail in Hrun. discriminate Hrun. }
  split.
  - rewrite write_task_unfold, (task_fields_declared _ [n]).
    + done.
    + apply Forall_cons. split; [|constructor]. rewrite Hwps.
      by apply elem_of_union_l, elem_of_singleton.
  - intros Hne Hnot. rewrite write_task_unfold.
    rewrite (task_fields_undeclared _ [] [] _ other); [done|constructor|].
    rewrite Hwps, not_elem_of_union, not_elem_of_singleton. done.
Qed.

(** *** The sink over a sequence of calls *)

Lemma crlf_terminated_line (line : string) : crlf_terminated (line +:+ CRLF).
Proof. by exists line. Qed.

Lemma exec_appends (c : call) (w : Writer) :
  exists lines,
    fp (snd (exec c w)) = (fp w ++ lines)%list /\ Forall crlf_terminated lines.
Proof.
  destruct c as [p|d l|kw]; cbn [exec].
  - destruct (write_waypoint_cases p w)
      as [(n & lat & lon & _ & _ & _ & _ & _ & ->)|(e & -> & _)].
    + eexists. split; [reflexivity|].
      repeat constructor. apply crlf_terminated_line.
    + exists []. by rewrite app_nil_r.
  - rewrite write_task_unfold.
    assert (Hopen : exists lines, fp (opened w) = (fp w ++ lines)%list /\
                                  Forall crlf_terminated lines).
    { unfold opened. destruct (in_task_section w).
      - exists []. by rewrite app_nil_r.
      - exists task_section_opening. split; [done|].
        repeat constructor; [by exists ""|apply crlf_terminated_line]. }
    destruct Hopen as (lines & Hfp & Hlines).
    destruct (task_fields _ _ _) as [fields|e]; cbn [snd].
    + exists (lines ++ [PyStr.join "," fields +:+ CRLF])%list.
      unfold append_lines. cbn [fp]. rewrite Hfp, <- app_assoc.
      split; [done|]. apply Forall_app. split; [done|].
      repeat constructor. apply crlf_terminated_line.
    + by exists lines.
  - rewrite write_task_options_rows.
    destruct (in_task_section w).
    + destruct (append_rows _ _ _) as [fields|e]; cbn [snd].
      * eexists. split; [reflexivity|].
        repeat constructor. apply crlf_terminated_line.
      * exists []. by rewrite app_nil_r.
    + exists []. by rewrite app_nil_r.
Qed.

(** X4.  The writer only appends to its sink, and what it appends are
    lines ended by CR LF: after any sequence of calls, failed ones
    included, the sink holds what it held, followed by such lines. *)
Theorem sink_append_only (calls : list call) (w : Writer) :
  exists lines,
    fp (run calls w) = (fp w ++ lines)%list /\ Forall crlf_terminated lines.
Proof.
  induction calls as [|c calls IH] using rev_ind.
  - exists []. by rewrite app_nil_r.
  - destruct IH as (lines & Hfp & Hlines).
    destruct (exec_appends c (run calls w)) as (more & Hfp' & Hmore).
    exists (lines ++ more)%list. rewrite run_snoc, Hfp', Hfp, <- app_assoc.
    split; [done|]. by apply Forall_app.
Qed.

(** X5.  Every declared name of a writer was the name of a
    [write_waypoint] call made on it, and is not empty. *)
Theorem declared_names_written (sink : list string) (calls : list call)
    (n : string) :
  n ∈ wps (run calls (new_writer sink)) ->
  n <> "" /\ exists p, In (CallWaypoint p) calls /\ name p = Some n.
Proof.
  induction calls as [|c calls IH] using rev_ind.
  - cbn. set_solver.
  - rewrite run_snoc. intros Hin.
    assert (Hold : n ∈ wps (run calls (new_writer sink)) ->
                   n <> "" /\
                   exists p, In (CallWaypoint p) (calls ++ [c]) /\
                             name p = Some n).
    { intros Hn. destruct (IH Hn) as (Hne & p & Hp & Hname).
      split; [done|]. exists p. split; [|done].
      apply in_or_app. by left. }
    destruct c as [p|d l|kw]; cbn [exec] in Hin.
    + destruct (write_waypoint_cases p (run calls (new_writer sink)))
        as [(n' & lat & lon & _ & Hn' & Hne & _ & _ & Hok)|(e & Hfail & _)].
      * rewrite Hok in Hin. cbn [snd wps] in Hin.
        apply elem_of_union in Hin as [Hin|Hin]; [|by apply Hold].
        apply elem_of_singleton in Hin. subst n'.
        split; [done|]. exists p. split; [|done].
        apply in_or_app. right. by left.
      * rewrite Hfail in Hin. by apply Hold.
    + apply Hold. revert Hin. rewrite write_task_unfold.
      destruct (task_fields _ _ _); unfold opened, append_lines;
        by destruct (run calls (new_writer sink)) as [? ? []].
    + apply Hold.
      by destruct (write_task_options_unfold kw
                     (run calls (new_writer sink))) as [<- _].
Qed.

(** *** The parts of the file *)









End WaypointProperties.

(** *** Concrete runs of the waypoint properties *)

Lemma north_of_pole_refused :
  @write_waypoint sample_runtime north_of_pole (new_writer []) =
  (Raise (ValueError "Invalid latitude: "), new_writer []).
Proof. by vm_compute. Qed.

Lemma write_waypoint_raises_unchanged_witness :
  @write_waypoint sample_runtime north_of_pole (new_writer []) =
  (Raise (ValueError "Invalid latitude: "), new_writer []) /\
  new_writer [] = new_writer [] /\
  (ValueError "Invalid latitude: " =
   RuntimeError "Waypoints must be written before any tasks" \/
   ValueError "Invalid latitude: " =
   ValueError "Waypoint name must not be empty" \/
   @format_latitude sample_runtime (latitude north_of_pole) =
   Raise (ValueError "Invalid latitude: ") \/
   @format_longitude sample_runtime (longitude north_of_pole) =
   Raise (ValueError "Invalid latitude: ")).
Proof.
  split; [exact north_of_pole_refused|].
  exact (@write_waypoint_raises_unchanged sample_runtime north_of_pole
           (new_writer []) (new_writer []) (ValueError "Invalid latitude: ")
           north_of_pole_refused).
Defined.

Lemma write_waypoint_empty_name_witness :
  in_task_section (new_writer []) = false /\
  (name nameless = None \/ name nameless = Some "") /\
  @write_waypoint sample_runtime nameless (new_writer []) =
  (Raise (ValueError "Waypoint name must not be empty"), new_writer []).
Proof.
  split; [reflexivity|]. split; [by right|].
  exact (@write_waypoint_empty_name sample_runtime nameless (new_writer [])
           eq_refl (or_intror eq_refl)).
Defined.

Lemma meiersberg_returns :
  @write_waypoint sample_runtime meiersberg (new_writer []) =
  (Ok tt, meiersberg_written).
Proof. by vm_compute. Qed.

Lemma write_waypoint_returns_witness :
  @write_waypoint sample_runtime meiersberg (new_writer []) =
  (Ok tt, meiersberg_written) /\
  exists n lat lon,
    name meiersberg = Some n /\ n <> "" /\
    @format_latitude sample_runtime (latitude meiersberg) = Ok lat /\
    @format_longitude sample_runtime (longitude meiersberg) = Ok lon /\
    length (@waypoint_fields sample_runtime meiersberg lat lon) =
    length header_columns /\
    HEADER = PyStr.join "," header_columns /\
    fp meiersberg_written =
    (fp (new_writer []) ++
     [PyStr.join "," (@waypoint_fields sample_runtime meiersberg lat lon)
      +:+ CRLF])%list /\
    wps meiersberg_written = {[ n ]} ∪ wps (new_writer []) /\
    in_task_section (new_writer []) = false /\
    in_task_section meiersberg_written = false /\
    (n ∈ wps (new_writer []) -> wps meiersberg_written = wps (new_writer [])).
Proof.
  split; [exact meiersberg_returns|].
  exact (@write_waypoint_returns sample_runtime meiersberg (new_writer [])
           meiersberg_written meiersberg_returns).
Defined.

Lemma short_name_undeclared : "MEIER" ∉ wps (new_writer []).
Proof. cbn. apply not_elem_of_empty. Qed.

Lemma task_after_waypoint_witness :
  @write_waypoint sample_runtime meiersberg (new_writer []) =
  (Ok tt, meiersberg_written) /\
  name meiersberg = Some "Meiersberg" /\
  fst (@write_task (Some "500 km FAI") ["Meiersberg"] meiersberg_written) =
  Ok tt /\
  @write_task (Some "500 km FAI") ["MEIER"] meiersberg_written =
  (Raise (not_found "MEIER"), opened meiersberg_written).
Proof.
  split; [exact meiersberg_returns|]. split; [reflexivity|].
  pose proof (@task_after_waypoint sample_runtime meiersberg (new_writer [])
                meiersberg_written "Meiersberg" "MEIER" (Some "500 km FAI")
                meiersberg_returns eq_refl) as [Hgood Hbad].
  split; [exact Hgood|].
  apply Hbad; [discriminate|exact short_name_undeclared].
Defined.

Lemma meiersberg_in_written :
  "Meiersberg" ∈ wps (@run sample_runtime [CallWaypoint meiersberg]
                        (new_writer [])).
Proof. refine (bool_decide_unpack _ _). by vm_compute. Qed.

Lemma declared_names_written_witness :
  "Meiersberg" ∈ wps (@run sample_runtime [CallWaypoint meiersberg]
                        (new_writer [])) /\
  "Meiersberg" <> "" /\
  exists p, In (CallWaypoint p) [CallWaypoint meiersberg] /\
            name p = Some "Meiersberg".
Proof.
  split; [exact meiersberg_in_written|].
  exact (@declared_names_written sample_runtime [] [CallWaypoint meiersberg]
           "Meiersberg" meiersberg_in_written).
Defined.


(** ** Further properties of the field formatters *)

Section EscapeProperties.

Import PyStr PyStrFacts.

(** Reading back what [escape_chars] wrote, whatever follows the closing
    quote. *)
Lemma unescape_escape_chars (s rest : string) :
  unescape (escape_chars s +:+ String dquote rest) = s.
Proof.
  induction s as [|c s IH]; cbn [escape_chars].
  - rewrite app_nil_l. reflexivity.
  - unfold escape_char.
    destruct (Ascii.eqb_spec c backslash) as [->|Hb].
    + rewrite !app_cons, app_nil_l. cbn [unescape].
      change (Ascii.eqb backslash backslash) with true. cbv iota.
      by rewrite IH.
    + destruct (Ascii.eqb_spec c dquote) as [->|Hq].
      * rewrite !app_cons, app_nil_l. cbn [unescape].
        change (Ascii.eqb backslash backslash) with true. cbv iota.
        by rewrite IH.
      * rewrite !app_cons, app_nil_l. cbn [unescape].
        apply Ascii.eqb_neq in Hb, Hq. rewrite Hb, Hq. by rewrite IH.
Qed.

(** X8.  Escaping loses nothing: the text of a field is read back from
    its escaped form by dropping the opening quote and undoing the
    backslashes up to the closing quote, so that two texts with the same
    escaped form are the same text.  The escaped form is empty for a
    missing or empty field and for no other. *)
Theorem escape_round_trip :
  (forall s : string, read_field (escape (Some s)) = s) /\
  (forall s t : string, escape (Some s) = escape (Some t) -> s = t) /\
  (forall field : option string,
     escape field = "" <-> field = None \/ field = Some "").
Proof.
  assert (Hread : forall s : string, read_field (escape (Some s)) = s).
  { intros [|c s]; [done|].
    unfold escape. cbn [is_empty read_field].
    rewrite replace_twice. apply unescape_escape_chars. }
  split; [exact Hread|]. split.
  - intros s t Heq. by rewrite <- (Hread s), <- (Hread t), Heq.
  - intros [[|c s]|]; split; try done; auto.
    intros [Hnone|Hsome]; [discriminate Hnone|discriminate Hsome].
Qed.

End EscapeProperties.

Lemma escape_round_trip_witness :
  escape (Some escape_sample_input) = escape (Some escape_sample_input) /\
  escape_sample_input = escape_sample_input.
Proof.
  split; [reflexivity|].
  exact (proj1 (proj2 escape_round_trip) escape_sample_input
           escape_sample_input eq_refl).
Defined.

Section TimeProperties.

Import PyStr PyStrFacts.

#[local] Arguments is_digit : simpl never.

(** ['%02d' % n] of a number below one hundred: two digits. *)
Lemma format_0d_two_digits (n : Z) :
  0 <= n < 100 ->
  exists a b, PyInt.format_0d 2 n = String a (String b "") /\
              is_digit a = true /\ is_digit b = true.
Proof.
  intros Hn.
  destruct (PyIntFacts.format_0d_spec 2 n) as [Hlen Hall]; [lia|done|].
  destruct (PyInt.format_0d 2 n) as [|a [|b [|c s]]]; try discriminate Hlen.
  cbn [all_digits] in Hall.
  apply andb_prop in Hall as [Ha Hall]. apply andb_prop in Hall as [Hb _].
  by exists a, b.
Qed.

(** X9.  [format_time] gives a text as it is, takes the time of day of a
    [datetime], and renders a time of day as hours, minutes and seconds,
    two digits each, with colons between; the microseconds are dropped.
    Formatting what it returned changes nothing. *)
Theorem format_time_spec :
  (forall s : string, format_time (VStr s) = VStr s) /\
  (forall v : pyval, format_time (format_time v) = format_time v) /\
  (forall (d : PyDatetime.date) (t : PyDatetime.time),
     format_time (VDatetime d t) = format_time (VTime t)) /\
  (forall h m s us : Z,
     format_time (VTime (PyDatetime.Time h m s us)) =
     format_time (VTime (PyDatetime.Time h m s 0))) /\
  (forall t : PyDatetime.time,
     valid_time t ->
     exists text, format_time (VTime t) = VStr text /\
                  matches hms_pattern text = true).
Proof.
  split; [done|]. split; [by intros [[]|]|]. split; [done|]. split; [done|].
  intros [h m s us] (Hh & Hm & Hs). cbn in Hh, Hm, Hs.
  eexists. split; [reflexivity|].
  unfold PyDatetime.strftime_HMS. cbn [PyDatetime.hour PyDatetime.minute
    PyDatetime.second].
  destruct (format_0d_two_digits h) as (h1 & h2 & -> & Hh1 & Hh2); [lia|].
  destruct (format_0d_two_digits m) as (m1 & m2 & -> & Hm1 & Hm2); [lia|].
  destruct (format_0d_two_digits s) as (s1 & s2 & -> & Hs1 & Hs2); [lia|].
  rewrite !app_cons, !app_nil_l. unfold hms_pattern. cbn [matches].
  rewrite Hh1, Hh2, Hm1, Hm2, Hs1, Hs2. reflexivity.
Qed.

End TimeProperties.

Lemma start_time_valid : valid_time (PyDatetime.Time 12 34 56 0).
Proof. unfold valid_time. cbn. lia. Qed.

Lemma format_time_spec_witness :
  valid_time (PyDatetime.Time 12 34 56 0) /\
  exists text,
    format_time (VTime (PyDatetime.Time 12 34 56 0)) = VStr text /\
    PyStr.matches hms_pattern text = true.
Proof.
  split; [exact start_time_valid|].
  exact (proj2 (proj2 (proj2 (proj2 format_time_spec)))
           (PyDatetime.Time 12 34 56 0) start_time_valid).
Defined.

(** ** Coordinates *)

Section CoordinateProperties.

Context `{PyRuntime}.

Import PyFloat PyStr PyStrFacts PyFloatFacts.

#[local] Arguments is_digit : simpl never.

(** The bounds of the two ranges, and zero, as floats. *)
Lemma of_Z_bounds :
  of_Z 90 = S754_finite false 6333186975989760 (-46) /\
  of_Z (-90) = S754_finite true 6333186975989760 (-46) /\
  of_Z 180 = S754_finite false 6333186975989760 (-45) /\
  of_Z (-180) = S754_finite true 6333186975989760 (-45) /\
  of_Z 0 = S754_zero false.
Proof. by vm_compute. Qed.

(** The bound of a range: mantissa and exponent. *)
Lemma of_Z_coordinate_bound (is_latitude : bool) :
  exists eB,
    of_Z (coordinate_bound is_latitude) =
    S754_finite false 6333186975989760 eB /\
    of_Z (- coordinate_bound is_latitude) =
    S754_finite true 6333186975989760 eB /\
    -1074 < eB < 0 /\
    Zpos 6333186975989760 = coordinate_bound is_latitude * 2 ^ (- eB).
Proof.
  destruct of_Z_bounds as (H90 & Hm90 & H180 & Hm180 & _).
  destruct is_latitude; cbn [coordinate_bound Z.opp].
  - exists (-46). split; [exact H90|]. split; [exact Hm90|]. by split.
  - exists (-45). split; [exact H180|]. split; [exact Hm180|]. by split.
Qed.

(** [format_coordinate], the two kinds of coordinate told apart by the
    bound, the digits and the letters only. *)
Lemma format_coordinate_unfold (value : float) (is_latitude : bool) :
  format_coordinate value is_latitude =
  if leb (of_Z (- coordinate_bound is_latitude)) value &&
     leb value (of_Z (coordinate_bound is_latitude))
  then
    degrees ← PyFloatOps.to_int (abs value);
    Ok (PyInt.format_0d (degree_digits is_latitude) degrees +:+
        format_0f 6 3 (mul (sub (abs value) (of_Z degrees)) (of_Z 60)) +:+
        hemisphere is_latitude (ltb value (of_Z 0)))
  else Raise (range_error is_latitude value).
Proof.
  unfold format_coordinate, range_error.
  destruct is_latitude.
  - change (of_Z (- coordinate_bound true)) with (of_Z (-90)).
    change (coordinate_bound true) with 90.
    cbn [degree_digits hemisphere].
    destruct (leb (of_Z (-90)) value && leb value (of_Z 90));
      cbn [negb mbind result_bind]; [|done].
    by destruct (PyFloatOps.to_int (abs value)).
  - change (of_Z (- coordinate_bound false)) with (of_Z (-180)).
    change (coordinate_bound false) with 180.
    cbn [degree_digits hemisphere].
    destruct (leb (of_Z (-180)) value && leb value (of_Z 180));
      cbn [negb mbind result_bind]; [|done].
    by destruct (PyFloatOps.to_int (abs value)).
Qed.

(** A float that is neither finite nor zero fails the range check. *)
Lemma range_check_not_finite (value : float) (is_latitude : bool) :
  is_finite value = false ->
  leb (of_Z (- coordinate_bound is_latitude)) value &&
  leb value (of_Z (coordinate_bound is_latitude)) = false.
Proof.
  destruct (of_Z_coordinate_bound is_latitude) as (eB & -> & -> & _).
  by destruct value as [|[|]| |].
Qed.

(** X10.  [format_coordinate] raises its own range error and no other:
    the conversion of the value to an integer, which fails for a NaN or an
    infinity, is never reached with one, since these fail the range check
    first.  A NaN or an infinity is thus refused with the range error. *)
Theorem format_coordinate_errors :
  (forall (value : float) (is_latitude : bool) (e : exn),
     format_coordinate value is_latitude = Raise e ->
     e = range_error is_latitude value) /\
  (forall (value : float) (is_latitude : bool),
     is_finite value = false ->
     format_coordinate value is_latitude =
     Raise (range_error is_latitude value)).
Proof.
  split.
  - intros value is_latitude e. rewrite format_coordinate_unfold.
    destruct (leb _ value && leb value _) eqn:Hcheck.
    + destruct value as [s|s| |s m e']; cbn [abs SFabs PyFloatOps.to_int];
        try discriminate.
      * by rewrite range_check_not_finite in Hcheck.
      * by rewrite range_check_not_finite in Hcheck.
    + by intros [= <-].
  - intros value is_latitude Hfin.
    by rewrite format_coordinate_unfold, range_check_not_finite.
Qed.

(** The range check of a valid float, in terms of the number it stands
    for. *)
Lemma range_check_in_range (value : float) (is_latitude : bool) :
  valid value = true ->
  leb (of_Z (- coordinate_bound is_latitude)) value &&
  leb value (of_Z (coordinate_bound is_latitude)) = true <->
  in_range (coordinate_bound is_latitude) value.
Proof.
  intros Hvalid.
  destruct (of_Z_coordinate_bound is_latitude) as (eB & -> & -> & HeB & HB).
  destruct value as [s|s| |s m e].
  - split; [intros _|by destruct s].
    unfold in_range, Qle. cbn [is_finite to_Q Qnum Qden inject_Z].
    destruct is_latitude; cbn [coordinate_bound]; repeat split; lia.
  - split; [by destruct s|]. by intros [Hfin _].
  - split; [done|]. by intros [Hfin _].
  - rewrite leb_bound. symmetry. by apply in_range_finite.
Qed.

(** A coordinate in range is formatted. *)
Lemma format_coordinate_accepts (value : float) (is_latitude : bool) :
  valid value = true ->
  in_range (coordinate_bound is_latitude) value ->
  exists text, format_coordinate value is_latitude = Ok text.
Proof.
  intros Hvalid Hin.
  rewrite format_coordinate_unfold.
  rewrite (proj2 (range_check_in_range value is_latitude Hvalid) Hin).
  destruct Hin as [Hfin _].
  destruct value; try discriminate Hfin; by eexists.
Qed.

(** X11.  For a float the interpreter can hold, [format_coordinate]
    returns exactly when the number is in the range, from -90 to 90 for
    a latitude and from -180 to 180 for a longitude, the bounds included,
    and raises the range error otherwise. *)
Theorem format_coordinate_range (value : float) (is_latitude : bool) :
  valid value = true ->
  (in_range (coordinate_bound is_latitude) value ->
   exists text, format_coordinate value is_latitude = Ok text) /\
  (~ in_range (coordinate_bound is_latitude) value ->
   format_coordinate value is_latitude =
   Raise (range_error is_latitude value)).
Proof.
  intros Hvalid.
  pose proof (range_check_in_range value is_latitude Hvalid) as Hcheck.
  rewrite format_coordinate_unfold.
  destruct (leb _ value && leb value _).
  - split; [intros [Hfin _]|intros Hout; by destruct Hout; apply Hcheck].
    destruct value; try discriminate Hfin; by eexists.
  - split; [|done]. intros Hin. apply Hcheck in Hin. discriminate Hin.
Qed.

(** *** The text of a coordinate in range *)

Lemma two_digits (s : string) :
  String.length s = 2%nat -> all_digits s = true ->
  exists a b, s = String a (String b "") /\
              is_digit a = true /\ is_digit b = true.
Proof.
  destruct s as [|a [|b [|c s]]]; try discriminate.
  intros _ Hall. cbn [all_digits] in Hall.
  apply andb_prop in Hall as [Ha Hall]. apply andb_prop in Hall as [Hb _].
  by exists a, b.
Qed.

Lemma three_digits (s : string) :
  String.length s = 3%nat -> all_digits s = true ->
  exists a b c, s = String a (String b (String c "")) /\
                is_digit a = true /\ is_digit b = true /\ is_digit c = true.
Proof.
  destruct s as [|a [|b [|c [|d s]]]]; try discriminate.
  intros _ Hall. cbn [all_digits] in Hall.
  apply andb_prop in Hall as [Ha Hall]. apply andb_prop in Hall as [Hb Hall].
  apply andb_prop in Hall as [Hc _].
  by exists a, b, c.
Qed.

(** ['%06.3f' % x] of a float from zero to sixty-four: two digits, the
    point, three digits. *)
Lemma format_0f_minutes (x : float) :
  below_pow2 6 false x ->
  exists a b c d e,
    format_0f 6 3 x =
    String a (String b (String "." (String c (String d (String e ""))))) /\
    is_digit a = true /\ is_digit b = true /\ is_digit c = true /\
    is_digit d = true /\ is_digit e = true.
Proof.
  intros Hbelow.
  pose proof (scaled_below x Hbelow) as Hup.
  pose proof (scaled_nonneg 3 x) as Hlow.
  assert (Hsign : sign_bit x = false).
  { destruct x; cbn [below_pow2] in Hbelow; try done. by destruct Hbelow. }
  assert (Hbody : fixed_body 3 x =
                  PyInt.digits (scaled 3 x / 1000) +:+ "." +:+
                  zfill 3 (PyInt.digits (scaled 3 x mod 1000))).
  { by destruct x. }
  set (n := scaled 3 x) in *.
  destruct (PyIntFacts.digits_spec 2 (n / 1000)) as [[Hlen1 Hlen2] Hall];
    [lia| |].
  { split; [apply Z.div_pos; lia|].
    apply Z.div_lt_upper_bound; [lia|]. change (10 ^ Z.of_nat 2) with 100.
    lia. }
  destruct (PyIntFacts.digits_spec 3 (n mod 1000)) as [[_ Hlen3] Hall3];
    [lia|change (10 ^ Z.of_nat 3) with 1000; apply Z.mod_pos_bound; lia|].
  pose proof (zfill_short 3 _ Hlen3) as HlenF.
  pose proof (all_digits_zfill 3 _ Hall3) as HallF.
  destruct (three_digits _ HlenF HallF) as (c & d & e & HF & Hc & Hd & He).
  assert (Hwhole : exists a b,
             zfill 2 (PyInt.digits (n / 1000)) = String a (String b "") /\
             is_digit a = true /\ is_digit b = true).
  { apply two_digits; [by apply zfill_short|by apply all_digits_zfill]. }
  destruct Hwhole as (a & b & Hwhole & Ha & Hb).
  exists a, b, c, d, e. repeat split; try done.
  unfold format_0f. rewrite Hsign, Hbody, HF.
  cbn [PyInt.sign_str String.length]. rewrite app_nil_l.
  unfold zfill in Hwhole |- *.
  rewrite !length_app. cbn [String.length].
  replace (6 - 0 - (String.length (PyInt.digits (n / 1000)) + (1 + 3)))%nat
    with (2 - String.length (PyInt.digits (n / 1000)))%nat by lia.
  by rewrite <- app_assoc, Hwhole.
Qed.

(** The degrees of a coordinate in range: two digits for a latitude,
    three for a longitude. *)
Lemma matches_degrees (is_latitude : bool) (degrees : Z)
    (a b c d e : ascii) (below_zero : bool) :
  0 <= degrees <= coordinate_bound is_latitude ->
  is_digit a = true -> is_digit b = true -> is_digit c = true ->
  is_digit d = true -> is_digit e = true ->
  matches (coordinate_pattern is_latitude)
    (PyInt.format_0d (degree_digits is_latitude) degrees +:+
     String a (String b (String "." (String c (String d (String e ""))))) +:+
     hemisphere is_latitude below_zero) = true.
Proof.
  intros Hdeg Ha Hb Hc Hd He.
  destruct is_latitude; cbn [coordinate_bound degree_digits] in *.
  - destruct (PyIntFacts.format_0d_spec 2 degrees) as [Hlen Hall];
      [lia|change (10 ^ Z.of_nat 2) with 100; lia|].
    destruct (two_digits _ Hlen Hall) as (x & y & -> & Hx & Hy).
    rewrite !app_cons, !app_nil_l.
    unfold coordinate_pattern, latitude_pattern. cbn [matches].
    rewrite Hx, Hy, Ha, Hb, Hc, Hd, He. by destruct below_zero.
  - destruct (PyIntFacts.format_0d_spec 3 degrees) as [Hlen Hall];
      [lia|change (10 ^ Z.of_nat 3) with 1000; lia|].
    destruct (three_digits _ Hlen Hall) as (x & y & z & -> & Hx & Hy & Hz).
    rewrite !app_cons, !app_nil_l.
    unfold coordinate_pattern, longitude_pattern. cbn [matches].
    rewrite Hx, Hy, Hz, Ha, Hb, Hc, Hd, He. by destruct below_zero.
Qed.

(** The comparison with zero that chooses the letter. *)
Lemma ltb_zero_negative (value : float) :
  is_finite value = true -> ltb value (of_Z 0) = negative value.
Proof.
  destruct of_Z_bounds as (_ & _ & _ & _ & ->).
  unfold negative.
  destruct value as [s|s| |s m e]; try discriminate; intros _.
  - cbn [to_Q]. by destruct (Qlt_le_dec 0 0) as [Hlt|Hle].
  - assert (Hsign : (to_Q (S754_finite s m e) < 0)%Q <-> s = true).
    { cbn [to_Q]. unfold Qlt.
      destruct (Z.leb_spec 0 e) as [Hpos|Hneg]; cbn [Qnum Qden inject_Z].
      - pose proof (pow2_pos e Hpos).
        destruct s; [rewrite <- (Pos2Z.opp_pos m)|]; split; try done; nia.
      - destruct s; split; try done; lia. }
    destruct (Qlt_le_dec _ 0) as [Hlt|Hle].
    + apply Hsign in Hlt. by subst s.
    + destruct s; [|done]. exfalso.
      apply (Qle_not_lt _ _ Hle). by apply Hsign.
Qed.

(** X12.  For a float the interpreter can hold and whose number is in
    the range, [format_coordinate] returns the whole degrees of the
    absolute value (its integer part) on two digits for a latitude and
    three for a longitude, then the minutes, which are the float nearest
    to sixty times what is left of the absolute value, with three decimal
    places in a field of six characters padded with zeros, then the
    letter: S or W below zero, N or E otherwise, zero and minus zero
    included.  The text matches [^\d{2}\d{2}\.\d{3}[NS]$] for a latitude
    and [^\d{3}\d{2}\.\d{3}[EW]$] for a longitude. *)
Theorem format_coordinate_in_range (value : float) (is_latitude : bool) :
  valid value = true ->
  in_range (coordinate_bound is_latitude) value ->
  format_coordinate value is_latitude =
  Ok (PyInt.format_0d (degree_digits is_latitude) (whole_degrees value) +:+
      format_0f 6 3 (decimal_minutes value) +:+
      hemisphere is_latitude (negative value)) /\
  0 <= whole_degrees value <= coordinate_bound is_latitude /\
  matches (coordinate_pattern is_latitude)
    (PyInt.format_0d (degree_digits is_latitude) (whole_degrees value) +:+
     format_0f 6 3 (decimal_minutes value) +:+
     hemisphere is_latitude (negative value)) = true.
Proof.
  intros Hvalid Hin.
  pose proof (proj2 (range_check_in_range value is_latitude Hvalid) Hin)
    as Hcheck.
  assert (Hfin : is_finite value = true) by apply Hin.
  rewrite format_coordinate_unfold, Hcheck, (ltb_zero_negative _ Hfin).
  assert (Hparts :
    PyFloatOps.to_int (abs value) = Ok (whole_degrees value) /\
    0 <= whole_degrees value <= coordinate_bound is_latitude /\
    below_pow2 6 false (decimal_minutes value)).
  { destruct value as [s|s| |s m e]; try discriminate Hfin.
    - split; [done|]. split; [by destruct is_latitude|].
      by vm_compute.
    - destruct (of_Z_coordinate_bound is_latitude)
        as (eB & HB1 & HB2 & HeB & HB).
      rewrite HB1, HB2, leb_bound in Hcheck.
      destruct (valid_finite _ _ _ Hvalid) as (_ & Hm & _).
      destruct (range_check_magnitude m 6333186975989760 e eB
                  (coordinate_bound is_latitude) Hm) as [He Hmag];
        [done|lia|exact HB|exact Hcheck|].
      destruct (trunc_bound m e _ He Hmag) as [Htrunc Hdeg].
      unfold decimal_minutes, whole_degrees.
      rewrite (trunc_floor s m e He).
      cbn [abs SFabs PyFloatOps.to_int]. rewrite Htrunc.
      split; [done|]. split; [done|].
      apply mul_60_below, sub_whole_below; [done|].
      destruct is_latitude; cbn [coordinate_bound] in Hdeg; lia. }
  destruct Hparts as (-> & Hdeg & Hminutes).
  cbn [mbind result_bind]. split; [done|]. split; [done|].
  destruct (format_0f_minutes _ Hminutes)
    as (a & b & c & d & e & -> & Ha & Hb & Hc & Hd & He).
  by apply matches_degrees.
Qed.

End CoordinateProperties.

(** *** Concrete runs of the coordinate properties *)

Lemma ninety_one_refused :
  @format_coordinate sample_runtime (PyFloat.of_Z 91) true =
  Raise (ValueError "Invalid latitude: ").
Proof. by vm_compute. Qed.

Lemma format_coordinate_errors_witness :
  (@format_coordinate sample_runtime (PyFloat.of_Z 91) true =
   Raise (ValueError "Invalid latitude: ") /\
   ValueError "Invalid latitude: " =
   @range_error sample_runtime true (PyFloat.of_Z 91)) /\
  (PyFloat.is_finite S754_nan = false /\
   @format_coordinate sample_runtime S754_nan false =
   Raise (@range_error sample_runtime false S754_nan)).
Proof.
  split.
  - split; [exact ninety_one_refused|].
    exact (proj1 (@format_coordinate_errors sample_runtime)
             (PyFloat.of_Z 91) true (ValueError "Invalid latitude: ")
             ninety_one_refused).
  - split; [reflexivity|].
    exact (proj2 (@format_coordinate_errors sample_runtime) S754_nan false
             eq_refl).
Defined.

Lemma meiersberg_latitude_valid : PyFloat.valid meiersberg_latitude = true.
Proof. by vm_compute. Qed.

Lemma meiersberg_latitude_in_range :
  in_range (coordinate_bound true) meiersberg_latitude.
Proof.
  split; [by vm_compute|]. split; vm_compute; discriminate.
Qed.

Lemma ninety_one_valid : PyFloat.valid (PyFloat.of_Z 91) = true.
Proof. by vm_compute. Qed.

Lemma ninety_one_out_of_range :
  ~ in_range (coordinate_bound true) (PyFloat.of_Z 91).
Proof.
  intros (_ & _ & Hle). vm_compute in Hle. by apply Hle.
Qed.

Lemma format_coordinate_range_witness :
  (PyFloat.valid meiersberg_latitude = true /\
   in_range (coordinate_bound true) meiersberg_latitude /\
   exists text,
     @format_coordinate sample_runtime meiersberg_latitude true = Ok text) /\
  (PyFloat.valid (PyFloat.of_Z 91) = true /\
   ~ in_range (coordinate_bound true) (PyFloat.of_Z 91) /\
   @format_coordinate sample_runtime (PyFloat.of_Z 91) true =
   Raise (@range_error sample_runtime true (PyFloat.of_Z 91))).
Proof.
  split.
  - split; [exact meiersberg_latitude_valid|].
    split; [exact meiersberg_latitude_in_range|].
    exact (proj1 (@format_coordinate_range sample_runtime meiersberg_latitude
                    true meiersberg_latitude_valid)
             meiersberg_latitude_in_range).
  - split; [exact ninety_one_valid|].
    split; [exact ninety_one_out_of_range|].
    exact (proj2 (@format_coordinate_range sample_runtime (PyFloat.of_Z 91)
                    true ninety_one_valid)
             ninety_one_out_of_range).
Defined.

Lemma format_coordinate_in_range_witness :
  PyFloat.valid meiersberg_latitude = true /\
  in_range (coordinate_bound true) meiersberg_latitude /\
  @format_coordinate sample_runtime meiersberg_latitude true =
  Ok (PyInt.format_0d (degree_digits true) (whole_degrees meiersberg_latitude)
      +:+ PyFloat.format_0f 6 3 (decimal_minutes meiersberg_latitude)
      +:+ hemisphere true (negative meiersberg_latitude)) /\
  0 <= whole_degrees meiersberg_latitude <= coordinate_bound true /\
  PyStr.matches (coordinate_pattern true)
    (PyInt.format_0d (degree_digits true) (whole_degrees meiersberg_latitude)
     +:+ PyFloat.format_0f 6 3 (decimal_minutes meiersberg_latitude)
     +:+ hemisphere true (negative meiersberg_latitude)) = true.
Proof.
  split; [exact meiersberg_latitude_valid|].
  split; [exact meiersberg_latitude_in_range|].
  exact (@format_coordinate_in_range sample_runtime meiersberg_latitude true
           meiersberg_latitude_valid meiersberg_latitude_in_range).
Defined.

(** ** A whole file *)

Section ScriptProperties.

Context `{PyRuntime}.

Lemma write_waypoint_ok (p : waypoint) (w : Writer) (n lat lon : string) :
  in_task_section w = false -> name p = Some n -> n <> "" ->
  format_latitude (latitude p) = Ok lat ->
  format_longitude (longitude p) = Ok lon ->
  write_waypoint p w =
  (Ok tt, {| fp := (fp w ++ [waypoint_line p lat lon])%list;
             wps := {[ n ]} ∪ wps w; in_task_section := false |}).
Proof.
  intros Hphase Hname Hne Hlat Hlon.
  destruct (write_waypoint_cases p w)
    as [(n' & lat' & lon' & _ & Hn' & _ & Hlat' & Hlon' & ->)
       |(e & Hfail & Hwhy)].
  - congruence.
  - exfalso. revert Hfail.
    unfold write_waypoint, mbind, M_bind, get_in_task_section, raise, lift.
    rewrite Hphase, Hname, Hlat, Hlon. by destruct n.
Qed.

Lemma results_app (calls1 calls2 : list call) (w : Writer) :
  results (calls1 ++ calls2) w =
  (results calls1 w ++ results calls2 (run calls1 w))%list.
Proof.
  revert w. induction calls1 as [|c calls1 IH]; intros w; [done|].
  cbn [app results]. by rewrite IH.
Qed.

(** Well-formed waypoints are all written, each on its line, and their
    names declared. *)
Lemma waypoints_written (waypoints : list waypoint) (w : Writer) :
  in_task_section w = false ->
  Forall well_formed waypoints ->
  Forall (fun r => r = Ok tt) (results (map CallWaypoint waypoints) w) /\
  in_task_section (run (map CallWaypoint waypoints) w) = false /\
  length (fp (run (map CallWaypoint waypoints) w)) =
  (length (fp w) + length waypoints)%nat /\
  (forall p n, In p waypoints -> name p = Some n ->
               n ∈ wps (run (map CallWaypoint waypoints) w)).
Proof.
  intros Hphase Hall. revert w Hphase.
  induction Hall as [|p waypoints Hp _ IH]; intros w Hphase.
  - cbn. repeat split; try done; lia.
  - destruct Hp as ((n & Hn & Hne) & Hvlat & Hlat & Hvlon & Hlon).
    destruct (format_coordinate_accepts _ true Hvlat Hlat) as [lat Hlat'].
    destruct (format_coordinate_accepts _ false Hvlon Hlon) as [lon Hlon'].
    pose proof (write_waypoint_ok p w n lat lon Hphase Hn Hne Hlat' Hlon')
      as Hok.
    cbn [map results]. unfold run. cbn [foldl exec]. rewrite Hok.
    cbn [fst snd].
    destruct (IH {| fp := (fp w ++ [waypoint_line p lat lon])%list;
                    wps := {[ n ]} ∪ wps w; in_task_section := false |}
                eq_refl) as (Hres & Hphase' & Hlen & Hnames).
    unfold run in *. cbn [fp] in Hlen.
    rewrite length_app in Hlen. cbn [length] in *.
    repeat split; try done.
    + by constructor.
    + lia.
    + intros p' n' [<-|Hin] Hn'.
      * assert (n' = n) as -> by congruence.
        apply (run_wps_subseteq (map CallWaypoint waypoints)). cbn [wps].
        by apply elem_of_union_l, elem_of_singleton.
      * by apply (Hnames p').
Qed.

(** Tasks over declared names are all written: two lines to open the
    section, then one line each. *)
Lemma tasks_written (tasks : list task) (w : Writer) :
  Forall (fun t : task => Forall (fun n => n ∈ wps w) t.2) tasks ->
  Forall (fun r => r = Ok tt)
    (results (map (fun t : task => CallTask t.1 t.2) tasks) w) /\
  length (fp (run (map (fun t : task => CallTask t.1 t.2) tasks) w)) =
  (length (fp w) +
   match tasks with
   | [] => 0
   | _ => (if in_task_section w then 0 else 2) + length tasks
   end)%nat.
Proof.
  intros Hall. revert w Hall.
  induction tasks as [|[d l] tasks IH]; intros w Hall.
  - cbn. split; [done|lia].
  - apply Forall_cons in Hall as [Hl Hall]. cbn [snd] in Hl.
    cbn [map results fst snd]. unfold run. cbn [foldl exec].
    rewrite write_task_unfold, (task_fields_declared _ _ _ Hl).
    cbn [fst snd].
    set (w' := append_lines (opened w) _).
    assert (Hwps : wps w' = wps w).
    { unfold w', append_lines, opened. by destruct (in_task_section w). }
    assert (Hphase : in_task_section w' = true).
    { unfold w', append_lines, opened. by destruct w as [? ? []]. }
    assert (Hlen : length (fp w') =
                   (length (fp w) +
                    (if in_task_section w then 0 else 2) + 1)%nat).
    { unfold w', append_lines, opened, task_section_opening.
      destruct (in_task_section w); cbn [fp];
        rewrite !length_app; cbn [length]; lia. }
    destruct (IH w') as [Hres Hlen'].
    { by rewrite Hwps. }
    unfold run in Hlen'. split; [by constructor|].
    rewrite Hlen', Hlen, Hphase.
    destruct (in_task_section w), tasks; cbn [length]; lia.
Qed.

(** X14.  A file written as the docstrings ask, the waypoints first and
    the tasks after them, goes through without an error: when every
    waypoint has a name that is not empty and coordinates in range, and
    every task lists names of these waypoints only, each call returns.
    The sink then holds the header line, one line for each waypoint and,
    when there are tasks, the blank line, the divider and one line for
    each task. *)
Theorem well_formed_script_succeeds (sink : list string)
    (waypoints : list waypoint) (tasks : list task) :
  Forall well_formed waypoints ->
  Forall (lists_names_of waypoints) tasks ->
  Forall (fun r => r = Ok tt)
    (results (script waypoints tasks) (new_writer sink)) /\
  length (fp (run (script waypoints tasks) (new_writer sink))) =
  (length sink + 1 + length waypoints +
   match tasks with [] => 0 | _ => 2 + length tasks end)%nat.
Proof.
  intros Hwf Htasks. unfold script.
  destruct (waypoints_written waypoints (new_writer sink) eq_refl Hwf)
    as (Hres1 & Hphase & Hlen1 & Hnames).
  set (w := run (map CallWaypoint waypoints) (new_writer sink)) in *.
  destruct (tasks_written tasks w) as [Hres2 Hlen2].
  { eapply Forall_impl; [exact Htasks|]. intros [d l] Hl.
    eapply Forall_impl; [exact Hl|]. cbn.
    intros n (p & Hin & Hn). by apply (Hnames p). }
  rewrite results_app, run_app. fold w. split.
  - by apply Forall_app.
  - unfold task in *. rewrite Hlen2, Hlen1, Hphase.
    cbn [new_writer init fp].
    rewrite new_writer_state. cbn [fp]. rewrite length_app. cbn [length].
    destruct tasks; lia.
Qed.

End ScriptProperties.

(** *** A concrete file *)

Lemma meiersberg_longitude_valid : PyFloat.valid meiersberg_longitude = true.
Proof. by vm_compute. Qed.

Lemma meiersberg_longitude_in_range :
  in_range (coordinate_bound false) meiersberg_longitude.
Proof.
  split; [by vm_compute|]. split; vm_compute; discriminate.
Qed.

Lemma sample_waypoints_well_formed : Forall well_formed sample_waypoints.
Proof.
  apply Forall_cons. split; [|constructor].
  split; [exists "Meiersberg"; by split|].
  split; [exact meiersberg_latitude_valid|].
  split; [exact meiersberg_latitude_in_range|].
  split; [exact meiersberg_longitude_valid|exact meiersberg_longitude_in_range].
Qed.

Lemma sample_tasks_listed :
  Forall (lists_names_of sample_waypoints) sample_tasks.
Proof.
  apply Forall_cons. split; [|constructor].
  apply Forall_cons. split; [|constructor].
  exists meiersberg. split; [by left|done].
Qed.

Lemma well_formed_script_succeeds_witness :
  Forall well_formed sample_waypoints /\
  Forall (lists_names_of sample_waypoints) sample_tasks /\
  Forall (fun r => r = Ok tt)
    (@results sample_runtime (script sample_waypoints sample_tasks)
       (new_writer [])) /\
  length (fp (@run sample_runtime (script sample_waypoints sample_tasks)
                (new_writer []))) =
  (length (@nil string) + 1 + length sample_waypoints +
   match sample_tasks with [] => 0 | _ => 2 + length sample_tasks end)%nat.
Proof.
  split; [exact sample_waypoints_well_formed|].
  split; [exact sample_tasks_listed|].
  exact (@well_formed_script_succeeds sample_runtime [] sample_waypoints
           sample_tasks sample_waypoints_well_formed sample_tasks_listed).
Defined.

(** ** Durations *)

Section TimedeltaProperties.

Import PyFloat PyStr PyStrFacts PyFloatExact.

#[local] Arguments is_digit : simpl never.

(** X13.  [format_timedelta] gives a text as it is.  A duration of whole
    seconds, from zero up, is rendered as its hours, minutes and seconds,
    with colons between: the two [divmod] of floats compute the quotients
    and remainders of the integers exactly.  Below one hundred hours each
    of the three numbers has two digits. *)
Theorem format_timedelta_whole_seconds :
  (forall s : string, format_timedelta (VStr s) = Ok (Atom (VStr s))) /\
  (forall td : PyDatetime.timedelta,
     PyDatetime.microseconds td = 0 ->
     0 <= whole_seconds td < 2 ^ 53 ->
     format_timedelta (VTimedelta td) =
     Ok (Atom (VStr (hms (whole_seconds td))))) /\
  (forall total : Z,
     0 <= total < 360000 -> matches hms_pattern (hms total) = true).
Proof.
  split; [done|]. split.
  - intros [days seconds us] Hus Htotal. cbn in Hus. subst us.
    unfold format_timedelta. rewrite total_seconds_whole by done.
    unfold whole_seconds in *.
    cbn [PyDatetime.days PyDatetime.seconds] in *.
    generalize dependent (days * 86400 + seconds). intros total Htotal.
    assert (Hh : 0 <= total / 3600 < 2 ^ 53).
    { split; [apply Z.div_pos; lia|].
      apply Z.div_lt_upper_bound; lia. }
    pose proof (Z.mod_pos_bound total 3600 ltac:(lia)) as Hr.
    assert (Hm : 0 <= total mod 3600 / 60 < 2 ^ 53).
    { split; [apply Z.div_pos; lia|].
      apply Z.div_lt_upper_bound; lia. }
    pose proof (Z.mod_pos_bound (total mod 3600) 60 ltac:(lia)) as Hs.
    assert (Hmod : total mod 3600 mod 60 = total mod 60).
    { apply Z.mod_mod_divide. by exists 60. }
    rewrite (of_Z_whole 3600), (of_Z_whole 60) by done.
    rewrite divmod_whole by lia. cbv iota beta.
    rewrite divmod_whole by lia. cbv iota beta.
    rewrite !to_int_whole by lia. cbn [mbind result_bind].
    unfold hms. by rewrite Hmod.
  - intros total Htotal. unfold hms.
    pose proof (Z.mod_pos_bound total 3600 ltac:(lia)) as Hr.
    pose proof (Z.mod_pos_bound total 60 ltac:(lia)) as Hs.
    destruct (format_0d_two_digits (total / 3600))
      as (h1 & h2 & -> & Hh1 & Hh2).
    { split; [apply Z.div_pos; lia|apply Z.div_lt_upper_bound; lia]. }
    destruct (format_0d_two_digits (total mod 3600 / 60))
      as (m1 & m2 & -> & Hm1 & Hm2).
    { split; [apply Z.div_pos; lia|apply Z.div_lt_upper_bound; lia]. }
    destruct (format_0d_two_digits (total mod 60))
      as (s1 & s2 & -> & Hs1 & Hs2); [lia|].
    rewrite !app_cons, !app_nil_l. unfold hms_pattern. cbn [matches].
    rewrite Hh1, Hh2, Hm1, Hm2, Hs1, Hs2. reflexivity.
Qed.

End TimedeltaProperties.

(** The duration of the docstring of [write_task_options]: one hour,
    forty-five minutes and twelve seconds. *)
Lemma task_time_whole :
  PyDatetime.microseconds (PyDatetime.Timedelta 0 6312 0) = 0 /\
  0 <= whole_seconds (PyDatetime.Timedelta 0 6312 0) < 2 ^ 53.
Proof. split; [done|]. unfold whole_seconds. cbn. lia. Qed.

Lemma format_timedelta_whole_seconds_witness :
  (PyDatetime.microseconds (PyDatetime.Timedelta 0 6312 0) = 0 /\
   0 <= whole_seconds (PyDatetime.Timedelta 0 6312 0) < 2 ^ 53 /\
   format_timedelta (VTimedelta (PyDatetime.Timedelta 0 6312 0)) =
   Ok (Atom (VStr (hms (whole_seconds (PyDatetime.Timedelta 0 6312 0)))))) /\
  (0 <= 6312 < 360000 /\ PyStr.matches hms_pattern (hms 6312) = true).
Proof.
  split.
  - split; [exact (proj1 task_time_whole)|].
    split; [exact (proj2 task_time_whole)|].
    exact (proj1 (proj2 format_timedelta_whole_seconds)
             (PyDatetime.Timedelta 0 6312 0)
             (proj1 task_time_whole) (proj2 task_time_whole)).
  - assert (Hrange : 0 <= 6312 < 360000) by lia.
    split; [exact Hrange|].
    exact (proj2 (proj2 format_timedelta_whole_seconds) 6312 Hrange).
Defined.

(** ** Options of the documented types *)

Section OptionTypes.

Context `{PyRuntime}.

Import PyFloat.

Lemma mapM_render_ok (kw : gmap string pyval)
    (rows : list (string * string * (pyval -> result string))) :
  (forall key token fmt v,
     In (key, token, fmt) rows -> kw !! key = Some v ->
     exists s, fmt v = Ok s) ->
  exists fields, mapM render (omap (select kw) rows) = Ok fields.
Proof.
  induction rows as [|[[key token] fmt] rows IH]; intros Hrows.
  - by exists [].
  - destruct IH as [fields Hfields].
    { intros key' token' fmt' v Hin. apply (Hrows key' token' fmt' v).
      by right. }
    rewrite omap_select_cons. destruct (kw !! key) as [v|] eqn:Hv.
    + destruct (Hrows key token fmt v) as [s Hs]; [by left|done|].
      exists ((token +:+ s) :: fields). cbn. by rewrite Hs, Hfields.
    + by exists fields.
Qed.

(** Each formatter of the table accepts the values of the type its key is
    documented with. *)
Lemma documented_type_formatted (key token : string)
    (fmt : pyval -> result string) (v : pyval) :
  In (key, token, fmt) option_table ->
  documented_type key v -> exists s, fmt v = Ok s.
Proof.
  unfold option_table. cbn [In].
  intros [Hrow|[Hrow|[Hrow|[Hrow|[Hrow|[Hrow|[Hrow|[Hrow|[Hrow|[Hrow|[Hrow|[]
    ]]]]]]]]]]];
    injection Hrow as <- <- <-; unfold documented_type; cbn [String.eqb];
    intros Htype.
  - destruct v as [[]|]; try done; by eexists.
  - destruct v as [[| | | | | | |td]|]; try done; [by eexists|].
    destruct Htype as [Hus Hrange]. unfold duration_formatted.
    destruct td as [days seconds us]. cbn in Hus. subst us.
    unfold format_timedelta.
    rewrite PyFloatExact.total_seconds_whole by exact Hrange.
    unfold whole_seconds in Hrange.
    cbn [PyDatetime.days PyDatetime.seconds] in Hrange.
    generalize dependent (days * 86400 + seconds). intros total Htotal.
    assert (0 <= total / 3600 < 2 ^ 53).
    { split; [apply Z.div_pos; lia|apply Z.div_lt_upper_bound; lia]. }
    pose proof (Z.mod_pos_bound total 3600 ltac:(lia)).
    assert (0 <= total mod 3600 / 60 < 2 ^ 53).
    { split; [apply Z.div_pos; lia|apply Z.div_lt_upper_bound; lia]. }
    pose proof (Z.mod_pos_bound (total mod 3600) 60 ltac:(lia)).
    rewrite (PyFloatExact.of_Z_whole 3600), (PyFloatExact.of_Z_whole 60)
      by done.
    rewrite PyFloatExact.divmod_whole by lia. cbv iota beta.
    rewrite PyFloatExact.divmod_whole by lia. cbv iota beta.
    rewrite !PyFloatExact.to_int_whole by lia. by eexists.
  - destruct v; try done; by eexists.
  - by eexists.
  - by eexists.
  - destruct v; try done; by eexists.
  - destruct v; try done; by eexists.
  - destruct v as [[]|]; try done; by eexists.
  - destruct v as [[]|]; try done; by eexists.
  - destruct v as [[]|]; try done; by eexists.
  - destruct v as [[]|]; try done; by eexists.
Qed.

(** X15.  With the task section open, [write_task_options] returns, and
    writes its one line, whenever the values supplied have the types the
    docstring gives to their keys: a time, a datetime or a text for the
    start time; a duration of whole seconds or a text for the task time;
    integers for the four counts; single values, not pairs, for the three
    flags; anything for the two tolerances and for the keys the table does
    not have. *)
Theorem documented_options_accepted (kw : gmap string pyval) (w : Writer) :
  in_task_section w = true ->
  documented kw ->
  exists fields,
    option_fields kw = Ok fields /\
    write_task_options kw w = (Ok tt, append_lines w [options_line fields]).
Proof.
  intros Hphase Hdoc.
  destruct (mapM_render_ok kw option_table) as [fields Hfields].
  { intros key token fmt v Hin Hv.
    apply (documented_type_formatted key token fmt v Hin).
    by apply Hdoc. }
  exists fields. split; [exact Hfields|].
  rewrite write_task_options_rows, Hphase, append_rows_supplied.
  unfold option_fields, supplied in Hfields. rewrite Hfields.
  cbn [mbind result_bind]. reflexivity.
Qed.

End OptionTypes.

Lemma docstring_options_documented : documented docstring_options.
Proof.
  intros key v. unfold docstring_options.
  rewrite !lookup_insert_Some, lookup_empty.
  intros [[<- <-]|[_ [[<- <-]|[_ [[<- <-]|[_ [[<- <-]|[_ [[<- <-]|[_ [=]]]]]]]]]]];
    unfold documented_type; cbn [String.eqb]; done.
Qed.

Lemma documented_options_accepted_witness :
  in_task_section task_section_writer = true /\
  documented docstring_options /\
  exists fields,
    @option_fields sample_runtime docstring_options = Ok fields /\
    @write_task_options sample_runtime docstring_options task_section_writer =
    (Ok tt, append_lines task_section_writer [options_line fields]).
Proof.
  split; [reflexivity|]. split; [exact docstring_options_documented|].
  exact (@documented_options_accepted sample_runtime docstring_options
           task_section_writer eq_refl docstring_options_documented).
Defined.
